(** * Umami analytics core: connection pool, filter translation, query
      routing, daily aggregation and event collection.

    A shallow embedding of
      - [src/lib/clickhouse.ts]            (module [Clickhouse]),
      - [src/queries/analytics/pageviews/getPageviewStats.ts] (module [Pageviews]),
      - [src/scripts/aggregate-stats.ts]   (module [Aggregation]),
      - [src/pages/api/send.ts]            (module [Collect]),
      - [src/queries/prisma/website.ts]    (modules [Schema], [WebsiteQueries]),
    followed by the properties proved about them.

    Conventions.  A JavaScript [Date] is its epoch-millisecond instant, a [Z].
    A thrown exception is the [Throw] constructor of a result type.  A JS
    object used as a dictionary is a [gmap string _]; an array is a [list].
    An object that is mutated through a reference held in an array is
    addressed by its position in that array. *)

From Stdlib Require Import ZArith List String Ascii Lia Bool DecimalString Sorted.
From stdpp Require Import base option list gmap strings fin_maps.
Import ListNotations.
Local Open Scope string_scope.
Local Open Scope Z_scope.

(** ** Values and results shared by the modules *)

(** The JS values that flow through query parameters and result rows. *)
Inductive JsVal : Type :=
| JUndefined
| JNull
| JNum (n : Z)
| JStr (s : string)
| JDate (t : Z).

(** An [async] function either returns or throws. *)
Inductive Result (E A : Type) : Type :=
| Return (a : A)
| Throw (e : E).
Arguments Return {E A} a.
Arguments Throw {E A} e.

Definition bindR {E A B} (r : Result E A) (k : A -> Result E B) : Result E B :=
  match r with
  | Return a => k a
  | Throw e => Throw e
  end.

(** Decimal rendering of an array length, as a template literal does it. *)
Definition decimal (n : nat) : string :=
  NilEmpty.string_of_uint (Nat.to_uint n).

(** ** The relational tables the sources read and write

    The columns are those the Prisma calls of the sources name; the
    [website_stats] columns are those of its migration script. *)
Module Schema.

Inductive Period : Type := daily | weekly | monthly.

Definition Period_eqb (a b : Period) : bool :=
  match a, b with
  | daily, daily | weekly, weekly | monthly, monthly => true
  | _, _ => false
  end.

Record Website : Type := {
  w_id : string;
  w_name : string;
  w_domain : string;
  w_resetAt : option Z;
  w_deletedAt : option Z
}.

Record WebsiteEvent : Type := {
  e_id : string;
  e_websiteId : string;
  e_sessionId : string;
  e_createdAt : Z;
  e_urlPath : string;
  e_referrerDomain : option string;
  e_eventType : Z
}.

Record Session : Type := {
  s_id : string;
  s_websiteId : string;
  s_device : option string;
  s_createdAt : Z
}.

(** [stats_id], [created_at] and [updated_at] are filled in by the
    database itself (a default and a trigger) and are not columns the
    sources compute or read; they are left out. *)
Record WebsiteStats : Type := {
  websiteId : string;
  startDate : Z;
  endDate : Z;
  period : Period;
  pageviews : nat;
  sessions : nat;
  bounces : nat;
  totalDuration : nat;
  uniqueVisitors : nat;
  desktopViews : nat;
  mobileViews : nat;
  tabletViews : nat;
  referrerData : gmap string nat;
  urlData : gmap string nat
}.

Record DB : Type := {
  website : list Website;
  session : list Session;
  websiteEvent : list WebsiteEvent;
  websiteStats : list WebsiteStats
}.

(** [getWebsite] of [queries/prisma/website.ts]: [findUnique] by id. *)
Definition getWebsite (db : DB) (id : string) : option Website :=
  List.find (fun w => String.eqb (w_id w) id) (website db).

End Schema.

(** ** Dates ([date-fns], with the server's time zone taken to be UTC) *)
Module Dates.

Definition msPerDay : Z := 86400000.

Definition startOfDay (t : Z) : Z := t - t mod msPerDay.
Definition endOfDay (t : Z) : Z := startOfDay t + (msPerDay - 1).
Definition subDays (t : Z) (n : Z) : Z := t - n * msPerDay.

(** Modelled from the spec: [maxDate] of [lib/date], which is not among
    the sources.  "Effective start date = max(requested start date,
    website reset timestamp)". *)
Definition maxDate (a b : Z) : Z := Z.max a b.

End Dates.

(** ** [src/lib/clickhouse.ts] *)
Module Clickhouse.

(** *** The connection pool *)

Record PoolConfig : Type := {
  min : Z;
  max : Z;
  acquireTimeoutMillis : Z;
  createTimeoutMillis : Z;
  idleTimeoutMillis : Z;
  reapIntervalMillis : Z
}.

(** The constructor's default argument. *)
Definition defaultConfig : PoolConfig :=
  {| min := 2; max := 10; acquireTimeoutMillis := 30000;
     createTimeoutMillis := 30000; idleTimeoutMillis := 30000;
     reapIntervalMillis := 1000 |}.

(** [PoolClient]: the backend handle (named by [handle]) and the two
    bookkeeping fields the pool adds. *)
Record PoolClient : Type := {
  handle : nat;
  lastUsed : Z;
  isIdle : bool
}.

(** [this.clients], plus the handles on which [close()] has been called
    and the next fresh handle for [createClient]. *)
Record Pool : Type := {
  config : PoolConfig;
  clients : list PoolClient;
  closed : list nat;
  nextHandle : nat
}.

(** [createClient]: a new client, idle, stamped, pushed on [clients]. *)
Definition createClient (now : Z) (p : Pool) : PoolClient * Pool :=
  let client := {| handle := nextHandle p; lastUsed := now; isIdle := true |} in
  (client,
   {| config := config p; clients := (clients p ++ [client])%list;
      closed := closed p; nextHandle := S (nextHandle p) |}).

(** The callback of the [filter] in [reapIdleConnections]; [len] is
    [this.clients.length], read while [this.clients] still is the array
    being filtered. *)
Definition reapKeeps (cfg : PoolConfig) (now : Z) (len : nat) (client : PoolClient) : bool :=
  let idle := now - lastUsed client >? idleTimeoutMillis cfg in
  if idle && (Z.of_nat len >? min cfg) then false else true.

Definition reapIdleConnections (now : Z) (p : Pool) : Pool :=
  let len := length (clients p) in
  {| config := config p;
     clients := List.filter (reapKeeps (config p) now len) (clients p);
     closed := (closed p ++
                List.map handle
                  (List.filter (fun c => negb (reapKeeps (config p) now len c)) (clients p)))%list;
     nextHandle := nextHandle p |}.

(** [this.clients.find(c => c.isIdle)], with the position of the client
    found: the position stands for the reference [find] returns. *)
Fixpoint findIdleFrom (i : nat) (cs : list PoolClient) : option (nat * PoolClient) :=
  match cs with
  | [] => None
  | c :: rest => if isIdle c then Some (i, c) else findIdleFrom (S i) rest
  end.

Definition findIdle (cs : list PoolClient) : option (nat * PoolClient) :=
  findIdleFrom 0 cs.

(** [client.isIdle = false; client.lastUsed = Date.now()] on the client
    at position [i]. *)
Definition markBusy (now : Z) (i : nat) (c : PoolClient) (cs : list PoolClient)
  : PoolClient * list PoolClient :=
  let c' := {| handle := handle c; lastUsed := now; isIdle := false |} in
  (c', <[i := c']> cs).

(** The interval between two runs of [checkForIdleClient]. *)
Definition pollIntervalMillis : Z := 100.

(** The delay [setTimeout] applies: a delay below 1 or above 2^31 - 1 is
    replaced by 1. *)
Definition timerDelay (ms : Z) : Z :=
  if (ms <? 1) || (2147483647 <? ms) then 1 else ms.

(** How many times [checkForIdleClient] runs before the rejecting timer
    fires: once synchronously inside the promise executor, and then at
    100, 200, ... milliseconds as long as that is before the delay
    [timeout] of the rejecting timer.  Timers are taken to fire on time.  When a
    poll and the rejecting timer fall on the same millisecond the order
    is the event loop's choice; [pollWinsTie] records it. *)
Definition pollsBeforeTimeout (pollWinsTie : bool) (timeout : Z) : nat :=
  let timed := Z.to_nat ((timeout - 1) / pollIntervalMillis) in
  let tie := pollWinsTie && (0 <? timeout) && (timeout mod pollIntervalMillis =? 0) in
  (1 + timed + (if tie then 1 else 0))%nat.

(** [checkForIdleClient], run [polls] more times starting with poll
    number [k]; [view t] is the content of [this.clients] [t]
    milliseconds after the call of [acquire], as the other users of the
    pool have left it.  The result is the time of the successful poll and
    the client it found. *)
Fixpoint checkForIdleClient (polls : nat) (view : Z -> list PoolClient) (k : nat)
  : option (Z * (nat * PoolClient)) :=
  match polls with
  | O => None
  | S n =>
      match findIdle (view (Z.of_nat k * pollIntervalMillis)) with
      | Some found => Some (Z.of_nat k * pollIntervalMillis, found)
      | None => checkForIdleClient n view (S k)
      end
  end.

(** What a call of [acquire] comes to: the client and the pool it
    leaves, or the rejection, each with the time the caller has waited. *)
Inductive Acquired : Type :=
| Got (client : PoolClient) (pool' : Pool) (elapsed : Z)
| Failed (message : string) (elapsed : Z).

Definition withClients (p : Pool) (cs : list PoolClient) : Pool :=
  {| config := config p; clients := cs; closed := closed p;
     nextHandle := nextHandle p |}.

(** [acquire], called at time [t0] on pool [p]; [later t] is the content
    of [this.clients] at [t > 0] milliseconds after the call. *)
Definition acquire (pollWinsTie : bool) (t0 : Z) (p : Pool)
    (later : Z -> list PoolClient) : Acquired :=
  match findIdle (clients p) with
  | Some (i, c) =>
      let '(c', cs') := markBusy t0 i c (clients p) in
      Got c' (withClients p cs') 0
  | None =>
      if Z.of_nat (length (clients p)) <? max (config p) then
        let '(c, p1) := createClient t0 p in
        let '(c', cs') := markBusy t0 (length (clients p)) c (clients p1) in
        Got c' (withClients p1 cs') 0
      else
        let view t := if t =? 0 then clients p else later t in
        let timeout := timerDelay (acquireTimeoutMillis (config p)) in
        match checkForIdleClient (pollsBeforeTimeout pollWinsTie timeout) view 0 with
        | Some (t, (i, c)) =>
            let '(c', cs') := markBusy (t0 + t) i c (view t) in
            Got c' (withClients p cs') t
        | None => Failed "Timeout acquiring client" timeout
        end
  end.

(** [release]. *)
Definition release (now : Z) (i : nat) (cs : list PoolClient) : list PoolClient :=
  match cs !! i with
  | Some c => <[i := {| handle := handle c; lastUsed := now; isIdle := true |}]> cs
  | None => cs
  end.

(** *** Filter translation *)

(** [QueryFilters] as the pageview queries use it.  [dims] holds the
    remaining own keys of the object (dimension filters and [search]). *)
Record QueryFilters : Type := {
  startDate : Z;
  endDate : Z;
  timezone : option string;
  unit : option string;
  eventType : option Z;
  dims : gmap string JsVal
}.

(** [Object.keys(filters)]. *)
Definition keys (f : QueryFilters) : list string :=
  (["startDate"; "endDate"]
   ++ (if timezone f is Some _ then ["timezone"] else [])
   ++ (if unit f is Some _ then ["unit"] else [])
   ++ (if eventType f is Some _ then ["eventType"] else [])
   ++ List.map fst (map_to_list (dims f)))%list.

(** [{ ...filters, eventType }]. *)
Definition withEventType (f : QueryFilters) (t : Z) : QueryFilters :=
  {| startDate := startDate f; endDate := endDate f; timezone := timezone f;
     unit := unit f; eventType := Some t; dims := dims f |}.

(** An element of the array [filtersToArray] returns. *)
Record FilterEntry : Type := {
  name : string;
  column : option string;
  operator : string;
  value : JsVal
}.

(** [OPERATORS] of [lib/constants]. *)
Record Operators : Type := {
  equals : string;
  notEquals : string;
  contains : string;
  doesNotContain : string
}.

(** What [parseFilters] returns ([dateQuery], which the pageview queries
    do not read, is not carried). *)
Record Parsed : Type := {
  filterQuery : string;
  params : gmap string JsVal
}.

Section Filters.
(** [lib/constants] and [lib/params] are not among the sources. *)
Variable OPERATORS : Operators.
Variable filtersToArray : QueryFilters -> list FilterEntry.

Definition mapFilter (column operator name : string) : string :=
  let value := "{" +:+ name +:+ ":String}" in
  if String.eqb operator (equals OPERATORS) then column +:+ " = " +:+ value
  else if String.eqb operator (notEquals OPERATORS) then column +:+ " != " +:+ value
  else if String.eqb operator (contains OPERATORS)
       then "positionCaseInsensitive(" +:+ column +:+ ", " +:+ value +:+ ") > 0"
  else if String.eqb operator (doesNotContain OPERATORS)
       then "positionCaseInsensitive(" +:+ column +:+ ", " +:+ value +:+ ") = 0"
  else "".

Definition getFilterQuery (filters : QueryFilters) : string :=
  let query :=
    List.fold_left
      (fun arr entry =>
         match column entry with
         | Some col =>
             if String.eqb col "" then arr
             else
               let arr1 :=
                 (arr ++ ["and " +:+ mapFilter col (operator entry) (name entry)])%list in
               if String.eqb (name entry) "referrer"
               then (arr1 ++ ["and referrer_domain != {websiteDomain:String}"])%list
               else arr1
         | None => arr
         end)
      (filtersToArray filters) [] in
  String.concat (String (ascii_of_nat 10) EmptyString) query.

Definition getFilterParams (filters : QueryFilters) : gmap string JsVal :=
  List.fold_left
    (fun obj entry =>
       if negb (String.eqb (name entry) "")
       then match value entry with
            | JUndefined => obj
            | v => <[name entry := v]> obj
            end
       else obj)
    (filtersToArray filters) ∅.

(** [new Date(website?.resetAt)] for a website that exists:
    [new Date(null)] is the epoch. *)
Definition resetDate (w : Schema.Website) : Z :=
  match Schema.w_resetAt w with
  | Some r => r
  | None => 0
  end.

Definition parseFilters (db : Schema.DB) (websiteId : string) (filters : QueryFilters)
  : Result string Parsed :=
  match Schema.getWebsite db websiteId with
  | Some website =>
      Return
        {| filterQuery := getFilterQuery filters;
           params :=
             <["websiteDomain" := JStr (Schema.w_domain website)]>
               (<["startDate" := JDate (Dates.maxDate (startDate filters) (resetDate website))]>
                  (<["websiteId" := JStr websiteId]> (getFilterParams filters))) |}
  | None => Throw "TypeError: Cannot read properties of null (reading 'domain')"
  end.
End Filters.

(** *** [findUnique] and [findFirst] *)

(** [data[0] ?? null]. *)
Definition findFirst (data : list JsVal) : JsVal :=
  match data with
  | [] => JNull
  | JUndefined :: _ => JNull
  | x :: _ => x
  end.

Definition findUnique (data : list JsVal) : Result string JsVal :=
  if (1 <? length data)%nat
  then Throw (decimal (length data) +:+ " records found when expecting 1.")
  else Return (findFirst data).

End Clickhouse.

(** ** [src/queries/analytics/pageviews/getPageviewStats.ts] *)
Module Pageviews.

(** The two tables the fall-back SQL reads, and what it counts there. *)
Inductive Table : Type := website_event | website_event_stats_hourly.
Inductive Measure : Type := count_rows | sum_views.

(** A call of [rawQuery]: the SQL text, reduced to the parts that vary,
    and the parameter object. *)
Record RawQuery : Type := {
  q_table : Table;
  q_measure : Measure;
  q_unit : string;
  q_timezone : string;
  q_joinSession : string;
  q_filterQuery : string;
  q_params : gmap string JsVal
}.

(** The value a query function resolves to: the mapped rollup rows
    ([x] is the bucket start, [y] the count), or the rows [rawQuery] will
    return for the query handed to it. *)
Inductive Answer : Type :=
| Rollup (series : list (Z * nat))
| Scan (q : RawQuery).

(** [orderBy: { startDate: 'asc' }]. *)
Fixpoint insertByStartDate (r : Schema.WebsiteStats) (l : list Schema.WebsiteStats)
  : list Schema.WebsiteStats :=
  match l with
  | [] => [r]
  | x :: rest =>
      if Schema.startDate r <=? Schema.startDate x then r :: l
      else x :: insertByStartDate r rest
  end.

Definition orderByStartDate (l : list Schema.WebsiteStats) : list Schema.WebsiteStats :=
  List.fold_right insertByStartDate [] l.

(** The [websiteStats.findMany] call both query functions make; [parseISO]
    is the identity on instants. *)
Definition findDailyStats (db : Schema.DB) (websiteId : string) (start end_ : Z)
  : list Schema.WebsiteStats :=
  orderByStartDate
    (List.filter
       (fun r =>
          String.eqb (Schema.websiteId r) websiteId
          && (Dates.startOfDay start <=? Schema.startDate r)
          && (Schema.startDate r <=? Dates.endOfDay end_)
          && Schema.Period_eqb (Schema.period r) Schema.daily)
       (Schema.websiteStats db)).

(** [aggregatedStats.map(stat => ({ x: ..., y: stat.pageviews }))]. *)
Definition toSeries (stats : list Schema.WebsiteStats) : list (Z * nat) :=
  List.map (fun stat => (Schema.startDate stat, Schema.pageviews stat)) stats.

(** What [parseFilters] of [lib/prisma] returns. *)
Record PrismaParsed : Type := {
  p_filterQuery : string;
  p_joinSession : string;
  p_params : gmap string JsVal
}.

Inductive Backend : Type := PRISMA | CLICKHOUSE.

Section Queries.
(** [lib/constants], [lib/params] and [lib/prisma] are not among the
    sources. *)
Variable EVENT_COLUMNS : list string.
Variable EVENT_TYPE_pageView : Z.
Variable OPERATORS : Clickhouse.Operators.
Variable filtersToArray : Clickhouse.QueryFilters -> list Clickhouse.FilterEntry.
Variable prismaParseFilters :
  Schema.DB -> string -> Clickhouse.QueryFilters -> Result string PrismaParsed.

(** [EVENT_COLUMNS.some(item => Object.keys(filters).includes(item))]. *)
Definition usesEventColumn (filters : Clickhouse.QueryFilters) : bool :=
  List.existsb
    (fun item => List.existsb (String.eqb item) (Clickhouse.keys filters))
    EVENT_COLUMNS.

Definition relationalQuery (db : Schema.DB) (websiteId : string)
    (filters : Clickhouse.QueryFilters) : Result string Answer :=
  let timezone := default "utc" (Clickhouse.timezone filters) in
  let unit := default "day" (Clickhouse.unit filters) in
  let aggregatedStats :=
    if String.eqb unit "day"
    then findDailyStats db websiteId
           (Clickhouse.startDate filters) (Clickhouse.endDate filters)
    else [] in
  if String.eqb unit "day" && (0 <? length aggregatedStats)%nat
  then Return (Rollup (toSeries aggregatedStats))
  else
    bindR
      (prismaParseFilters db websiteId
         (Clickhouse.withEventType filters EVENT_TYPE_pageView))
      (fun parsed =>
         Return
           (Scan {| q_table := website_event; q_measure := count_rows;
                    q_unit := unit; q_timezone := timezone;
                    q_joinSession := p_joinSession parsed;
                    q_filterQuery := p_filterQuery parsed;
                    q_params := p_params parsed |})).

Definition clickhouseQuery (db : Schema.DB) (websiteId : string)
    (filters : Clickhouse.QueryFilters) : Result string Answer :=
  let timezone := default "utc" (Clickhouse.timezone filters) in
  let unit := default "day" (Clickhouse.unit filters) in
  let useAggregated := String.eqb unit "day" && negb (usesEventColumn filters) in
  let aggregatedStats :=
    if useAggregated
    then findDailyStats db websiteId
           (Clickhouse.startDate filters) (Clickhouse.endDate filters)
    else [] in
  if useAggregated && (0 <? length aggregatedStats)%nat
  then Return (Rollup (toSeries aggregatedStats))
  else
    bindR
      (Clickhouse.parseFilters OPERATORS filtersToArray db websiteId
         (Clickhouse.withEventType filters EVENT_TYPE_pageView))
      (fun parsed =>
         let detailed := usesEventColumn filters || String.eqb unit "minute" in
         Return
           (Scan {| q_table :=
                      if detailed then website_event else website_event_stats_hourly;
                    q_measure := if detailed then count_rows else sum_views;
                    q_unit := unit; q_timezone := timezone;
                    q_joinSession := "";
                    q_filterQuery := Clickhouse.filterQuery parsed;
                    q_params := Clickhouse.params parsed |})).

(** [runQuery] of [lib/db] runs the function registered for the
    backend in use. *)
Definition getPageviewStats (backend : Backend) (db : Schema.DB) (websiteId : string)
    (filters : Clickhouse.QueryFilters) : Result string Answer :=
  match backend with
  | PRISMA => relationalQuery db websiteId filters
  | CLICKHOUSE => clickhouseQuery db websiteId filters
  end.
End Queries.

End Pageviews.

(** ** [src/scripts/aggregate-stats.ts] *)
Module Aggregation.
Import Schema.

Definition RETENTION_DAYS : Z := 30.

(** [String.prototype.toLowerCase], on the ASCII letters. *)
Definition lowerAscii (c : ascii) : ascii :=
  let n := nat_of_ascii c in
  if (65 <=? n)%nat && (n <=? 90)%nat then ascii_of_nat (n + 32) else c.

Fixpoint toLowerCase (s : string) : string :=
  match s with
  | EmptyString => EmptyString
  | String c rest => String (lowerAscii c) (toLowerCase rest)
  end.

(** The debug log, one constructor per [log(...)] call of the script. *)
Inductive LogEntry : Type :=
| Starting
| Aggregating (websiteId : string) (startDate endDate : Z)
| Deleting (websiteId : string) (beforeDate : Z)
| Completed (name : string)
| Success
| ErrorDuring (error : string).

(** The names in the "Completed processing website" entries of a log. *)
Definition completed (log : list LogEntry) : list string :=
  omap (fun entry => if entry is Completed name then Some name else None) log.

(** [where: { websiteId, createdAt: { gte: startDate, lt: endDate } }]. *)
Definition inRange (websiteId : string) (startDate endDate : Z)
    (owner : string) (createdAt : Z) : bool :=
  String.eqb owner websiteId && (startDate <=? createdAt) && (createdAt <? endDate).

(** [session.findMany]; [include: { websiteEvent: true }] is [eventsOf]. *)
Definition findSessions (db : DB) (websiteId : string) (startDate endDate : Z)
  : list Session :=
  List.filter (fun s => inRange websiteId startDate endDate (s_websiteId s) (s_createdAt s))
    (session db).

Definition eventsOf (db : DB) (s : Session) : list WebsiteEvent :=
  List.filter (fun e => String.eqb (e_sessionId e) (s_id s)) (websiteEvent db).

(** [session.device?.toLowerCase() || 'unknown']. *)
Definition deviceOf (s : Session) : string :=
  match s_device s with
  | Some d => if String.eqb (toLowerCase d) "" then "unknown" else toLowerCase d
  | None => "unknown"
  end.

(** The reducer that builds [deviceCounts]. *)
Definition countDevice (acc : gmap string nat) (s : Session) : gmap string nat :=
  <[deviceOf s := (default 0%nat (acc !! deviceOf s) + 1)%nat]> acc.

Definition deviceCountsOf (sessions : list Session) : gmap string nat :=
  List.fold_left countDevice sessions ∅.

(** [deviceCounts[k] || 0]. *)
Definition countOr0 (m : gmap string nat) (k : string) : nat := default 0%nat (m !! k).

(** [groupBy] with [_count: true]: one group per distinct key, here in
    the order the keys first occur. *)
Fixpoint bump (k : string) (groups : list (string * nat)) : list (string * nat) :=
  match groups with
  | [] => [(k, 1%nat)]
  | (k', n) :: rest =>
      if String.eqb k' k then (k', S n) :: rest else (k', n) :: bump k rest
  end.

Definition groupCount (ks : list string) : list (string * nat) :=
  List.fold_left (fun groups k => bump k groups) ks [].

(** [orderBy: { _count: { urlPath: 'desc' } }]. *)
Fixpoint insertByCount (g : string * nat) (l : list (string * nat)) : list (string * nat) :=
  match l with
  | [] => [g]
  | x :: rest =>
      if (snd x <=? snd g)%nat then g :: l else x :: insertByCount g rest
  end.

Definition orderByCountDesc (l : list (string * nat)) : list (string * nat) :=
  List.fold_right insertByCount [] l.

Definition urlGroups (db : DB) (websiteId : string) (startDate endDate : Z)
  : list (string * nat) :=
  firstn 100
    (orderByCountDesc
       (groupCount
          (List.map e_urlPath
             (List.filter
                (fun e => inRange websiteId startDate endDate (e_websiteId e) (e_createdAt e))
                (websiteEvent db))))).

(** [NOT: { referrerDomain: null }]. *)
Definition referrerGroups (db : DB) (websiteId : string) (startDate endDate : Z)
  : list (string * nat) :=
  groupCount
    (omap e_referrerDomain
       (List.filter
          (fun e => inRange websiteId startDate endDate (e_websiteId e) (e_createdAt e))
          (websiteEvent db))).

(** The two [reduce] calls that turn the groups into objects. *)
Definition urlObject (groups : list (string * nat)) : gmap string nat :=
  List.fold_left (fun acc g => <[fst g := snd g]> acc) groups ∅.

Definition referrerObject (groups : list (string * nat)) : gmap string nat :=
  List.fold_left
    (fun acc g => <[(if String.eqb (fst g) "" then "direct" else fst g) := snd g]> acc)
    groups ∅.

(** The values computed before the [upsert]. *)
Record Computed : Type := {
  c_pageviews : nat;
  c_sessions : nat;
  c_uniqueVisitors : nat;
  c_desktopViews : nat;
  c_mobileViews : nat;
  c_tabletViews : nat;
  c_urlData : gmap string nat;
  c_referrerData : gmap string nat
}.

Definition compute (db : DB) (websiteId : string) (startDate endDate : Z) : Computed :=
  let sessions := findSessions db websiteId startDate endDate in
  let uniqueVisitors := size (list_to_set (List.map s_id sessions) : gset string) in
  let pageviews :=
    List.fold_left (fun sum s => (sum + length (eventsOf db s))%nat) sessions 0%nat in
  let deviceCounts := deviceCountsOf sessions in
  {| c_pageviews := pageviews;
     c_sessions := length sessions;
     c_uniqueVisitors := uniqueVisitors;
     c_desktopViews := countOr0 deviceCounts "desktop";
     c_mobileViews := countOr0 deviceCounts "mobile";
     c_tabletViews := countOr0 deviceCounts "tablet";
     c_urlData := urlObject (urlGroups db websiteId startDate endDate);
     c_referrerData := referrerObject (referrerGroups db websiteId startDate endDate) |}.

(** The computed columns of a stored row. *)
Definition metricsOf (r : WebsiteStats) : Computed :=
  {| c_pageviews := pageviews r; c_sessions := sessions r;
     c_uniqueVisitors := uniqueVisitors r;
     c_desktopViews := desktopViews r; c_mobileViews := mobileViews r;
     c_tabletViews := tabletViews r;
     c_urlData := urlData r; c_referrerData := referrerData r |}.

(** The count the pageview queries make on the raw table: the events of
    the website in the range whose type is [pageView]. *)
Definition pageviewEventsInRange (pageView : Z) (db : DB) (websiteId : string)
    (startDate endDate : Z) : nat :=
  length
    (List.filter
       (fun e => inRange websiteId startDate endDate (e_websiteId e) (e_createdAt e)
                 && (e_eventType e =? pageView))
       (websiteEvent db)).

(** The [create] object; [bounces] and [totalDuration] take the column
    default. *)
Definition createRow (websiteId : string) (startDate endDate : Z) (c : Computed)
  : WebsiteStats :=
  {| websiteId := websiteId; startDate := startDate; endDate := endDate;
     period := daily;
     pageviews := c_pageviews c; sessions := c_sessions c;
     bounces := 0; totalDuration := 0;
     uniqueVisitors := c_uniqueVisitors c;
     desktopViews := c_desktopViews c; mobileViews := c_mobileViews c;
     tabletViews := c_tabletViews c;
     referrerData := c_referrerData c; urlData := c_urlData c |}.

(** The [update] object applied to the stored row. *)
Definition updateRow (c : Computed) (r : WebsiteStats) : WebsiteStats :=
  {| websiteId := websiteId r; startDate := startDate r; endDate := endDate r;
     period := period r;
     pageviews := c_pageviews c; sessions := c_sessions c;
     bounces := bounces r; totalDuration := totalDuration r;
     uniqueVisitors := c_uniqueVisitors c;
     desktopViews := c_desktopViews c; mobileViews := c_mobileViews c;
     tabletViews := c_tabletViews c;
     referrerData := c_referrerData c; urlData := c_urlData c |}.

(** [where: { websiteId_startDate_period: ... }]. *)
Definition hasKey (websiteId : string) (startDate : Z) (p : Period) (r : WebsiteStats)
  : bool :=
  String.eqb (Schema.websiteId r) websiteId && (Schema.startDate r =? startDate)
  && Period_eqb (period r) p.

(** [websiteStats.upsert]: the row under the unique key is updated, or
    the [create] row is inserted when there is none. *)
Definition upsert (websiteId : string) (startDate : Z) (p : Period)
    (create : WebsiteStats) (update : WebsiteStats -> WebsiteStats)
    (rows : list WebsiteStats) : list WebsiteStats :=
  if List.existsb (hasKey websiteId startDate p) rows
  then List.map (fun r => if hasKey websiteId startDate p r then update r else r) rows
  else (rows ++ [create])%list.

Definition withStats (db : DB) (rows : list WebsiteStats) : DB :=
  {| website := website db; session := session db;
     websiteEvent := websiteEvent db; websiteStats := rows |}.

(** The state the script threads: the database and the log. *)
Definition State : Type := DB * list LogEntry.

Definition say (entry : LogEntry) (st : State) : State :=
  (fst st, (snd st ++ [entry])%list).

Section Job.
(** [fault id] is the error the database raises when the sessions of
    website [id] are fetched, if it raises one. *)
Variable fault : string -> option string.

Definition aggregateWebsiteStats (websiteId : string) (startDate endDate : Z)
    (st : State) : State * Result string unit :=
  let st1 := say (Aggregating websiteId startDate endDate) st in
  match fault websiteId with
  | Some e => (st1, Throw e)
  | None =>
      let db := fst st1 in
      let c := compute db websiteId startDate endDate in
      ((withStats db
          (upsert websiteId startDate daily
             (createRow websiteId startDate endDate c) (updateRow c)
             (websiteStats db)),
        snd st1),
       Return tt)
  end.

Definition deleteOldData (websiteId : string) (beforeDate : Z) (st : State) : State :=
  let st1 := say (Deleting websiteId beforeDate) st in
  let db := fst st1 in
  let old (owner : string) (createdAt : Z) :=
    String.eqb owner websiteId && (createdAt <? beforeDate) in
  ({| website := website db;
      session :=
        List.filter (fun s => negb (old (s_websiteId s) (s_createdAt s))) (session db);
      websiteEvent :=
        List.filter (fun e => negb (old (e_websiteId e) (e_createdAt e)))
          (websiteEvent db);
      websiteStats := websiteStats db |},
   snd st1).

(** The [for ... of] loop of [main]; [today] is what [new Date()] reads
    during the run. *)
Fixpoint forEachWebsite (today : Z) (websites : list Website) (st : State)
  : State * Result string unit :=
  match websites with
  | [] => (st, Return tt)
  | w :: rest =>
      let aggregationDate := Dates.subDays today RETENTION_DAYS in
      let startDate := Dates.startOfDay aggregationDate in
      let endDate := Dates.endOfDay aggregationDate in
      match aggregateWebsiteStats (w_id w) startDate endDate st with
      | (st1, Throw e) => (st1, Throw e)
      | (st1, Return _) =>
          let st2 := deleteOldData (w_id w) startDate st1 in
          forEachWebsite today rest (say (Completed (w_name w)) st2)
      end
  end.

(** [website.findMany({ where: { deletedAt: null } })]. *)
Definition activeWebsites (db : DB) : list Website :=
  List.filter (fun w => if w_deletedAt w is None then true else false) (website db).

(** A finished call of [main]. *)
Record Run : Type := {
  r_db : DB;
  r_log : list LogEntry;
  r_disconnected : bool;
  r_outcome : Result string unit
}.

Definition main (today : Z) (db : DB) : Run :=
  let st0 := say Starting (db, []) in
  match forEachWebsite today (activeWebsites (fst st0)) st0 with
  | (st1, Return _) =>
      let st2 := say Success st1 in
      {| r_db := fst st2; r_log := snd st2; r_disconnected := true;
         r_outcome := Return tt |}
  | (st1, Throw error) =>
      let st2 := say (ErrorDuring error) st1 in
      {| r_db := fst st2; r_log := snd st2; r_disconnected := true;
         r_outcome := Throw error |}
  end.

(** [main().then(() => process.exit(0)).catch(() => process.exit(1))]. *)
Definition exitStatus (r : Run) : Z :=
  match r_outcome r with
  | Return _ => 0
  | Throw _ => 1
  end.
End Job.

End Aggregation.

(** ** [src/pages/api/send.ts] *)
Module Collect.

(** [req.session]; [dimensions] stands for the hostname, browser, os,
    device, screen, language and geography fields, which the handler
    passes on untouched. *)
Record Session : Type := {
  id : string;
  websiteId : string;
  visitId : string;
  dimensions : gmap string string;
  iat : option Z
}.

Record Payload : Type := {
  website : string;
  data : option (gmap string JsVal);
  url : option string;
  referrer : option string;
  name : option string;
  title : option string;
  tag : option string
}.

(** A request, with what the middleware and the detectors the handler
    calls answer for it. *)
Record Request : Type := {
  method : string;
  userAgentIsBot : bool;
  validates : bool;
  hasBlockedIp : bool;
  type : string;
  payload : Payload;
  useSession : Result string (option Session)
}.

(** The process environment and clock, and the outcome of the store
    call the request leads to ([None]: the call succeeds). *)
Record Env : Type := {
  DISABLE_BOT_CHECK : bool;
  REMOVE_TRAILING_SLASH : bool;
  now : Z;
  storeError : option string
}.

(** The argument of [saveEvent]. *)
Record EventRecord : Type := {
  urlPath : string;
  urlQuery : string;
  referrerPath : option string;
  referrerQuery : option string;
  referrerDomain : string;
  pageTitle : option string;
  eventName : option string;
  eventData : option (gmap string JsVal);
  session : Session;
  sessionId : string;
  eventTag : option string
}.

Inductive Write : Type :=
| SaveEvent (e : EventRecord)
| SaveSessionData (websiteId sessionId : string) (sessionData : gmap string JsVal).

Inductive Response : Type :=
| MethodNotAllowed
| IgnoredBot
| BadRequest (error : string)
| Forbidden
| Sent (token : Session) (sessionId : string) (type : string).

(** What handling a request comes to: the response, the rows written and
    [req.session] as the handler leaves it. *)
Record Handled : Type := {
  response : Response;
  writes : list Write;
  sessionAfter : option Session
}.

(** The parts of a [URL] object the handler reads. *)
Record Url : Type := {
  pathname : string;
  search : string;
  hostname : string
}.

(** [s.split('?')]. *)
Fixpoint split (sep : ascii) (s : string) : list string :=
  match s with
  | EmptyString => [EmptyString]
  | String c rest =>
      if Ascii.eqb c sep then EmptyString :: split sep rest
      else match split sep rest with
           | [] => [String c EmptyString]
           | piece :: pieces => String c piece :: pieces
           end
  end.

(** The characters the [.] of a regular expression refuses: line feed and
    carriage return (U+2028 and U+2029 lie outside the 8-bit characters
    of [string]). *)
Definition isLineTerminator (c : ascii) : bool :=
  Ascii.eqb c (ascii_of_nat 10) || Ascii.eqb c (ascii_of_nat 13).

(** [s.replace(/(.+)\/$/, '$1')]: a final slash with a character other
    than a line terminator before it is dropped. *)
Definition removeTrailingSlash (s : string) : string :=
  match List.rev (list_ascii_of_string s) with
  | slash :: c :: before =>
      if Ascii.eqb slash "/" && negb (isLineTerminator c)
      then string_of_list_ascii (List.rev (c :: before))
      else s
  | _ => s
  end.

(** [s.replace(/www\./, '')]: the first occurrence is removed. *)
Fixpoint removeFirstWww (s : string) : string :=
  match s with
  | EmptyString => EmptyString
  | String c rest =>
      if String.prefix "www." s then String.substring 4 (String.length s - 4) s
      else String c (removeFirstWww rest)
  end.

(** [s.substring(1)]. *)
Definition substring1 (s : string) : string :=
  match s with
  | EmptyString => EmptyString
  | String _ rest => rest
  end.

(** A number used as a condition. *)
Definition truthy (n : option Z) : bool :=
  match n with
  | Some z => negb (z =? 0)
  | None => false
  end.

Section Handler.
(** [next-basics], [lib/crypto], [lib/constants] and the platform's
    [URL] and regular expressions are not among the sources. *)
Variable safeDecodeURI : option string -> option string.
Variable uuid : string -> string -> string.
Variable visitSalt : Z -> string.
Variable COLLECTION_TYPE_event : string.
Variable COLLECTION_TYPE_identify : string.
Variable looksAbsolute : option string -> bool.
Variable newURL : option string -> Result string Url.

(** Lines 152-158: the visit id expires after 30 minutes. *)
Definition stampVisit (nowMs : Z) (s : Session) : Session :=
  let iat' := nowMs / 1000 in
  let expired :=
    truthy (iat s) && (iat' - default 0 (iat s) >? 1800) in
  {| id := id s; websiteId := websiteId s;
     visitId := if expired then uuid (id s) (visitSalt nowMs) else visitId s;
     dimensions := dimensions s;
     iat := Some iat' |}.

(** The [event] branch up to the argument of [saveEvent]. *)
Definition buildEvent (env : Env) (p : Payload) (s : Session)
  : Result string EventRecord :=
  let urlParts := default [] (split "?" <$> safeDecodeURI (url p)) in
  let urlPath0 := urlParts !! 0%nat in
  let urlQuery := default "" (urlParts !! 1%nat) in
  let refParts := default [] (split "?" <$> safeDecodeURI (referrer p)) in
  let referrerPath0 := refParts !! 0%nat in
  let referrerQuery0 := refParts !! 1%nat in
  let urlPath1 :=
    match urlPath0 with
    | Some u => if String.eqb u "" then "/" else u
    | None => "/"
    end in
  bindR
    (if looksAbsolute referrerPath0
     then bindR (newURL (referrer p))
            (fun refUrl =>
               Return (Some (pathname refUrl), Some (substring1 (search refUrl)),
                       removeFirstWww (hostname refUrl)))
     else Return (referrerPath0, referrerQuery0, ""))
    (fun '(referrerPath1, referrerQuery1, referrerDomain1) =>
       let urlPath2 :=
         if REMOVE_TRAILING_SLASH env then removeTrailingSlash urlPath1 else urlPath1 in
       Return
         {| urlPath := urlPath2; urlQuery := urlQuery;
            referrerPath := referrerPath1; referrerQuery := referrerQuery1;
            referrerDomain := referrerDomain1;
            pageTitle := safeDecodeURI (title p);
            eventName := name p; eventData := data p;
            session := s; sessionId := id s; eventTag := tag p |}).

Definition processingFailed (s : Session) : Handled :=
  {| response := BadRequest "Processing failed"; writes := [];
     sessionAfter := Some s |}.

Definition sent (req : Request) (s : Session) (ws : list Write) : Handled :=
  {| response := Sent s (id s) (type req); writes := ws; sessionAfter := Some s |}.

(** The default export. *)
Definition handler (env : Env) (req : Request) : Handled :=
  let stop r := {| response := r; writes := []; sessionAfter := None |} in
  if negb (String.eqb (method req) "POST") then stop MethodNotAllowed
  else if negb (DISABLE_BOT_CHECK env) && userAgentIsBot req then stop IgnoredBot
  else if negb (validates req) then stop (BadRequest "Validation failed")
  else if hasBlockedIp req then stop Forbidden
  else
    match useSession req with
    | Throw _ => stop (BadRequest "Session creation failed")
    | Return None => stop (BadRequest "Invalid session")
    | Return (Some session0) =>
        if String.eqb (id session0) ""
        then {| response := BadRequest "Invalid session"; writes := [];
                sessionAfter := Some session0 |}
        else
          let s := stampVisit (now env) session0 in
          if String.eqb (type req) COLLECTION_TYPE_event then
            match buildEvent env (payload req) s with
            | Throw _ => processingFailed s
            | Return e =>
                match storeError env with
                | Some _ => processingFailed s
                | None => sent req s [SaveEvent e]
                end
            end
          else if String.eqb (type req) COLLECTION_TYPE_identify then
            match data (payload req) with
            | None =>
                {| response := BadRequest "Missing data"; writes := [];
                   sessionAfter := Some s |}
            | Some d =>
                match storeError env with
                | Some _ => processingFailed s
                | None => sent req s [SaveSessionData (websiteId s) (id s) d]
                end
            end
          else sent req s []
    end.
End Handler.

End Collect.

(** ** Concrete pools, databases and requests used below *)
Module Scenarios.

(** *** Pools *)
Section Pools.
Import Clickhouse.

(** Three clients at a minimum of two, all last used 40 s before the
    pass, the first one acquired and not yet released. *)
Definition busy0 : PoolClient := {| handle := 0; lastUsed := 0; isIdle := false |}.
Definition idle1 : PoolClient := {| handle := 1; lastUsed := 0; isIdle := true |}.
Definition idle2 : PoolClient := {| handle := 2; lastUsed := 0; isIdle := true |}.

Definition staleTrio : Pool :=
  {| config := defaultConfig; clients := [busy0; idle1; idle2];
     closed := []; nextHandle := 3 |}.

(** A pool of one client at a maximum of one, with an acquire timeout
    of 50 ms; the client is busy when [acquire] is called and is
    released 30 ms later. *)
Definition tightConfig : PoolConfig :=
  {| min := 0; max := 1; acquireTimeoutMillis := 50;
     createTimeoutMillis := 30000; idleTimeoutMillis := 30000;
     reapIntervalMillis := 1000 |}.

Definition fullPool : Pool :=
  {| config := tightConfig; clients := [busy0]; closed := []; nextHandle := 1 |}.

Definition releasedAt30 (t : Z) : list PoolClient :=
  if 30 <=? t then [{| handle := 0; lastUsed := 30; isIdle := true |}] else [busy0].

(** The same pool with a timeout of 250 ms. *)
Definition patientPool : Pool :=
  {| config :=
       {| min := 0; max := 1; acquireTimeoutMillis := 250;
          createTimeoutMillis := 30000; idleTimeoutMillis := 30000;
          reapIntervalMillis := 1000 |};
     clients := [busy0]; closed := []; nextHandle := 1 |}.
End Pools.

(** *** A website that has been reset, and its rollups *)
Section ResetWebsite.
Import Schema.

Definition day (n : Z) : Z := n * Dates.msPerDay.

(** Reset on day 40. *)
Definition site : Website :=
  {| w_id := "w"; w_name := "Site"; w_domain := "example.com";
     w_resetAt := Some (day 40); w_deletedAt := None |}.

(** The daily rollup of day 5, stored by the run of day 35, before the
    reset. *)
Definition rollupDay5 : WebsiteStats :=
  {| websiteId := "w"; startDate := day 5; endDate := day 5 + 86399999;
     period := daily; pageviews := 7; sessions := 3; bounces := 0;
     totalDuration := 0; uniqueVisitors := 3; desktopViews := 2;
     mobileViews := 1; tabletViews := 0; referrerData := ∅; urlData := ∅ |}.

Definition resetDb : DB :=
  {| website := [site]; session := []; websiteEvent := [];
     websiteStats := [rollupDay5] |}.

(** Daily pageviews from day 3 to day 45, no dimension filter. *)
Definition fromDay3 : Clickhouse.QueryFilters :=
  {| Clickhouse.startDate := day 3; Clickhouse.endDate := day 45;
     Clickhouse.timezone := None; Clickhouse.unit := Some "day";
     Clickhouse.eventType := None; Clickhouse.dims := ∅ |}.

(** The same range, filtered by browser. *)
Definition chromeFromDay3 : Clickhouse.QueryFilters :=
  {| Clickhouse.startDate := day 3; Clickhouse.endDate := day 45;
     Clickhouse.timezone := None; Clickhouse.unit := Some "day";
     Clickhouse.eventType := None;
     Clickhouse.dims := {["browser" := JStr "chrome"]} |}.

(** Modelled from the spec: [EVENT_COLUMNS] of [lib/constants], which
    is not among the sources.  "a dimension that only raw events carry
    (e.g., browser/OS/device/country breakdowns)". *)
Definition EVENT_COLUMNS_spec : list string :=
  ["browser"; "os"; "device"; "country"].
End ResetWebsite.

(** *** A batch of three websites *)
Section Batch.
Import Schema.

Definition siteA : Website :=
  {| w_id := "a"; w_name := "A"; w_domain := "a.example";
     w_resetAt := None; w_deletedAt := None |}.
Definition siteB : Website :=
  {| w_id := "b"; w_name := "B"; w_domain := "b.example";
     w_resetAt := None; w_deletedAt := None |}.
Definition siteC : Website :=
  {| w_id := "c"; w_name := "C"; w_domain := "c.example";
     w_resetAt := None; w_deletedAt := None |}.

(** The run takes place on day 40, so that day 10 is aggregated.  Each
    website has one session on day 10 and one on day 2. *)
Definition runTime : Z := day 40 + 3600000.

Definition sessionOn (owner : string) (sid : string) (d : Z) : Session :=
  {| s_id := sid; s_websiteId := owner; s_device := Some "Mobile";
     s_createdAt := day d + 1000 |}.

Definition viewOn (owner : string) (sid : string) (eid : string) (d : Z) : WebsiteEvent :=
  {| e_id := eid; e_websiteId := owner; e_sessionId := sid;
     e_createdAt := day d + 2000; e_urlPath := "/"; e_referrerDomain := None;
     e_eventType := 1 |}.

Definition batchDb : DB :=
  {| website := [siteA; siteB; siteC];
     session := [sessionOn "a" "sa" 10; sessionOn "a" "sa0" 2;
                 sessionOn "b" "sb" 10; sessionOn "c" "sc" 10;
                 sessionOn "c" "sc0" 2];
     websiteEvent := [viewOn "a" "sa" "ea" 10; viewOn "a" "sa0" "ea0" 2;
                      viewOn "b" "sb" "eb" 10; viewOn "c" "sc" "ec" 10;
                      viewOn "c" "sc0" "ec0" 2];
     websiteStats := [] |}.

(** The database fails while the sessions of website "b" are read. *)
Definition faultB (websiteId : string) : option string :=
  if String.eqb websiteId "b" then Some "connection lost" else None.
End Batch.

(** *** One session with a pageview and a custom event *)
Section MixedEvents.
Import Schema.

Definition visitor : Session :=
  {| s_id := "s1"; s_websiteId := "w"; s_device := None;
     s_createdAt := day 10 + 1000 |}.

Definition pageviewEvent : WebsiteEvent :=
  {| e_id := "e1"; e_websiteId := "w"; e_sessionId := "s1";
     e_createdAt := day 10 + 2000; e_urlPath := "/pricing";
     e_referrerDomain := None; e_eventType := 1 |}.

Definition customEvent : WebsiteEvent :=
  {| e_id := "e2"; e_websiteId := "w"; e_sessionId := "s1";
     e_createdAt := day 10 + 3000; e_urlPath := "/pricing";
     e_referrerDomain := None; e_eventType := 2 |}.

Definition mixedDb : DB :=
  {| website := [site]; session := [visitor];
     websiteEvent := [pageviewEvent; customEvent]; websiteStats := [] |}.
End MixedEvents.

(** *** Collection requests *)
Section Requests.
Import Collect.

(** Stand-ins for the functions the handler imports, to run it on
    concrete requests: decoding leaves the plain paths used here as
    they are, the visit salt changes with the hour, no referrer is
    absolute. *)
Definition plainDecode (s : option string) : option string := s.
Definition pairUuid (a b : string) : string := a +:+ ":" +:+ b.
Definition hourSalt (t : Z) : string :=
  NilZero.string_of_int (Z.to_int (t / 3600000)).
Definition neverAbsolute (_ : option string) : bool := false.
Definition noURL (_ : option string) : Result string Url :=
  Throw "TypeError: Invalid URL".

Definition runHandler : Env -> Request -> Handled :=
  handler plainDecode pairUuid hourSalt "event" "identify" neverAbsolute noURL.

Definition freshSession : Session :=
  {| id := "s1"; websiteId := "w"; visitId := "v0"; dimensions := ∅; iat := None |}.

Definition eventRequest (u : option string) (s : Session) : Request :=
  {| method := "POST"; userAgentIsBot := false; validates := true;
     hasBlockedIp := false; type := "event";
     payload := {| website := "w"; data := None; url := u; referrer := None;
                   name := None; title := None; tag := None |};
     useSession := Return (Some s) |}.

Definition envAt (t : Z) : Env :=
  {| DISABLE_BOT_CHECK := false; REMOVE_TRAILING_SLASH := true; now := t;
     storeError := None |}.

(** The session as a first event, received at 1700000000.5 s, leaves it. *)
Definition afterFirst : Session :=
  {| id := "s1"; websiteId := "w"; visitId := "v0"; dimensions := ∅;
     iat := Some 1700000000 |}.

(** The session as a second event, received at 1700003000 s, leaves it. *)
Definition afterSecond : Session :=
  {| id := "s1"; websiteId := "w"; visitId := "s1:472223"; dimensions := ∅;
     iat := Some 1700003000 |}.

(** The session as a second event, received at 1700001800.9 s, leaves it. *)
Definition afterGap : Session :=
  {| id := "s1"; websiteId := "w"; visitId := "v0"; dimensions := ∅;
     iat := Some 1700001800 |}.
End Requests.

End Scenarios.

(** ** The users of the pool in [src/lib/clickhouse.ts] *)
Module PoolUse.
Import Clickhouse.

(** Clients are distinct objects: no two of them share a handle, and
    [nextHandle] is fresh. *)
Definition distinctClients (p : Pool) : Prop :=
  NoDup (List.map handle (clients p))
  /\ forall c, In c (clients p) -> (handle c < nextHandle p)%nat.

(** [idle + busy <= max]. *)
Definition withinMax (p : Pool) : Prop :=
  Z.of_nat (length (clients p)) <= max (config p).

(** Where the client object with handle [h] sits in the array. *)
Fixpoint positionOf (h : nat) (cs : list PoolClient) : option nat :=
  match cs with
  | [] => None
  | c :: rest =>
      if Nat.eqb (handle c) h then Some 0%nat else S <$> positionOf h rest
  end.

(** [pool.release(client)], the client given by reference: the object is
    marked idle wherever it sits in the array. *)
Definition releaseClient (now : Z) (c : PoolClient) (cs : list PoolClient)
  : list PoolClient :=
  match positionOf (handle c) cs with
  | Some i => release now i cs
  | None => cs
  end.

(** [rawQuery]: [answer] is what [client.query] and [resultSet.json()] come
    to on the acquired client, [took] how long they take.  The pool
    returned is the pool as this call leaves it. *)
Definition rawQuery {T : Type} (pollWinsTie : bool) (t0 : Z) (p : Pool)
    (later : Z -> list PoolClient) (took : Z)
    (answer : PoolClient -> Result string T) : Result string T * Pool :=
  match acquire pollWinsTie t0 p later with
  | Failed message _ => (Throw message, p)
  | Got client p1 elapsed =>
      (answer client,
       withClients p1 (releaseClient (t0 + elapsed + took) client (clients p1)))
  end.

(** [insert]: the same bracket around [client.insert]. *)
Definition insert {T : Type} (pollWinsTie : bool) (t0 : Z) (p : Pool)
    (later : Z -> list PoolClient) (took : Z)
    (answer : PoolClient -> Result string T) : Result string T * Pool :=
  match acquire pollWinsTie t0 p later with
  | Failed message _ => (Throw message, p)
  | Got client p1 elapsed =>
      (answer client,
       withClients p1 (releaseClient (t0 + elapsed + took) client (clients p1)))
  end.

(** [end]: every client is closed and the array is emptied. *)
Definition endPool (p : Pool) : Pool :=
  {| config := config p; clients := [];
     closed := (closed p ++ List.map handle (clients p))%list;
     nextHandle := nextHandle p |}.

End PoolUse.

(** ** Counting the clients in use *)
Module PoolCount.
Import Clickhouse.


End PoolCount.

(** ** Reading the filter array *)
Module FilterArray.
Import Clickhouse.



(** An entry that [getFilterQuery] turns into a predicate: it has a
    column. *)
Definition hasColumn (entry : FilterEntry) : bool :=
  match column entry with
  | Some col => negb (String.eqb col "")
  | None => false
  end.

End FilterArray.

(** ** Orders on rows and groups *)
Module Ordering.

(** Rollup rows by bucket start. *)
Definition byStart (a b : Schema.WebsiteStats) : Prop :=
  Schema.startDate a <= Schema.startDate b.

End Ordering.

(** ** Counting and keys, for the aggregation job *)
Module Tally.
Import Schema.

(** How often [k] occurs in a list of keys. *)
Definition occurrences (k : string) (ks : list string) : nat :=
  length (List.filter (String.eqb k) ks).

(** The count a list of groups holds for [k] (0 when it has no group). *)
Definition countOf (k : string) (groups : list (string * nat)) : nat :=
  match List.find (fun g => String.eqb (fst g) k) groups with
  | Some g => snd g
  | None => 0%nat
  end.

(** Groups by count, largest first. *)
Definition byCountDesc (a b : string * nat) : Prop := (snd b <= snd a)%nat.

(** The unique key of a rollup row. *)
Definition keyOf (r : WebsiteStats) : string * Z * Period :=
  (websiteId r, startDate r, period r).

(** At most one row per (website, start, period). *)
Definition uniqueKeys (rows : list WebsiteStats) : Prop :=
  NoDup (List.map keyOf rows).

(** The sessions of the sessions table that lower-case to device [k]. *)
Definition sessionsWithDevice (k : string) (sessions : list Session) : nat :=
  length (List.filter (fun s => String.eqb (Aggregation.deviceOf s) k) sessions).

(** The URL paths of the events of a website in a range. *)
Definition pathsInRange (db : DB) (websiteId : string) (startDate endDate : Z)
  : list string :=
  List.map e_urlPath
    (List.filter
       (fun e => Aggregation.inRange websiteId startDate endDate
                   (e_websiteId e) (e_createdAt e))
       (websiteEvent db)).

End Tally.

(** ** Referrer domains, for the aggregation job *)
Module Referrers.
Import Schema.


End Referrers.

(** ** [src/queries/prisma/website.ts]: reset and deletion

    [resetWebsite] and [deleteWebsite] run a list of Prisma calls in one
    transaction and then touch the redis cache.  The tables [event_data],
    [session_data] and [report] are read through their [website_id] column
    only. *)
Module WebsiteQueries.
Import Schema.

Record Row : Type := {
  row_id : string;
  row_websiteId : string
}.

Record Store : Type := {
  db : DB;
  eventData : list Row;
  sessionData : list Row;
  report : list Row
}.

(** What one call of a transaction resolves to: the [{ count }] of a
    [deleteMany], or the record of an [update] or a [delete]. *)
Inductive Outcome : Type :=
| BatchPayload (count : nat)
| Record_ (w : Website).

(** The server: the database and the redis cache. *)
Record World : Type := {
  store : Store;
  redis : gmap string Outcome
}.

(** [process.env]: the two variables the functions read. *)
Record ProcessEnv : Type := {
  env_cloudMode : option string;
  env_CLOUD_MODE : option string
}.

(** [!!process.env.X]: set and not the empty string. *)
Definition isSet (v : option string) : bool :=
  match v with
  | Some s => negb (String.eqb s "")
  | None => false
  end.

Definition Op : Type := Store -> Result string (Store * Outcome).

Definition owned {A} (owner : A -> string) (websiteId : string) (rows : list A) : list A :=
  List.filter (fun r => String.eqb (owner r) websiteId) rows.

Definition others {A} (owner : A -> string) (websiteId : string) (rows : list A) : list A :=
  List.filter (fun r => negb (String.eqb (owner r) websiteId)) rows.

(** [client.eventData.deleteMany({ where: { websiteId } })]. *)
Definition eventData_deleteMany (websiteId : string) : Op := fun st =>
  Return ({| db := db st;
             eventData := others row_websiteId websiteId (eventData st);
             sessionData := sessionData st;
             report := report st |},
          BatchPayload (length (owned row_websiteId websiteId (eventData st)))).

Definition sessionData_deleteMany (websiteId : string) : Op := fun st =>
  Return ({| db := db st;
             eventData := eventData st;
             sessionData := others row_websiteId websiteId (sessionData st);
             report := report st |},
          BatchPayload (length (owned row_websiteId websiteId (sessionData st)))).

Definition websiteEvent_deleteMany (websiteId : string) : Op := fun st =>
  Return ({| db := {| website := website (db st);
                      session := session (db st);
                      websiteEvent := others e_websiteId websiteId (websiteEvent (db st));
                      websiteStats := websiteStats (db st) |};
             eventData := eventData st;
             sessionData := sessionData st;
             report := report st |},
          BatchPayload (length (owned e_websiteId websiteId (websiteEvent (db st))))).

Definition session_deleteMany (websiteId : string) : Op := fun st =>
  Return ({| db := {| website := website (db st);
                      session := others s_websiteId websiteId (session (db st));
                      websiteEvent := websiteEvent (db st);
                      websiteStats := websiteStats (db st) |};
             eventData := eventData st;
             sessionData := sessionData st;
             report := report st |},
          BatchPayload (length (owned s_websiteId websiteId (session (db st))))).

Definition report_deleteMany (websiteId : string) : Op := fun st =>
  Return ({| db := db st;
             eventData := eventData st;
             sessionData := sessionData st;
             report := others row_websiteId websiteId (report st) |},
          BatchPayload (length (owned row_websiteId websiteId (report st)))).

Definition withWebsites (st : Store) (ws : list Website) : Store :=
  {| db := {| website := ws;
              session := session (db st);
              websiteEvent := websiteEvent (db st);
              websiteStats := websiteStats (db st) |};
     eventData := eventData st;
     sessionData := sessionData st;
     report := report st |}.

(** [client.website.update({ where: { id }, data })]: the record must
    exist. *)
Definition website_update (websiteId : string) (data : Website -> Website) : Op := fun st =>
  match getWebsite (db st) websiteId with
  | Some w =>
      Return (withWebsites st
                (List.map (fun w' => if String.eqb (w_id w') websiteId then data w' else w')
                   (website (db st))),
              Record_ (data w))
  | None => Throw "Record to update not found."
  end.

(** [client.website.delete({ where: { id } })]: the record must exist,
    and [website_stats.website_id] references [website(website_id)]
    without a delete action, so a website that still has rollup rows is
    not deleted. *)
Definition website_delete (websiteId : string) : Op := fun st =>
  match getWebsite (db st) websiteId with
  | Some w =>
      match owned Schema.websiteId websiteId (websiteStats (db st)) with
      | [] => Return (withWebsites st (others w_id websiteId (website (db st))), Record_ w)
      | _ :: _ => Throw "Foreign key constraint failed on the field: website_id"
      end
  | None => Throw "Record to delete does not exist."
  end.

(** [transaction([...])]: the calls run in order on the database; the
    first failure rejects the whole, and the caller keeps the database it
    had. *)
Fixpoint transaction (ops : list Op) (st : Store) : Result string (Store * list Outcome) :=
  match ops with
  | [] => Return (st, [])
  | op :: rest =>
      bindR (op st) (fun '(st1, out) =>
      bindR (transaction rest st1) (fun '(st2, outs) =>
      Return (st2, out :: outs)))
  end.

Definition cacheKey (websiteId : string) : string := "website:" +:+ websiteId.

Definition setResetAt (now : Z) (w : Website) : Website :=
  {| w_id := w_id w; w_name := w_name w; w_domain := w_domain w;
     w_resetAt := Some now; w_deletedAt := w_deletedAt w |}.

Definition setDeletedAt (now : Z) (w : Website) : Website :=
  {| w_id := w_id w; w_name := w_name w; w_domain := w_domain w;
     w_resetAt := w_resetAt w; w_deletedAt := Some now |}.

(** [redis.set(key, data[3])]; the five calls of the transaction give
    five results, so [data[3]] is there. *)
Definition redis_set (key : string) (value : option Outcome) (cache : gmap string Outcome)
  : gmap string Outcome :=
  match value with
  | Some v => <[key := v]> cache
  | None => cache
  end.

Definition resetWebsite (env : ProcessEnv) (now : Z) (websiteId : string) (world : World)
  : World * Result string (list Outcome) :=
  let cloudMode := isSet (env_cloudMode env) in
  match transaction
          [eventData_deleteMany websiteId;
           sessionData_deleteMany websiteId;
           websiteEvent_deleteMany websiteId;
           session_deleteMany websiteId;
           website_update websiteId (setResetAt now)]
          (store world) with
  | Return (st, data) =>
      ({| store := st;
          redis := if cloudMode
                   then redis_set (cacheKey websiteId) (data !! 3%nat) (redis world)
                   else redis world |},
       Return data)
  | Throw e => (world, Throw e)
  end.

Definition deleteWebsite (env : ProcessEnv) (now : Z) (websiteId : string) (world : World)
  : World * Result string (list Outcome) :=
  let cloudMode := isSet (env_CLOUD_MODE env) in
  match transaction
          [eventData_deleteMany websiteId;
           sessionData_deleteMany websiteId;
           websiteEvent_deleteMany websiteId;
           session_deleteMany websiteId;
           report_deleteMany websiteId;
           if cloudMode
           then website_update websiteId (setDeletedAt now)
           else website_delete websiteId]
          (store world) with
  | Return (st, data) =>
      ({| store := st;
          redis := if cloudMode
                   then delete (cacheKey websiteId) (redis world)
                   else redis world |},
       Return data)
  | Throw e => (world, Throw e)
  end.

End WebsiteQueries.

(** *** Worlds for reset and deletion *)
Module SiteWorlds.
Import Schema WebsiteQueries.

Definition selfHosted : ProcessEnv :=
  {| env_cloudMode := None; env_CLOUD_MODE := None |}.

(** The documented variable only. *)
Definition cloud : ProcessEnv :=
  {| env_cloudMode := None; env_CLOUD_MODE := Some "1" |}.

(** Both spellings. *)
Definition cloudBoth : ProcessEnv :=
  {| env_cloudMode := Some "1"; env_CLOUD_MODE := Some "1" |}.

(** The three websites of the batch, with event data and a report of
    website "a" and a cached entry for it. *)
Definition batchWorld : World :=
  {| store := {| db := Scenarios.batchDb;
                 eventData := [ {| row_id := "d1"; row_websiteId := "a" |};
                                {| row_id := "d2"; row_websiteId := "b" |} ];
                 sessionData := [ {| row_id := "k1"; row_websiteId := "a" |} ];
                 report := [ {| row_id := "r1"; row_websiteId := "a" |} ] |};
     redis := {[ "website:a" := Record_ Scenarios.siteA ]} |}.

Definition resetTime : Z := Scenarios.day 41 + 7200000.

End SiteWorlds.

(** * Properties *)

(** ** [findUnique] *)

Example findUnique_two :
  Clickhouse.findUnique [JNum 1; JNum 2] = Throw "2 records found when expecting 1.".
Proof. reflexivity. Qed.

Lemma findUnique_throws_iff (data : list JsVal) :
  (exists e, Clickhouse.findUnique data = Throw e) <-> (1 < length data)%nat.
Proof.
  unfold Clickhouse.findUnique.
  destruct (1 <? length data)%nat eqn:Hlen.
  - apply Nat.ltb_lt in Hlen. split; [intros _; exact Hlen | intros _; eauto].
  - apply Nat.ltb_ge in Hlen. split.
    + intros [e He]. discriminate He.
    + intros Hgt. lia.
Qed.

(** C9: [findUnique] throws exactly when [data] has more than one element;
    on the empty list it returns [null], and on a one-element list it
    returns that element (an element that is [undefined] comes back as
    [null], through [??]). *)
Theorem findUnique_spec (data : list JsVal) :
  ((exists e, Clickhouse.findUnique data = Throw e) <-> (1 < length data)%nat)
  /\ ((length data <= 1)%nat -> exists v, Clickhouse.findUnique data = Return v)
  /\ (data = [] -> Clickhouse.findUnique data = Return JNull)
  /\ (forall x, data = [x] -> x <> JUndefined -> Clickhouse.findUnique data = Return x).
Proof.
  split; [apply findUnique_throws_iff |].
  split; [| split].
  - intros Hle. unfold Clickhouse.findUnique.
    destruct (1 <? length data)%nat eqn:Hlen; [| eauto].
    apply Nat.ltb_lt in Hlen. lia.
  - intros ->. reflexivity.
  - intros x -> Hx. destruct x; try reflexivity. contradiction.
Qed.

Lemma findUnique_spec_witness :
  Clickhouse.findUnique [JStr "row"] = Return (JStr "row")
  /\ Clickhouse.findUnique [] = Return JNull.
Proof.
  destruct (findUnique_spec [JStr "row"]) as (_ & _ & _ & Hone).
  destruct (findUnique_spec []) as (_ & _ & Hnil & _).
  split.
  - apply Hone; [reflexivity | discriminate].
  - apply Hnil. reflexivity.
Defined.

(** ** The reaper *)

Section Reaper.
Import Clickhouse Scenarios.

(** A pass closes nothing unless the client's last use is older than the
    idle timeout and the pool, as it stood before the pass, was longer
    than [min]. *)
Lemma reapKeeps_false cfg now len c :
  reapKeeps cfg now len c = false ->
  idleTimeoutMillis cfg < now - lastUsed c /\ min cfg < Z.of_nat len.
Proof.
  unfold reapKeeps.
  destruct (now - lastUsed c >? idleTimeoutMillis cfg) eqn:Hidle;
    destruct (Z.of_nat len >? min cfg) eqn:Hlen; simpl; try discriminate.
  intros _. split; apply Z.gtb_lt; assumption.
Qed.

(** A pool that is not longer than [min] is left as it is. *)
Lemma reap_at_min now p :
  Z.of_nat (length (clients p)) <= min (config p) ->
  clients (reapIdleConnections now p) = clients p.
Proof.
  intros Hmin. unfold reapIdleConnections; simpl.
  apply forallb_filter_id. apply forallb_forall. intros c _.
  unfold reapKeeps.
  replace (Z.of_nat (length (clients p)) >? min (config p)) with false.
  - rewrite andb_false_r. reflexivity.
  - symmetry. rewrite Z.gtb_ltb. apply Z.ltb_ge. exact Hmin.
Qed.

(** C5: on [staleTrio] one pass of the reaper closes the acquired client
    along with the two idle ones and leaves the pool empty, below its
    minimum of two. *)
Theorem reap_closes_busy_and_goes_below_min :
  let p' := reapIdleConnections 40000 staleTrio in
  clients p' = []
  /\ closed p' = [0%nat; 1%nat; 2%nat]
  /\ isIdle busy0 = false
  /\ In (handle busy0) (closed p')
  /\ Z.of_nat (length (clients p')) < min (config p').
Proof.
  cbv zeta.
  assert (Hc : clients (reapIdleConnections 40000 staleTrio) = []) by reflexivity.
  assert (Hx : closed (reapIdleConnections 40000 staleTrio) = [0%nat; 1%nat; 2%nat])
    by reflexivity.
  rewrite Hc, Hx. repeat split; simpl; auto.
Qed.
End Reaper.

(** ** [acquire] *)

Section Acquire.
Import Clickhouse Scenarios.

Lemma findIdleFrom_Some n cs i c :
  findIdleFrom n cs = Some (i, c) ->
  exists j, i = (n + j)%nat /\ cs !! j = Some c /\ isIdle c = true.
Proof.
  revert n. induction cs as [| x rest IH]; intros n; simpl; [discriminate |].
  destruct (isIdle x) eqn:Hx.
  - intros [= <- <-]. exists 0%nat. rewrite Nat.add_0_r. auto.
  - intros H. destruct (IH _ H) as (j & -> & Hj & Hc).
    exists (S j). split; [lia | auto].
Qed.

(** The client [find] returns sits in the array and is idle. *)
Lemma findIdle_Some cs i c :
  findIdle cs = Some (i, c) -> cs !! i = Some c /\ isIdle c = true.
Proof.
  intros H. destruct (findIdleFrom_Some _ _ _ _ H) as (j & -> & Hj & Hc). auto.
Qed.

Lemma findIdleFrom_None n cs :
  findIdleFrom n cs = None <-> forall c, In c cs -> isIdle c = false.
Proof.
  revert n. induction cs as [| x rest IH]; intros n; simpl.
  - split; [intros _ c [] | reflexivity].
  - destruct (isIdle x) eqn:Hx.
    + split; [discriminate |]. intros H. specialize (H x (or_introl eq_refl)). congruence.
    + rewrite IH. split.
      * intros H c [<- | Hc]; auto.
      * intros H c Hc. apply H. auto.
Qed.

Section Polling.
Variable view : Z -> list PoolClient.

Let seen (k : nat) := findIdle (view (Z.of_nat k * pollIntervalMillis)).

Lemma check_none polls k :
  (forall j, (j < polls)%nat -> seen (k + j) = None) ->
  checkForIdleClient polls view k = None.
Proof.
  revert k. induction polls as [| n IH]; intros k Hall; simpl; [reflexivity |].
  pose proof (Hall 0%nat ltac:(lia)) as H0. rewrite Nat.add_0_r in H0.
  unfold seen in H0. rewrite H0. apply IH. intros j Hj.
  replace (S k + j)%nat with (k + S j)%nat by lia. apply Hall. lia.
Qed.

Lemma check_first polls k j found :
  (j < polls)%nat ->
  (forall j', (j' < j)%nat -> seen (k + j') = None) ->
  seen (k + j) = Some found ->
  checkForIdleClient polls view k
  = Some (Z.of_nat (k + j) * pollIntervalMillis, found).
Proof.
  revert k j. induction polls as [| n IH]; intros k j Hj Hbefore Hat; [lia |].
  simpl. destruct j as [| j].
  - rewrite Nat.add_0_r in *. unfold seen in Hat. rewrite Hat. reflexivity.
  - pose proof (Hbefore 0%nat ltac:(lia)) as H0. rewrite Nat.add_0_r in H0.
    unfold seen in H0. rewrite H0.
    replace (k + S j)%nat with (S k + j)%nat in * by lia.
    apply IH; [lia | | exact Hat].
    intros j' Hj'. replace (S k + j')%nat with (k + S j')%nat by lia.
    apply Hbefore. lia.
Qed.

Lemma check_Some polls k t found :
  checkForIdleClient polls view k = Some (t, found) ->
  exists j, (j < polls)%nat /\ t = Z.of_nat (k + j) * pollIntervalMillis
            /\ seen (k + j) = Some found.
Proof.
  revert k. induction polls as [| n IH]; intros k; simpl; [discriminate |].
  destruct (findIdle (view (Z.of_nat k * pollIntervalMillis))) as [f |] eqn:Hk.
  - intros [= <- <-]. exists 0%nat. rewrite Nat.add_0_r.
    split; [lia | split; [reflexivity | exact Hk]].
  - intros H. destruct (IH _ H) as (j & Hj & -> & Hs).
    exists (S j). replace (k + S j)%nat with (S k + j)%nat by lia.
    split; [lia | auto].
Qed.
End Polling.

(** Every poll but the first, synchronous one happens no later than the
    rejecting timer. *)
Lemma poll_before_timeout tie timeout k :
  (k < pollsBeforeTimeout tie timeout)%nat ->
  k = 0%nat \/ Z.of_nat k * pollIntervalMillis <= timeout.
Proof.
  unfold pollsBeforeTimeout, pollIntervalMillis. intros Hk.
  destruct k as [| k]; [left; reflexivity | right].
  destruct (tie && (0 <? timeout) && (timeout mod 100 =? 0)) eqn:Htie.
  - apply andb_prop in Htie as [Htie Hmod]. apply andb_prop in Htie as [_ Hpos].
    apply Z.ltb_lt in Hpos. apply Z.eqb_eq in Hmod.
    assert (Hq : 0 <= (timeout - 1) / 100) by (apply Z.div_pos; lia).
    assert (Z.of_nat (S k) <= (timeout - 1) / 100 + 1) by lia.
    pose proof (Z.div_mod timeout 100 ltac:(lia)) as Hdm.
    assert ((timeout - 1) / 100 = timeout / 100 - 1).
    { symmetry. apply Z.div_unique with (r := 99); lia. }
    lia.
  - assert (Hle : (S k <= Z.to_nat ((timeout - 1) / 100))%nat) by lia.
    assert (Hq : 0 < (timeout - 1) / 100) by lia.
    assert (Z.of_nat (S k) <= (timeout - 1) / 100) by lia.
    pose proof (Z.mul_div_le (timeout - 1) 100 ltac:(lia)). lia.
Qed.

Lemma timerDelay_pos ms : 1 <= timerDelay ms.
Proof.
  unfold timerDelay. destruct (ms <? 1) eqn:Hlow; simpl; [lia |].
  apply Z.ltb_ge in Hlow. destruct (2147483647 <? ms); lia.
Qed.

(** C6, as the code has it: at capacity with no idle client, [acquire]
    fails with the timeout error after the acquire timeout when none
    of its polls (one at the call, then one every 100 ms until the
    timeout) sees an idle client; otherwise the first poll that sees one
    returns that client, marked busy and stamped with the time of that
    poll, and the caller has waited no longer than the timeout. *)
Theorem acquire_at_capacity (tie : bool) (t0 : Z) (p : Pool) (later : Z -> list PoolClient) :
  findIdle (clients p) = None ->
  (Z.of_nat (length (clients p)) <? max (config p)) = false ->
  let timeout := timerDelay (acquireTimeoutMillis (config p)) in
  let view := fun t => if t =? 0 then clients p else later t in
  let polls := pollsBeforeTimeout tie timeout in
  let seen := fun k : nat => findIdle (view (Z.of_nat k * pollIntervalMillis)) in
  ((forall k, (k < polls)%nat -> seen k = None) ->
     acquire tie t0 p later = Failed "Timeout acquiring client" timeout)
  /\ (forall k i c,
        (k < polls)%nat ->
        (forall j, (j < k)%nat -> seen j = None) ->
        seen k = Some (i, c) ->
        let t := Z.of_nat k * pollIntervalMillis in
        let c' := {| handle := handle c; lastUsed := t0 + t; isIdle := false |} in
        view t !! i = Some c /\ isIdle c = true
        /\ acquire tie t0 p later = Got c' (withClients p (<[i := c']> (view t))) t
        /\ 0 <= t <= timeout).
Proof.
  intros Hnone Hfull timeout view polls seen.
  unfold acquire. rewrite Hnone, Hfull. fold view. fold timeout. fold polls.
  split.
  - intros Hall. rewrite (check_none view polls 0); [reflexivity |].
    intros j Hj. apply Hall. exact Hj.
  - intros k i c Hk Hbefore Hat.
    destruct (findIdle_Some _ _ _ Hat) as [Hlook Hidle].
    split; [exact Hlook |]. split; [exact Hidle |]. split.
    + rewrite (check_first view polls 0 k (i, c) Hk); [reflexivity | | exact Hat].
      intros j Hj. apply Hbefore. exact Hj.
    + pose proof (timerDelay_pos (acquireTimeoutMillis (config p))) as Hpos.
      fold timeout in Hpos.
      destruct (poll_before_timeout tie timeout k Hk) as [-> | Hle].
      * simpl. lia.
      * unfold pollIntervalMillis in *. lia.
Qed.

Lemma acquire_at_capacity_witness :
  acquire true 1000 patientPool releasedAt30
  = Got {| handle := 0; lastUsed := 1100; isIdle := false |}
        (withClients patientPool [{| handle := 0; lastUsed := 1100; isIdle := false |}])
        100.
Proof.
  pose proof (acquire_at_capacity true 1000 patientPool releasedAt30
                eq_refl eq_refl) as [_ Hgot].
  specialize (Hgot 1%nat 0%nat {| handle := 0; lastUsed := 30; isIdle := true |}).
  destruct Hgot as (_ & _ & Hgot & _).
  - vm_compute. lia.
  - intros j Hj. assert (j = 0%nat) as -> by lia. reflexivity.
  - reflexivity.
  - exact Hgot.
Defined.

(** C6, as stated, fails: on [fullPool] the only client becomes idle
    30 ms after the call, before the 50 ms timeout, and [acquire] still
    fails at 50 ms, whichever way a tie of timers would go: the next
    poll is due at 100 ms. *)
Lemma acquire_misses_idle_between_polls :
  findIdle (clients fullPool) = None
  /\ (Z.of_nat (length (clients fullPool)) <? max (config fullPool)) = false
  /\ 30 < acquireTimeoutMillis (config fullPool)
  /\ findIdle (releasedAt30 30)
     = Some (0%nat, {| handle := 0; lastUsed := 30; isIdle := true |})
  /\ acquire true 0 fullPool releasedAt30 = Failed "Timeout acquiring client" 50
  /\ acquire false 0 fullPool releasedAt30 = Failed "Timeout acquiring client" 50.
Proof. repeat split. Qed.
End Acquire.

(** ** Pageview queries *)

Section PageviewQueries.
Import Scenarios.

Variable EVENT_TYPE_pageView : Z.
Variable OPERATORS : Clickhouse.Operators.
Variable filtersToArray : Clickhouse.QueryFilters -> list Clickhouse.FilterEntry.
Variable prismaParseFilters :
  Schema.DB -> string -> Clickhouse.QueryFilters -> Result string Pageviews.PrismaParsed.

(** The start date [parseFilters] hands to the direct scan is the later
    of the requested start and the website's reset date. *)
Lemma parseFilters_effective_start db websiteId filters website :
  Schema.getWebsite db websiteId = Some website ->
  exists parsed,
    Clickhouse.parseFilters OPERATORS filtersToArray db websiteId filters = Return parsed
    /\ Clickhouse.params parsed !! "startDate"
       = Some (JDate (Z.max (Clickhouse.startDate filters) (Clickhouse.resetDate website))).
Proof.
  intros Hw. unfold Clickhouse.parseFilters. rewrite Hw.
  eexists. split; [reflexivity |]. simpl.
  rewrite lookup_insert_ne by discriminate.
  rewrite lookup_insert_eq. reflexivity.
Qed.

(** C2: for the website reset on day 40, a daily query from day 3 is
    answered, on either backend, from the rollup table with the bucket of
    day 5, which lies before the reset and before the later of the
    requested start and the reset. *)
Theorem rollup_read_serves_pre_reset_bucket (backend : Pageviews.Backend) :
  Pageviews.getPageviewStats EVENT_COLUMNS_spec EVENT_TYPE_pageView OPERATORS
    filtersToArray prismaParseFilters backend resetDb "w" fromDay3
  = Return (Pageviews.Rollup [(day 5, 7%nat)])
  /\ Schema.getWebsite resetDb "w" = Some site
  /\ Clickhouse.startDate fromDay3 < Clickhouse.resetDate site
  /\ day 5 < Dates.maxDate (Clickhouse.startDate fromDay3) (Clickhouse.resetDate site).
Proof.
  split; [destruct backend; vm_compute; reflexivity |].
  split; [reflexivity |]. split; vm_compute; reflexivity.
Qed.

(** The columnar query reads the rollup table only for the unit ["day"]
    and filters that use no event column. *)
Lemma clickhouse_rollup_guard cols db websiteId filters series :
  Pageviews.clickhouseQuery cols EVENT_TYPE_pageView OPERATORS filtersToArray
    db websiteId filters = Return (Pageviews.Rollup series) ->
  default "day" (Clickhouse.unit filters) = "day"
  /\ Pageviews.usesEventColumn cols filters = false.
Proof.
  unfold Pageviews.clickhouseQuery.
  destruct (String.eqb (default "day" (Clickhouse.unit filters)) "day") eqn:Hunit;
    destruct (Pageviews.usesEventColumn cols filters) eqn:Hcol; simpl.
  1, 3, 4:
    destruct (Clickhouse.parseFilters _ _ _ _ _); simpl; discriminate.
  intros _. apply String.eqb_eq in Hunit. auto.
Qed.

(** The relational query reads it for the unit ["day"], whatever the
    filters. *)
Lemma relational_rollup_guard db websiteId filters series :
  Pageviews.relationalQuery EVENT_TYPE_pageView prismaParseFilters
    db websiteId filters = Return (Pageviews.Rollup series) ->
  default "day" (Clickhouse.unit filters) = "day".
Proof.
  unfold Pageviews.relationalQuery.
  destruct (String.eqb (default "day" (Clickhouse.unit filters)) "day") eqn:Hunit; simpl.
  - intros _. apply String.eqb_eq in Hunit. exact Hunit.
  - destruct (prismaParseFilters _ _ _); simpl; discriminate.
Qed.

(** C3: with a [browser] filter and the unit ["day"], the relational
    query answers from the rollup table, while the columnar query counts
    the rows of [website_event]. *)
Theorem relational_rollup_despite_dimension_filter :
  Pageviews.usesEventColumn EVENT_COLUMNS_spec chromeFromDay3 = true
  /\ Pageviews.getPageviewStats EVENT_COLUMNS_spec EVENT_TYPE_pageView OPERATORS
       filtersToArray prismaParseFilters Pageviews.PRISMA resetDb "w" chromeFromDay3
     = Return (Pageviews.Rollup [(day 5, 7%nat)])
  /\ exists q,
       Pageviews.getPageviewStats EVENT_COLUMNS_spec EVENT_TYPE_pageView OPERATORS
         filtersToArray prismaParseFilters Pageviews.CLICKHOUSE resetDb "w" chromeFromDay3
       = Return (Pageviews.Scan q)
       /\ Pageviews.q_table q = Pageviews.website_event
       /\ Pageviews.q_measure q = Pageviews.count_rows.
Proof.
  split; [vm_compute; reflexivity |].
  split; [vm_compute; reflexivity |].
  eexists. split; [| split].
  - unfold Pageviews.getPageviewStats, Pageviews.clickhouseQuery.
    replace (Pageviews.usesEventColumn EVENT_COLUMNS_spec chromeFromDay3) with true
      by (vm_compute; reflexivity).
    simpl. reflexivity.
  - reflexivity.
  - reflexivity.
Qed.
End PageviewQueries.

(** ** The aggregation job *)

Section AggregationJob.
Import Schema Aggregation Scenarios.

(** *** The batch *)
Section Batch.
Variable fault : string -> option string.
Variable today : Z.

Let startDate := Dates.startOfDay (Dates.subDays today RETENTION_DAYS).
Let endDate := Dates.endOfDay (Dates.subDays today RETENTION_DAYS).

(** Websites without a failure are all processed, and the loop goes on
    with what follows them. *)
Lemma forEachWebsite_app pre rest st :
  (forall x, In x pre -> fault (w_id x) = None) ->
  exists st',
    forEachWebsite fault today pre st = (st', Return tt)
    /\ forEachWebsite fault today (pre ++ rest) st = forEachWebsite fault today rest st'
    /\ completed (snd st') = (completed (snd st) ++ List.map w_name pre)%list.
Proof.
  revert st. induction pre as [| x pre IH]; intros st Hok.
  - exists st. simpl. rewrite app_nil_r. auto.
  - assert (Hx : fault (w_id x) = None) by (apply Hok; left; reflexivity).
    simpl. unfold aggregateWebsiteStats. rewrite Hx.
    match goal with
    | |- context [forEachWebsite fault today pre ?s] =>
        destruct (IH s) as (st' & Hrun & Happ & Hdone)
    end.
    { intros y Hy. apply Hok. right. exact Hy. }
    exists st'. split; [exact Hrun |]. split; [exact Happ |].
    rewrite Hdone. unfold say, deleteOldData, completed; simpl.
    rewrite !omap_app. simpl. rewrite !app_nil_r, <- app_assoc. reflexivity.
Qed.

(** C1, as the code has it: the first website whose aggregation step
    throws ends the batch.  [main] logs the error, rethrows it (exit
    status 1) and disconnects; the database and the log are as the
    websites before it left them, and none after it is processed. *)
Theorem main_stops_at_first_failure db pre w post e :
  activeWebsites db = (pre ++ w :: post)%list ->
  (forall x, In x pre -> fault (w_id x) = None) ->
  fault (w_id w) = Some e ->
  let r := main fault today db in
  let before := fst (forEachWebsite fault today pre (db, [Starting])) in
  r_outcome r = Throw e
  /\ exitStatus r = 1
  /\ r_disconnected r = true
  /\ r_db r = fst before
  /\ r_log r
     = (snd before ++ [Aggregating (w_id w) startDate endDate; ErrorDuring e])%list
  /\ completed (r_log r) = List.map w_name pre.
Proof.
  intros Hactive Hpre Hw r before. subst r before.
  unfold main. simpl. rewrite Hactive.
  change (say Starting (db, [])) with (db, [Starting]).
  destruct (forEachWebsite_app pre (w :: post) (db, [Starting]) Hpre)
    as (st' & Hrun & Happ & Hdone).
  rewrite Happ, Hrun. simpl. unfold aggregateWebsiteStats. rewrite Hw. simpl.
  unfold exitStatus. simpl.
  repeat split.
  - rewrite <- app_assoc. reflexivity.
  - unfold completed in *. rewrite !omap_app, Hdone. simpl.
    rewrite !app_nil_r. reflexivity.
Qed.
End Batch.

Lemma main_stops_at_first_failure_witness :
  r_outcome (main faultB runTime batchDb) = Throw "connection lost"
  /\ exitStatus (main faultB runTime batchDb) = 1
  /\ completed (r_log (main faultB runTime batchDb)) = ["A"].
Proof.
  pose proof (main_stops_at_first_failure faultB runTime batchDb
                [siteA] siteB [siteC] "connection lost" eq_refl) as H.
  destruct H as (Hout & Hexit & _ & _ & _ & Hdone).
  - intros x [<- | []]. reflexivity.
  - reflexivity.
  - auto.
Defined.

(** C1, as stated, fails: with websites A, B, C and a failure while B is
    aggregated, the run ends with B's error; C, whose own step would not
    fail, is not processed: no rollup row is written for it and its
    expired session stays in place. *)
Lemma batch_aborted_by_one_failure :
  let r := main faultB runTime batchDb in
  activeWebsites batchDb = [siteA; siteB; siteC]
  /\ faultB "b" = Some "connection lost"
  /\ faultB "c" = None
  /\ r_outcome r = Throw "connection lost"
  /\ r_log r
     = [Starting; Aggregating "a" (day 10) (day 10 + 86399999); Deleting "a" (day 10);
        Completed "A"; Aggregating "b" (day 10) (day 10 + 86399999);
        ErrorDuring "connection lost"]
  /\ ~ In (Completed "C") (r_log r)
  /\ List.map websiteId (websiteStats (r_db r)) = ["a"]
  /\ In (sessionOn "c" "sc0" 2) (session (r_db r)).
Proof.
  cbv zeta.
  assert (Hlog : r_log (main faultB runTime batchDb)
                 = [Starting; Aggregating "a" (day 10) (day 10 + 86399999);
                    Deleting "a" (day 10); Completed "A";
                    Aggregating "b" (day 10) (day 10 + 86399999);
                    ErrorDuring "connection lost"])
    by (vm_compute; reflexivity).
  split; [reflexivity |]. split; [reflexivity |]. split; [reflexivity |].
  split; [vm_compute; reflexivity |].
  split; [exact Hlog |].
  split.
  - rewrite Hlog. simpl. intros H.
    repeat (destruct H as [H | H]; [discriminate H |]). exact H.
  - split; [vm_compute; reflexivity |].
    vm_compute. do 3 right. left. reflexivity.
Qed.
End AggregationJob.

(** ** The rollup row *)

Section RollupRow.
Import Schema Aggregation Scenarios.

(** *** The upsert *)

Lemma hasKey_createRow websiteId startDate endDate c :
  hasKey websiteId startDate daily (createRow websiteId startDate endDate c) = true.
Proof.
  unfold hasKey, createRow; simpl.
  rewrite String.eqb_refl, Z.eqb_refl. reflexivity.
Qed.

Lemma hasKey_updateRow websiteId startDate p c r :
  hasKey websiteId startDate p (updateRow c r) = hasKey websiteId startDate p r.
Proof. reflexivity. Qed.

(** The update writes the computed values whatever the row held. *)
Lemma metricsOf_updateRow c r : metricsOf (updateRow c r) = c.
Proof. destruct c; reflexivity. Qed.

Lemma metricsOf_createRow websiteId startDate endDate c :
  metricsOf (createRow websiteId startDate endDate c) = c.
Proof. destruct c; reflexivity. Qed.

Lemma updateRow_twice c r : updateRow c (updateRow c r) = updateRow c r.
Proof. reflexivity. Qed.

Lemma updateRow_createRow websiteId startDate endDate c :
  updateRow c (createRow websiteId startDate endDate c)
  = createRow websiteId startDate endDate c.
Proof. reflexivity. Qed.

Section Upsert.
Variables (websiteId : string) (startDate endDate : Z) (c : Computed).

Let store := upsert websiteId startDate daily
               (createRow websiteId startDate endDate c) (updateRow c).
Let keyed := hasKey websiteId startDate daily.

Lemma upsert_has_key rows : List.existsb keyed (store rows) = true.
Proof.
  unfold store, upsert. fold keyed.
  destruct (List.existsb keyed rows) eqn:Hany.
  - apply existsb_exists in Hany as (r & Hin & Hr).
    apply existsb_exists. exists (updateRow c r). split.
    + apply in_map_iff. exists r. rewrite Hr. auto.
    + unfold keyed. rewrite hasKey_updateRow. exact Hr.
  - rewrite existsb_app. simpl. unfold keyed at 2.
    rewrite hasKey_createRow. rewrite orb_true_r. reflexivity.
Qed.

(** Every row under the key holds the computed values afterwards. *)
Lemma upsert_metrics rows r :
  In r (store rows) -> keyed r = true -> metricsOf r = c.
Proof.
  unfold store, upsert. fold keyed.
  destruct (List.existsb keyed rows) eqn:Hany.
  - intros Hin Hr. apply in_map_iff in Hin as (r0 & <- & Hin0).
    destruct (keyed r0) eqn:Hr0.
    + apply metricsOf_updateRow.
    + congruence.
  - intros Hin Hr. apply in_app_iff in Hin as [Hin | [<- | []]].
    + assert (List.existsb keyed rows = true)
        by (apply existsb_exists; eauto).
      congruence.
    + apply metricsOf_createRow.
Qed.

(** Storing the same values again changes nothing. *)
Lemma upsert_idempotent rows : store (store rows) = store rows.
Proof.
  unfold store at 1. unfold upsert. fold keyed. fold store.
  rewrite upsert_has_key.
  unfold store, upsert. fold keyed.
  destruct (List.existsb keyed rows) eqn:Hany.
  - rewrite List.map_map. apply List.map_ext. intros r.
    destruct (keyed r) eqn:Hr.
    + unfold keyed. rewrite hasKey_updateRow. fold keyed. rewrite Hr.
      apply updateRow_twice.
    + rewrite Hr. reflexivity.
  - rewrite List.map_app. simpl. unfold keyed at 2.
    rewrite hasKey_createRow, updateRow_createRow.
    f_equal. rewrite <- (List.map_id rows) at 2.
    apply List.map_ext_in. intros r Hin.
    destruct (keyed r) eqn:Hr; [| reflexivity].
    assert (List.existsb keyed rows = true) by (apply existsb_exists; eauto).
    congruence.
Qed.
End Upsert.

(** The computation reads sessions and events only. *)
Lemma compute_withStats db rows websiteId startDate endDate :
  compute (withStats db rows) websiteId startDate endDate
  = compute db websiteId startDate endDate.
Proof. reflexivity. Qed.

(** C4: a second run of [aggregateWebsiteStats] for the same website and
    day over the same sessions and events leaves the database as the
    first run left it; after a run a row is stored under the key, and
    every computed column of it holds the value just computed, which is
    what the create branch writes, whatever the row held before. *)
Theorem rollup_upsert_idempotent db websiteId startDate endDate log :
  let run := fun st =>
    fst (aggregateWebsiteStats (fun _ => None) websiteId startDate endDate st) in
  let once := fst (run (db, log)) in
  let c := compute db websiteId startDate endDate in
  fst (run (run (db, log))) = once
  /\ (exists r, In r (websiteStats once) /\ hasKey websiteId startDate daily r = true)
  /\ (forall r, In r (websiteStats once) ->
                hasKey websiteId startDate daily r = true ->
                metricsOf r = c
                /\ metricsOf r = metricsOf (createRow websiteId startDate endDate c))
  /\ (forall old, metricsOf (updateRow c old) = c).
Proof.
  cbv zeta. unfold aggregateWebsiteStats; simpl.
  split; [| split; [| split]].
  - unfold withStats; simpl. f_equal.
    change (compute _ websiteId startDate endDate)
      with (compute db websiteId startDate endDate).
    apply upsert_idempotent.
  - apply existsb_exists. apply upsert_has_key.
  - intros r Hin Hkey. rewrite metricsOf_createRow.
    split; apply (upsert_metrics _ _ _ _ _ _ Hin Hkey).
  - intros old. apply metricsOf_updateRow.
Qed.

Lemma rollup_upsert_idempotent_witness :
  let once :=
    fst (fst (aggregateWebsiteStats (fun _ => None) "w" (day 10) (day 11) (mixedDb, []))) in
  fst (fst (aggregateWebsiteStats (fun _ => None) "w" (day 10) (day 11) (once, [])))
  = once
  /\ List.map sessions (websiteStats once) = [1%nat].
Proof.
  cbv zeta. split.
  - pose proof (rollup_upsert_idempotent mixedDb "w" (day 10) (day 11) []) as (Hsame & _).
    cbv zeta in Hsame. exact Hsame.
  - vm_compute. reflexivity.
Defined.

(** *** The computed values *)

(** [uniqueVisitors] is the number of distinct ids among the sessions
    created in the range. *)
Lemma uniqueVisitors_distinct db websiteId startDate endDate :
  c_uniqueVisitors (compute db websiteId startDate endDate)
  = length (remove_dups (List.map s_id (findSessions db websiteId startDate endDate))).
Proof.
  unfold compute; simpl.
  rewrite <- (size_list_to_set (C := gset string) (remove_dups _))
    by apply NoDup_remove_dups.
  f_equal. apply set_eq. intros x.
  rewrite !elem_of_list_to_set, elem_of_remove_dups. reflexivity.
Qed.

(** A session without a device is counted under ["unknown"]. *)
Lemma deviceOf_missing s : s_device s = None -> deviceOf s = "unknown".
Proof. unfold deviceOf. intros ->. reflexivity. Qed.

(** Counting a session changes no bucket but that of its device. *)
Lemma countDevice_other acc s k :
  k <> deviceOf s -> countOr0 (countDevice acc s) k = countOr0 acc k.
Proof.
  intros Hk. unfold countOr0, countDevice.
  rewrite lookup_insert_ne by congruence. reflexivity.
Qed.

(** A session without a device adds to none of the three named buckets. *)
Lemma missing_device_not_in_named_buckets acc s k :
  s_device s = None ->
  k = "desktop" \/ k = "mobile" \/ k = "tablet" ->
  countOr0 (countDevice acc s) k = countOr0 acc k.
Proof.
  intros Hs Hk. apply countDevice_other. rewrite (deviceOf_missing s Hs).
  destruct Hk as [-> | [-> | ->]]; discriminate.
Qed.

(** C7: for one session of day 10 that has no device and carries a
    pageview and a custom event, the computed [pageviews] is 2, while at
    most one event of the range is of the pageview type, whatever number
    stands for that type (exactly one when it is 1).  The session is one
    unique visitor and is counted in none of the three named buckets. *)
Theorem pageviews_counts_custom_events :
  let c := compute mixedDb "w" (day 10) (day 11) in
  c_pageviews c = 2%nat
  /\ (forall pageView, (pageviewEventsInRange pageView mixedDb "w" (day 10) (day 11) <= 1)%nat)
  /\ pageviewEventsInRange 1 mixedDb "w" (day 10) (day 11) = 1%nat
  /\ c_uniqueVisitors c = 1%nat
  /\ c_sessions c = 1%nat
  /\ (c_desktopViews c, c_mobileViews c, c_tabletViews c) = (0%nat, 0%nat, 0%nat).
Proof.
  cbv zeta. split; [vm_compute; reflexivity |].
  split.
  - intros pageView. unfold pageviewEventsInRange, mixedDb. cbn -[Z.eqb].
    destruct (1 =? pageView) eqn:H1; destruct (2 =? pageView) eqn:H2; simpl; lia.
  - repeat split; vm_compute; reflexivity.
Qed.
End RollupRow.

(** ** The collection endpoint *)

Section CollectEndpoint.
Import Collect Scenarios.

Variable safeDecodeURI : option string -> option string.
Variable uuid : string -> string -> string.
Variable visitSalt : Z -> string.
Variable COLLECTION_TYPE_event : string.
Variable COLLECTION_TYPE_identify : string.
Variable looksAbsolute : option string -> bool.
Variable newURL : option string -> Result string Url.

Let handle := handler safeDecodeURI uuid visitSalt COLLECTION_TYPE_event
                COLLECTION_TYPE_identify looksAbsolute newURL.
Let build := buildEvent safeDecodeURI looksAbsolute newURL.
Let stamp := stampVisit uuid visitSalt.

Ltac split_handler :=
  repeat match goal with
         | |- context [if ?b then _ else _] => destruct b eqn:?
         | |- context [match ?x with _ => _ end] => destruct x eqn:?
         end.

(** A token is sent only for a session that [useSession] supplied, and
    it is that session, stamped. *)
Lemma handler_sent env req tok sid ty :
  response (handle env req) = Sent tok sid ty ->
  exists s0, useSession req = Return (Some s0) /\ tok = stamp (now env) s0.
Proof.
  unfold handle, handler, processingFailed, sent.
  destruct (useSession req) as [[s0 |] | err]; split_handler; simpl;
    try discriminate; intros [= <- _ _]; eauto.
Qed.

(** An event is saved only as [buildEvent] made it. *)
Lemma handler_saved env req e :
  In (SaveEvent e) (writes (handle env req)) ->
  exists s0, useSession req = Return (Some s0)
             /\ build env (payload req) (stamp (now env) s0) = Return e.
Proof.
  unfold handle, handler, processingFailed, sent.
  destruct (useSession req) as [[s0 |] | err]; split_handler; simpl;
    intros H; repeat (destruct H as [H | H]; try discriminate H); try contradiction.
  injection H as <-. eauto.
Qed.

(** *** The visit id *)

(** Lines 152-158 on one session. *)
Lemma stampVisit_spec nowMs s :
  iat (stamp nowMs s) = Some (nowMs / 1000)
  /\ id (stamp nowMs s) = id s
  /\ (forall last, iat s = Some last -> last <> 0 -> nowMs / 1000 - last > 1800 ->
        visitId (stamp nowMs s) = uuid (id s) (visitSalt nowMs))
  /\ (forall last, iat s = Some last -> nowMs / 1000 - last <= 1800 ->
        visitId (stamp nowMs s) = visitId s)
  /\ (truthy (iat s) = false -> visitId (stamp nowMs s) = visitId s).
Proof.
  unfold stamp, stampVisit; simpl. repeat split.
  - intros last -> Hlast Hgap. simpl.
    destruct (last =? 0) eqn:H0; [apply Z.eqb_eq in H0; contradiction |].
    simpl. destruct (nowMs / 1000 - last >? 1800) eqn:Hg; [reflexivity |].
    rewrite Z.gtb_ltb in Hg. apply Z.ltb_ge in Hg. lia.
  - intros last -> Hgap. simpl.
    destruct (nowMs / 1000 - last >? 1800) eqn:Hg.
    + rewrite Z.gtb_ltb in Hg. apply Z.ltb_lt in Hg. lia.
    + rewrite andb_false_r. reflexivity.
  - intros ->. reflexivity.
Qed.

(** Whole seconds of two instants at most 1800 s apart differ by at most
    1800; of two instants at least 1801 s apart, by more than 1800. *)
Lemma seconds_gap t1 t2 :
  (t2 - t1 <= 1800 * 1000 -> t2 / 1000 - t1 / 1000 <= 1800)
  /\ (t2 - t1 >= 1801 * 1000 -> t2 / 1000 - t1 / 1000 > 1800).
Proof.
  pose proof (Z.div_mod t1 1000 ltac:(lia)).
  pose proof (Z.div_mod t2 1000 ltac:(lia)).
  pose proof (Z.mod_pos_bound t1 1000 ltac:(lia)).
  pose proof (Z.mod_pos_bound t2 1000 ltac:(lia)).
  split; intros; lia.
Qed.

(** C8, as the code has it: for two events of a session answered with a
    token, the second presenting the token of the first, the visit id is
    kept when the events are at most 1800 s apart, and more generally
    when their whole-second timestamps differ by at most 1800; when these
    differ by more than 1800 (as they do for events at least 1801 s
    apart) and the first is not 0, the visit id becomes
    [uuid(session.id, visitSalt())], computed at the second event, and so
    differs from the first event's exactly when that value does. *)
Theorem visit_rotation env1 env2 req1 req2 tok1 sid1 ty1 tok2 sid2 ty2 :
  response (handle env1 req1) = Sent tok1 sid1 ty1 ->
  useSession req2 = Return (Some tok1) ->
  response (handle env2 req2) = Sent tok2 sid2 ty2 ->
  let iat1 := now env1 / 1000 in
  let iat2 := now env2 / 1000 in
  iat tok1 = Some iat1
  /\ iat tok2 = Some iat2
  /\ (iat2 - iat1 <= 1800 -> visitId tok2 = visitId tok1)
  /\ (now env2 - now env1 <= 1800 * 1000 -> visitId tok2 = visitId tok1)
  /\ (iat1 = 0 -> visitId tok2 = visitId tok1)
  /\ (iat1 <> 0 -> iat2 - iat1 > 1800 ->
        visitId tok2 = uuid (id tok1) (visitSalt (now env2)))
  /\ (iat1 <> 0 -> now env2 - now env1 >= 1801 * 1000 ->
        visitId tok2 = uuid (id tok1) (visitSalt (now env2)))
  /\ (iat1 <> 0 -> iat2 - iat1 > 1800 ->
        (visitId tok2 <> visitId tok1
         <-> uuid (id tok1) (visitSalt (now env2)) <> visitId tok1)).
Proof.
  intros H1 Hs2 H2 iat1 iat2.
  destruct (handler_sent _ _ _ _ _ H1) as (s0 & _ & ->).
  destruct (handler_sent _ _ _ _ _ H2) as (s1 & Hs1 & ->).
  rewrite Hs2 in Hs1. injection Hs1 as <-.
  destruct (stampVisit_spec (now env1) s0) as (Hiat1 & _).
  destruct (stampVisit_spec (now env2) (stamp (now env1) s0))
    as (Hiat2 & Hid & Hrot & Hkeep & Hfalsy).
  destruct (seconds_gap (now env1) (now env2)) as [Hle Hge].
  fold iat1 in Hiat1. fold iat2 in Hiat2.
  split; [exact Hiat1 |]. split; [exact Hiat2 |].
  split; [| split; [| split; [| split; [| split]]]].
  - intros Hgap. apply (Hkeep iat1 Hiat1). exact Hgap.
  - intros Hgap. apply (Hkeep iat1 Hiat1). apply Hle. exact Hgap.
  - intros Hzero. apply Hfalsy. rewrite Hiat1, Hzero. reflexivity.
  - intros Hnz Hgap. apply (Hrot iat1 Hiat1 Hnz Hgap).
  - intros Hnz Hgap. apply (Hrot iat1 Hiat1 Hnz). apply Hge. exact Hgap.
  - intros Hnz Hgap. rewrite (Hrot iat1 Hiat1 Hnz Hgap). reflexivity.
Qed.
(** *** The URL path *)

Lemma string_of_list_ascii_nonempty l :
  l <> [] -> string_of_list_ascii l <> "".
Proof.
  intros Hl Hs. apply Hl.
  rewrite <- (list_ascii_of_string_of_list_ascii l), Hs. reflexivity.
Qed.

(** Dropping a final slash never empties a path. *)
Lemma removeTrailingSlash_nonempty s : s <> "" -> removeTrailingSlash s <> "".
Proof.
  intros Hs. unfold removeTrailingSlash.
  destruct (List.rev (list_ascii_of_string s)) as [| slash [| c before]]; try exact Hs.
  destruct (Ascii.eqb slash "/" && negb (isLineTerminator c)); [| exact Hs].
  apply string_of_list_ascii_nonempty. simpl.
  intros Hnil. apply app_eq_nil in Hnil as [_ Hnil]. discriminate Hnil.
Qed.

Lemma removeTrailingSlash_root : removeTrailingSlash "/" = "/".
Proof. reflexivity. Qed.

(** The path [buildEvent] stores. *)
Lemma buildEvent_urlPath env p s e :
  build env p s = Return e ->
  let first := default [] (split "?" <$> safeDecodeURI (url p)) !! 0%nat in
  let path := match first with
              | Some u => if String.eqb u "" then "/" else u
              | None => "/"
              end in
  urlPath e = if REMOVE_TRAILING_SLASH env then removeTrailingSlash path else path.
Proof.
  unfold build, buildEvent. cbv zeta.
  destruct (looksAbsolute _); [destruct (newURL _) |]; simpl;
    try discriminate; intros [= <-]; reflexivity.
Qed.

(** C10: an event the handler saves has a non-empty [urlPath], and when
    the first piece of the decoded URL is missing or empty that path is
    ["/"]. *)
Theorem saved_event_has_url_path env req e :
  In (SaveEvent e) (writes (handle env req)) ->
  urlPath e <> ""
  /\ (let first :=
        default [] (split "?" <$> safeDecodeURI (url (payload req))) !! 0%nat in
      first = None \/ first = Some "" -> urlPath e = "/").
Proof.
  intros Hsaved.
  destruct (handler_saved _ _ _ Hsaved) as (s0 & _ & Hbuild).
  pose proof (buildEvent_urlPath _ _ _ _ Hbuild) as Hpath. cbv zeta in Hpath.
  split.
  - rewrite Hpath.
    set (path := match _ !! 0%nat with Some u => _ | None => _ end).
    assert (Hne : path <> "").
    { subst path. destruct (_ !! 0%nat) as [u |]; [| discriminate].
      destruct (String.eqb u "") eqn:Hu; [discriminate |].
      apply String.eqb_neq in Hu. exact Hu. }
    destruct (REMOVE_TRAILING_SLASH env); [| exact Hne].
    apply removeTrailingSlash_nonempty. exact Hne.
  - cbv zeta. intros Hfirst. rewrite Hpath.
    destruct Hfirst as [-> | ->]; simpl;
      destruct (REMOVE_TRAILING_SLASH env); reflexivity.
Qed.
End CollectEndpoint.

Lemma visit_rotation_witness :
  Collect.visitId Scenarios.afterSecond
  = Scenarios.pairUuid "s1" (Scenarios.hourSalt 1700003000000).
Proof.
  pose proof (visit_rotation Scenarios.plainDecode Scenarios.pairUuid Scenarios.hourSalt
                "event" "identify" Scenarios.neverAbsolute Scenarios.noURL
                (Scenarios.envAt 1700000000500) (Scenarios.envAt 1700003000000)
                (Scenarios.eventRequest (Some "/a") Scenarios.freshSession)
                (Scenarios.eventRequest (Some "/b") Scenarios.afterFirst)
                Scenarios.afterFirst "s1" "event" Scenarios.afterSecond "s1" "event"
                eq_refl eq_refl eq_refl) as (_ & _ & _ & _ & _ & Hrot & _ & _).
  apply Hrot; [discriminate | reflexivity].
Defined.

(** C8, as stated, fails: two events of one session 1800.4 s apart, at
    1700000000.5 s and 1700001800.9 s, carry the same visit id, since
    their whole-second timestamps differ by 1800 only. *)
Lemma visit_kept_across_1800400ms :
  Collect.response
    (Scenarios.runHandler (Scenarios.envAt 1700000000500)
       (Scenarios.eventRequest (Some "/a") Scenarios.freshSession))
  = Collect.Sent Scenarios.afterFirst "s1" "event"
  /\ Collect.response
       (Scenarios.runHandler (Scenarios.envAt 1700001800900)
          (Scenarios.eventRequest (Some "/b") Scenarios.afterFirst))
     = Collect.Sent Scenarios.afterGap "s1" "event"
  /\ 1700001800900 - 1700000000500 > 1800 * 1000
  /\ Collect.visitId Scenarios.afterGap = Collect.visitId Scenarios.afterFirst.
Proof. repeat split. Qed.

Lemma saved_event_has_url_path_witness :
  Collect.urlPath
    {| Collect.urlPath := "/"; Collect.urlQuery := "utm=1";
       Collect.referrerPath := None; Collect.referrerQuery := None;
       Collect.referrerDomain := ""; Collect.pageTitle := None;
       Collect.eventName := None; Collect.eventData := None;
       Collect.session := Scenarios.afterFirst; Collect.sessionId := "s1";
       Collect.eventTag := None |} = "/".
Proof.
  eapply (saved_event_has_url_path Scenarios.plainDecode Scenarios.pairUuid
            Scenarios.hourSalt "event" "identify" Scenarios.neverAbsolute Scenarios.noURL
            (Scenarios.envAt 1700000000500)
            (Scenarios.eventRequest (Some "?utm=1") Scenarios.freshSession)).
  - left. reflexivity.
  - right. reflexivity.
Defined.

(** * Further properties *)

(** ** The pool *)

Section PoolFacts.
Import Clickhouse PoolUse.

Lemma filter_none {A} (f : A -> bool) (l : list A) :
  (forall x, In x l -> f x = false) -> List.filter f l = [].
Proof.
  induction l as [| x l IH]; intros H; simpl; [reflexivity |].
  rewrite (H x (or_introl eq_refl)). apply IH. intros y Hy. apply H. right. exact Hy.
Qed.

Lemma filter_all {A} (f : A -> bool) (l : list A) :
  (forall x, In x l -> f x = true) -> List.filter f l = l.
Proof.
  intros H. apply forallb_filter_id. apply forallb_forall. exact H.
Qed.

Lemma filter_split_length {A} (f : A -> bool) (l : list A) :
  (length (List.filter f l) + length (List.filter (fun x => negb (f x)) l))%nat
  = length l.
Proof.
  induction l as [| x l IH]; simpl; [reflexivity |].
  destruct (f x); simpl; lia.
Qed.

(** X1: a reaper pass accounts for every client: each client of the pool
    is either kept, as it was, or closed, and a client is closed only if
    its last use is older than the idle timeout and the pool was longer
    than [min] when the pass began; earlier closings stay recorded. *)
Theorem reap_accounts_for_every_client (now : Z) (p : Pool) :
  let p' := reapIdleConnections now p in
  (length (clients p') + length (closed p'))%nat
  = (length (clients p) + length (closed p))%nat
  /\ (forall c, In c (clients p') -> In c (clients p))
  /\ (forall c, In c (clients p) ->
        In c (clients p')
        \/ (In (handle c) (closed p')
            /\ idleTimeoutMillis (config p) < now - lastUsed c
            /\ min (config p) < Z.of_nat (length (clients p))))
  /\ (forall h, In h (closed p) -> In h (closed p'))
  /\ config p' = config p /\ nextHandle p' = nextHandle p.
Proof.
  cbv zeta. unfold reapIdleConnections; simpl.
  set (keep := reapKeeps (config p) now (length (clients p))).
  split; [| split; [| split; [| split]]].
  - rewrite length_app, length_map.
    pose proof (filter_split_length keep (clients p)). lia.
  - intros c Hc. apply filter_In in Hc. tauto.
  - intros c Hc. destruct (keep c) eqn:Hk.
    + left. apply filter_In. auto.
    + right. split.
      * apply in_or_app. right. apply in_map. apply filter_In. rewrite Hk. auto.
      * apply (reapKeeps_false _ _ _ _ Hk).
  - intros h Hh. apply in_or_app. left. exact Hh.
  - auto.
Qed.

Lemma reapKeeps_true cfg now len c :
  reapKeeps cfg now len c = true
  <-> now - lastUsed c <= idleTimeoutMillis cfg \/ Z.of_nat len <= min cfg.
Proof.
  unfold reapKeeps. rewrite !Z.gtb_ltb.
  destruct (idleTimeoutMillis cfg <? now - lastUsed c) eqn:Hidle;
    destruct (min cfg <? Z.of_nat len) eqn:Hlen; simpl;
    rewrite ?Z.ltb_lt, ?Z.ltb_ge in *; split; intros H;
    try reflexivity; try discriminate; lia.
Qed.

(** X2: a second reaper pass at the same instant changes nothing: what the
    first pass kept is kept again and nothing more is closed. *)
Theorem reap_twice_same_instant (now : Z) (p : Pool) :
  reapIdleConnections now (reapIdleConnections now p) = reapIdleConnections now p.
Proof.
  set (p1 := reapIdleConnections now p).
  assert (Hkeep : forall c, In c (clients p1) ->
                            reapKeeps (config p1) now (length (clients p1)) c = true).
  { intros c Hc. unfold p1, reapIdleConnections in Hc; simpl in Hc.
    apply filter_In in Hc as [_ Hk].
    change (config p1) with (config p).
    apply reapKeeps_true in Hk. apply reapKeeps_true.
    destruct Hk as [Hrecent | Hmin]; [left; exact Hrecent | right].
    assert (length (clients p1) <= length (clients p))%nat.
    { unfold p1, reapIdleConnections; simpl. apply List.filter_length_le. }
    lia. }
  unfold reapIdleConnections at 1.
  rewrite (filter_all _ _ Hkeep).
  rewrite (filter_none (fun c => negb _) (clients p1)).
  - simpl. rewrite app_nil_r. reflexivity.
  - intros c Hc. rewrite (Hkeep c Hc). reflexivity.
Qed.
End PoolFacts.

Section AcquireFacts.
Import Clickhouse PoolUse PoolCount.

Lemma In_insert {A} (l : list A) i x : (i < length l)%nat -> In x (<[i := x]> l).
Proof.
  intros Hi. apply list_elem_of_In. apply (list_elem_of_lookup_2 _ i).
  apply list_lookup_insert_eq. exact Hi.
Qed.

(** X3: whenever [acquire] hands out a client, by reuse, creation or after
    waiting, that client is in the pool, marked busy and stamped with the
    time of the hand-over, and the caller has not waited beyond the
    timeout. *)
Theorem acquire_hands_out_busy_member tie t0 p later c p' e :
  acquire tie t0 p later = Got c p' e ->
  isIdle c = false
  /\ lastUsed c = t0 + e
  /\ In c (clients p')
  /\ config p' = config p
  /\ 0 <= e <= timerDelay (acquireTimeoutMillis (config p)).
Proof.
  pose proof (timerDelay_pos (acquireTimeoutMillis (config p))) as Hpos.
  unfold acquire.
  destruct (findIdle (clients p)) as [[i c0] |] eqn:Hfind.
  - intros [= <- <- <-]. destruct (findIdle_Some _ _ _ Hfind) as [Hlook _].
    repeat split; simpl; try lia.
    apply In_insert. apply (lookup_lt_Some _ _ _ Hlook).
  - destruct (Z.of_nat (length (clients p)) <? max (config p)).
    + intros [= <- <- <-]. repeat split; simpl; try lia.
      apply In_insert. rewrite length_app. simpl. lia.
    + destruct (checkForIdleClient _ _ 0) as [[t [i c0]] |] eqn:Hcheck; [| discriminate].
      intros [= <- <- <-].
      destruct (check_Some _ _ _ _ _ Hcheck) as (j & Hj & -> & Hseen).
      destruct (findIdle_Some _ _ _ Hseen) as [Hlook _].
      change (0 + j)%nat with j in *.
      assert (Hbound : 0 <= Z.of_nat j * pollIntervalMillis
                       <= timerDelay (acquireTimeoutMillis (config p))).
      { destruct (poll_before_timeout _ _ _ Hj) as [-> | Hle];
          unfold pollIntervalMillis in *; simpl; lia. }
      repeat split; simpl; try lia.
      apply In_insert. apply (lookup_lt_Some _ _ _ Hlook).
Qed.
End AcquireFacts.

Lemma acquire_hands_out_busy_member_witness :
  Clickhouse.isIdle {| Clickhouse.handle := 0; Clickhouse.lastUsed := 1100;
                       Clickhouse.isIdle := false |} = false.
Proof.
  eapply (acquire_hands_out_busy_member true 1000 Scenarios.patientPool
            Scenarios.releasedAt30).
  reflexivity.
Defined.
Section PoolInvariants.
Import Clickhouse PoolUse PoolCount.

(** What [acquire] does when it need not wait. *)
Lemma acquire_reuses tie t0 p later i c0 :
  findIdle (clients p) = Some (i, c0) ->
  let c := {| handle := handle c0; lastUsed := t0; isIdle := false |} in
  acquire tie t0 p later = Got c (withClients p (<[i := c]> (clients p))) 0.
Proof. intros Hfind. unfold acquire. rewrite Hfind. reflexivity. Qed.

Lemma acquire_creates tie t0 p later :
  findIdle (clients p) = None ->
  Z.of_nat (length (clients p)) < max (config p) ->
  let c := {| handle := nextHandle p; lastUsed := t0; isIdle := false |} in
  acquire tie t0 p later
  = Got c {| config := config p; clients := (clients p ++ [c])%list;
             closed := closed p; nextHandle := S (nextHandle p) |} 0.
Proof.
  intros Hfind Hroom. unfold acquire. rewrite Hfind.
  apply Z.ltb_lt in Hroom. rewrite Hroom. simpl. unfold withClients. simpl.
  f_equal. f_equal.
  rewrite insert_app_r_alt by lia. rewrite Nat.sub_diag. reflexivity.
Qed.

Lemma handles_insert (cs : list PoolClient) i c0 c :
  cs !! i = Some c0 -> handle c = handle c0 ->
  List.map handle (<[i := c]> cs) = List.map handle cs.
Proof.
  intros Hlook Hh. change (List.map handle) with (fmap (M := list) handle).
  rewrite list_fmap_insert, Hh. apply list_insert_id.
  rewrite list_lookup_fmap, Hlook. reflexivity.
Qed.

Lemma In_handles (cs : list PoolClient) c :
  In c cs -> In (handle c) (List.map handle cs).
Proof. apply in_map. Qed.

Lemma acquire_now tie t0 p later :
  distinctClients p ->
  is_Some (findIdle (clients p)) \/ Z.of_nat (length (clients p)) < max (config p) ->
  exists c p',
    acquire tie t0 p later = Got c p' 0
    /\ distinctClients p'
    /\ (withinMax p -> withinMax p')
    /\ (is_Some (findIdle (clients p)) ->
          length (clients p') = length (clients p) /\ nextHandle p' = nextHandle p)
    /\ (findIdle (clients p) = None ->
          clients p' = (clients p ++ [c])%list /\ handle c = nextHandle p).
Proof.
  intros [Hnodup Hfresh] Hcan.
  destruct (findIdle (clients p)) as [[i c0] |] eqn:Hfind.
  - destruct (findIdle_Some _ _ _ Hfind) as [Hlook _].
    eexists _, _. split; [apply (acquire_reuses _ _ _ _ _ _ Hfind) |].
    assert (Hmap : List.map handle
                     (<[i := {| handle := handle c0; lastUsed := t0; isIdle := false |}]>
                        (clients p))
                   = List.map handle (clients p))
      by (apply (handles_insert _ _ c0); [exact Hlook | reflexivity]).
    split; [split |]; simpl.
    + rewrite Hmap. exact Hnodup.
    + intros c Hc. apply In_handles in Hc. rewrite Hmap in Hc.
      apply in_map_iff in Hc as (c1 & <- & Hc1). apply Hfresh. exact Hc1.
    + unfold withinMax; simpl. rewrite length_insert.
      split; [auto |]. split; [auto |]. discriminate.
  - destruct Hcan as [[x Hx] | Hroom]; [discriminate Hx |].
    eexists _, _. split; [apply (acquire_creates _ _ _ _ Hfind Hroom) |].
    split; [split |]; simpl.
    + rewrite map_app. simpl. apply NoDup_app. split; [exact Hnodup |].
      split; [| apply NoDup_singleton].
      intros h Hh Hin%list_elem_of_In. apply list_elem_of_In in Hh.
      simpl in Hin. destruct Hin as [<- | []].
      apply in_map_iff in Hh as (c1 & Heq & Hc1).
      specialize (Hfresh c1 Hc1). lia.
    + intros c Hc. apply in_app_iff in Hc as [Hc | [<- | []]]; simpl; [| lia].
      specialize (Hfresh c Hc). lia.
    + unfold withinMax; simpl. rewrite length_app. simpl.
      split; [intros _; lia |]. split; [intros [x Hx]; discriminate Hx |]. auto.
Qed.

(** X4: when an idle client exists or the pool is below [max], [acquire]
    returns at once and keeps the pool sound: clients remain distinct
    objects and a pool within [max] stays within [max].  A client is
    created only if none is idle, and then it is the only addition. *)
Theorem acquire_keeps_pool_sound tie t0 p later :
  distinctClients p ->
  is_Some (findIdle (clients p)) \/ Z.of_nat (length (clients p)) < max (config p) ->
  exists c p',
    acquire tie t0 p later = Got c p' 0
    /\ distinctClients p'
    /\ (withinMax p -> withinMax p')
    /\ (is_Some (findIdle (clients p)) ->
          length (clients p') = length (clients p) /\ nextHandle p' = nextHandle p)
    /\ (findIdle (clients p) = None ->
          clients p' = (clients p ++ [c])%list /\ handle c = nextHandle p).
Proof. apply acquire_now. Qed.

Lemma acquire_keeps_pool_sound_witness :
  exists c p',
    acquire true 0 Scenarios.staleTrio (fun _ => []) = Got c p' 0
    /\ length (clients p') = 3%nat.
Proof.
  destruct (acquire_keeps_pool_sound true 0 Scenarios.staleTrio (fun _ => []))
    as (c & p' & Hgot & _ & _ & Hsame & _).
  - split.
    + simpl. repeat (apply NoDup_cons; split;
                     [rewrite ?elem_of_cons, elem_of_nil; intuition discriminate |]).
      apply NoDup_nil_2.
    + intros c [<- | [<- | [<- | []]]]; simpl; lia.
  - left. eexists. reflexivity.
  - exists c, p'. split; [exact Hgot |]. apply Hsame. eexists. reflexivity.
Defined.

(** *** Release *)

Lemma findIdleFrom_first n cs i c :
  cs !! i = Some c -> isIdle c = true ->
  exists j c1, findIdleFrom n cs = Some ((n + j)%nat, c1) /\ (j <= i)%nat
               /\ cs !! j = Some c1
               /\ (forall k c2, (k < j)%nat -> cs !! k = Some c2 -> isIdle c2 = false).
Proof.
  revert n i. induction cs as [| x rest IH]; intros n i Hlook Hidle; [discriminate |].
  simpl. destruct (isIdle x) eqn:Hx.
  - exists 0%nat, x. rewrite Nat.add_0_r.
    split; [reflexivity |]. split; [lia |]. split; [reflexivity |].
    intros k c2 Hk. lia.
  - destruct i as [| i]; [simpl in Hlook; congruence |].
    destruct (IH (S n) i Hlook Hidle) as (j & c1 & Hfind & Hj & Hat & Hbefore).
    exists (S j), c1. rewrite Hfind.
    split; [f_equal; f_equal; lia |]. split; [lia |]. split; [exact Hat |].
    intros k c2 Hk Hk2. destruct k as [| k]; simpl in Hk2.
    + congruence.
    + apply (Hbefore k c2); [lia | exact Hk2].
Qed.

(** X5: after [release] of a client of the pool, the next [acquire]
    returns at once by reuse, without creating a client; if every client
    was busy before the release, it is the released client that is handed
    out again. *)
Theorem release_then_acquire tie t0 now p later i c0 :
  clients p !! i = Some c0 ->
  let released := withClients p (release now i (clients p)) in
  exists j c1,
    (j <= i)%nat
    /\ clients released !! j = Some c1
    /\ isIdle c1 = true
    /\ acquire tie t0 released later
       = Got {| handle := handle c1; lastUsed := t0; isIdle := false |}
             (withClients released
                (<[j := {| handle := handle c1; lastUsed := t0; isIdle := false |}]>
                   (clients released)))
             0
    /\ ((forall c, In c (clients p) -> isIdle c = false) ->
          j = i /\ handle c1 = handle c0).
Proof.
  intros Hlook released.
  assert (Hrel : clients released
                 = <[i := {| handle := handle c0; lastUsed := now; isIdle := true |}]>
                     (clients p)).
  { unfold released, release; simpl. rewrite Hlook. reflexivity. }
  assert (Hat : clients released !! i
                = Some {| handle := handle c0; lastUsed := now; isIdle := true |}).
  { rewrite Hrel. apply list_lookup_insert_eq. apply (lookup_lt_Some _ _ _ Hlook). }
  destruct (findIdleFrom_first 0 _ _ _ Hat eq_refl)
    as (j & c1 & Hfind & Hj & Hj1 & Hbefore).
  exists j, c1. split; [exact Hj |]. split; [exact Hj1 |].
  destruct (findIdle_Some _ _ _ Hfind) as [_ Hidle1].
  split; [exact Hidle1 |]. split.
  - apply (acquire_reuses _ _ _ _ _ _ Hfind).
  - intros Hbusy.
    destruct (decide (j = i)) as [-> | Hne].
    + split; [reflexivity |]. rewrite Hat in Hj1. injection Hj1 as <-. reflexivity.
    + exfalso. rewrite Hrel, list_lookup_insert_ne in Hj1 by congruence.
      apply list_elem_of_lookup_2, list_elem_of_In in Hj1.
      specialize (Hbusy _ Hj1). congruence.
Qed.

Lemma release_then_acquire_witness :
  exists p',
    acquire true 50 (withClients Scenarios.fullPool
                       (release 40 0 (clients Scenarios.fullPool))) (fun _ => [])
    = Got {| handle := 0; lastUsed := 50; isIdle := false |} p' 0.
Proof.
  destruct (release_then_acquire true 50 40 Scenarios.fullPool (fun _ => [])
              0%nat Scenarios.busy0 eq_refl)
    as (j & c1 & _ & _ & _ & Hgot & Hsame).
  destruct Hsame as [-> Hh].
  - intros c [<- | []]. reflexivity.
  - eexists. rewrite Hgot. simpl in Hh. rewrite Hh. reflexivity.
Defined.
End PoolInvariants.
Section PooledQueries.
Import Clickhouse PoolUse PoolCount.







(** X7: when the pool is at [max] and no poll before the timeout sees an
    idle client, [rawQuery] and [insert] throw the timeout error of
    [acquire], the statement is never run and the pool is left as it was. *)
Theorem pooled_call_times_out {T : Type} tie t0 p later took
    (answer : PoolClient -> Result string T) :
  findIdle (clients p) = None ->
  (Z.of_nat (length (clients p)) <? max (config p)) = false ->
  (forall k, (k < pollsBeforeTimeout tie (timerDelay (acquireTimeoutMillis (config p))))%nat ->
             findIdle (if Z.of_nat k * pollIntervalMillis =? 0 then clients p
                       else later (Z.of_nat k * pollIntervalMillis)) = None) ->
  rawQuery tie t0 p later took answer = (Throw "Timeout acquiring client", p)
  /\ insert tie t0 p later took answer = (Throw "Timeout acquiring client", p).
Proof.
  intros Hnone Hfull Hpolls.
  assert (Hfail : acquire tie t0 p later
                  = Failed "Timeout acquiring client"
                      (timerDelay (acquireTimeoutMillis (config p)))).
  { unfold acquire. rewrite Hnone, Hfull.
    rewrite check_none; [reflexivity |]. intros j Hj. apply Hpolls. exact Hj. }
  unfold rawQuery, insert. rewrite Hfail. split; reflexivity.
Qed.

Lemma pooled_call_times_out_witness :
  rawQuery true 0 Scenarios.fullPool Scenarios.releasedAt30 5
    (fun _ => Return (E := string) 1%nat)
  = (Throw "Timeout acquiring client", Scenarios.fullPool).
Proof.
  apply (pooled_call_times_out true 0 Scenarios.fullPool Scenarios.releasedAt30 5
           (fun _ => Return (E := string) 1%nat)).
  - reflexivity.
  - reflexivity.
  - intros k Hk. assert (k = 0%nat) as -> by (vm_compute in Hk; lia). reflexivity.
Defined.
End PooledQueries.

(** ** Filter translation *)

Section FilterFacts.
Import Clickhouse FilterArray.

Variable OPERATORS : Operators.





End FilterFacts.

Section FilterQueryFacts.
Import Clickhouse FilterArray.

Variable OPERATORS : Operators.

(** X10: filter entries without a column (dimensions the translator does
    not know) contribute nothing to the predicate: the filter query is the
    one built from the entries that have a column, and it is empty when
    there is none. *)
Theorem getFilterQuery_skips_columnless filtersToArray (filters : QueryFilters) :
  getFilterQuery OPERATORS filtersToArray filters
  = getFilterQuery OPERATORS (fun f => List.filter hasColumn (filtersToArray f)) filters
  /\ (List.filter hasColumn (filtersToArray filters) = [] ->
      getFilterQuery OPERATORS filtersToArray filters = "").
Proof.
  assert (Hsame : getFilterQuery OPERATORS filtersToArray filters
                  = getFilterQuery OPERATORS
                      (fun f => List.filter hasColumn (filtersToArray f)) filters).
  { unfold getFilterQuery. f_equal.
    match goal with
    | |- List.fold_left ?g _ _ = _ =>
        assert (Hfold : forall entries acc,
                   List.fold_left g entries acc
                   = List.fold_left g (List.filter hasColumn entries) acc)
    end.
    { induction entries as [| e rest IH]; intros acc; [reflexivity |].
      simpl. unfold hasColumn at 1.
      destruct (column e) as [col |] eqn:Hc; [| apply IH].
      destruct (String.eqb col "") eqn:Hcol; simpl; [apply IH |].
      rewrite Hc, Hcol. apply IH. }
    apply Hfold. }
  split; [exact Hsame |].
  intros Hnone. rewrite Hsame. unfold getFilterQuery. rewrite Hnone. reflexivity.
Qed.

End FilterQueryFacts.

Lemma getFilterQuery_skips_columnless_witness :
  Clickhouse.getFilterQuery
    {| Clickhouse.equals := "eq"; Clickhouse.notEquals := "neq";
       Clickhouse.contains := "c"; Clickhouse.doesNotContain := "dnc" |}
    (fun _ => [ {| Clickhouse.name := "plan"; Clickhouse.column := None;
                   Clickhouse.operator := "eq"; Clickhouse.value := JStr "pro" |} ])
    Scenarios.fromDay3 = "".
Proof.
  apply (getFilterQuery_skips_columnless
           {| Clickhouse.equals := "eq"; Clickhouse.notEquals := "neq";
              Clickhouse.contains := "c"; Clickhouse.doesNotContain := "dnc" |}
           (fun _ => [ {| Clickhouse.name := "plan"; Clickhouse.column := None;
                          Clickhouse.operator := "eq"; Clickhouse.value := JStr "pro" |} ])
           Scenarios.fromDay3).
  reflexivity.
Defined.

(** ** Pageview queries: the two answers *)

Section PageviewAnswers.
Import Schema.

Variable EVENT_COLUMNS : list string.
Variable EVENT_TYPE_pageView : Z.
Variable OPERATORS : Clickhouse.Operators.
Variable filtersToArray : Clickhouse.QueryFilters -> list Clickhouse.FilterEntry.
Variable prismaParseFilters :
  Schema.DB -> string -> Clickhouse.QueryFilters -> Result string Pageviews.PrismaParsed.

Lemma insertByStartDate_In r l x :
  In x (Pageviews.insertByStartDate r l) <-> x = r \/ In x l.
Proof.
  induction l as [| y l IH]; simpl; [intuition congruence |].
  destruct (startDate r <=? startDate y); simpl; [intuition congruence |].
  rewrite IH. intuition congruence.
Qed.

Lemma orderByStartDate_In l x : In x (Pageviews.orderByStartDate l) <-> In x l.
Proof.
  induction l as [| y l IH]; simpl; [reflexivity |].
  rewrite insertByStartDate_In, IH. intuition congruence.
Qed.

Lemma insertByStartDate_length r l :
  length (Pageviews.insertByStartDate r l) = S (length l).
Proof.
  induction l as [| y l IH]; simpl; [reflexivity |].
  destruct (startDate r <=? startDate y); simpl; [reflexivity |]. rewrite IH. reflexivity.
Qed.

Lemma orderByStartDate_length l : length (Pageviews.orderByStartDate l) = length l.
Proof.
  induction l as [| y l IH]; simpl; [reflexivity |].
  rewrite insertByStartDate_length, IH. reflexivity.
Qed.

Lemma insertByStartDate_sorted r l :
  StronglySorted Ordering.byStart l -> StronglySorted Ordering.byStart (Pageviews.insertByStartDate r l).
Proof.
  induction l as [| y l IH]; intros Hs; simpl.
  - constructor; constructor.
  - apply StronglySorted_inv in Hs as [Hl Hy].
    destruct (startDate r <=? startDate y) eqn:Hle.
    + apply Z.leb_le in Hle. constructor; [constructor; assumption |].
      constructor; [exact Hle |].
      rewrite List.Forall_forall in *. intros z Hz. specialize (Hy z Hz).
      unfold Ordering.byStart in *. lia.
    + apply Z.leb_gt in Hle. constructor; [apply IH; exact Hl |].
      rewrite List.Forall_forall in *. intros z Hz.
      apply insertByStartDate_In in Hz as [-> | Hz]; [unfold Ordering.byStart; lia |].
      apply Hy. exact Hz.
Qed.

Lemma orderByStartDate_sorted l : StronglySorted Ordering.byStart (Pageviews.orderByStartDate l).
Proof.
  induction l as [| y l IH]; simpl; [constructor |].
  apply insertByStartDate_sorted. exact IH.
Qed.

Lemma toSeries_sorted l :
  StronglySorted Ordering.byStart l -> StronglySorted Z.le (List.map fst (Pageviews.toSeries l)).
Proof.
  induction 1 as [| y l Hl IH Hy]; simpl; constructor; [exact IH |].
  rewrite List.Forall_forall in *. intros z Hz.
  unfold Pageviews.toSeries in Hz. rewrite List.map_map in Hz.
  apply in_map_iff in Hz as (r & <- & Hr). apply (Hy r Hr).
Qed.

Lemma Period_eqb_eq a b : Period_eqb a b = true <-> a = b.
Proof. destruct a, b; simpl; split; intros H; congruence. Qed.

(** Membership in the rows the rollup read returns. *)
Lemma findDailyStats_In db websiteId start end_ r :
  In r (Pageviews.findDailyStats db websiteId start end_)
  <-> In r (websiteStats db)
      /\ Schema.websiteId r = websiteId
      /\ period r = daily
      /\ Dates.startOfDay start <= startDate r <= Dates.endOfDay end_.
Proof.
  unfold Pageviews.findDailyStats. rewrite orderByStartDate_In, filter_In.
  rewrite !andb_true_iff, String.eqb_eq, !Z.leb_le, Period_eqb_eq. tauto.
Qed.

(** A rollup answer is the series of the rows read, and there is one. *)
Lemma rollup_answer backend db websiteId filters series :
  Pageviews.getPageviewStats EVENT_COLUMNS EVENT_TYPE_pageView OPERATORS
    filtersToArray prismaParseFilters backend db websiteId filters
  = Return (Pageviews.Rollup series) ->
  series = Pageviews.toSeries
             (Pageviews.findDailyStats db websiteId
                (Clickhouse.startDate filters) (Clickhouse.endDate filters))
  /\ series <> []
  /\ default "day" (Clickhouse.unit filters) = "day".
Proof.
  destruct backend; simpl.
  - unfold Pageviews.relationalQuery.
    destruct (String.eqb (default "day" (Clickhouse.unit filters)) "day") eqn:Hunit;
      simpl.
    + destruct (Pageviews.findDailyStats db websiteId _ _) as [| r rows] eqn:Hrows; simpl.
      * destruct (prismaParseFilters _ _ _); simpl; discriminate.
      * intros [= <-]. apply String.eqb_eq in Hunit. repeat split; [discriminate | exact Hunit].
    + destruct (prismaParseFilters _ _ _); simpl; discriminate.
  - unfold Pageviews.clickhouseQuery.
    destruct (String.eqb (default "day" (Clickhouse.unit filters)) "day") eqn:Hunit;
      destruct (Pageviews.usesEventColumn EVENT_COLUMNS filters); simpl;
      try (destruct (Clickhouse.parseFilters _ _ _ _ _); simpl; discriminate).
    destruct (Pageviews.findDailyStats db websiteId _ _) as [| r rows] eqn:Hrows; simpl.
    + destruct (Clickhouse.parseFilters _ _ _ _ _); simpl; discriminate.
    + intros [= <-]. apply String.eqb_eq in Hunit. repeat split; [discriminate | exact Hunit].
Qed.

(** X11: a series answered from the rollup table, on either backend, is
    not empty, ascending by bucket start, and holds exactly one point per
    stored daily row of the website whose start lies between the start of
    the requested first day and the end of the requested last day, with
    that row's pageviews; days without a stored row have no point. *)
Theorem rollup_series_is_stored_rows backend db websiteId filters series :
  Pageviews.getPageviewStats EVENT_COLUMNS EVENT_TYPE_pageView OPERATORS
    filtersToArray prismaParseFilters backend db websiteId filters
  = Return (Pageviews.Rollup series) ->
  series <> []
  /\ StronglySorted Z.le (List.map fst series)
  /\ (forall x y,
        In (x, y) series
        <-> exists r, In r (websiteStats db)
                      /\ Schema.websiteId r = websiteId
                      /\ period r = daily
                      /\ Dates.startOfDay (Clickhouse.startDate filters) <= startDate r
                         <= Dates.endOfDay (Clickhouse.endDate filters)
                      /\ x = startDate r /\ y = pageviews r)
  /\ length series
     = length (List.filter
                 (fun r => String.eqb (Schema.websiteId r) websiteId
                           && (Dates.startOfDay (Clickhouse.startDate filters) <=? startDate r)
                           && (startDate r <=? Dates.endOfDay (Clickhouse.endDate filters))
                           && Period_eqb (period r) daily)
                 (websiteStats db)).
Proof.
  intros Hans. destruct (rollup_answer _ _ _ _ _ Hans) as (-> & Hne & _).
  split; [exact Hne |]. split; [| split].
  - apply toSeries_sorted, orderByStartDate_sorted.
  - intros x y. unfold Pageviews.toSeries. rewrite in_map_iff. split.
    + intros (r & [= <- <-] & Hr). apply findDailyStats_In in Hr.
      exists r. tauto.
    + intros (r & Hin & Hw & Hp & Hrange & -> & ->). exists r.
      split; [reflexivity |]. apply findDailyStats_In. tauto.
  - unfold Pageviews.toSeries, Pageviews.findDailyStats.
    rewrite length_map, orderByStartDate_length. reflexivity.
Qed.
End PageviewAnswers.

Lemma rollup_series_is_stored_rows_witness :
  StronglySorted Z.le (List.map fst [(Scenarios.day 5, 7%nat)]).
Proof.
  eapply (rollup_series_is_stored_rows Scenarios.EVENT_COLUMNS_spec 1
            {| Clickhouse.equals := "eq"; Clickhouse.notEquals := "neq";
               Clickhouse.contains := "c"; Clickhouse.doesNotContain := "dnc" |}
            (fun _ => []) (fun _ _ _ => Throw "unused")
            Pageviews.CLICKHOUSE Scenarios.resetDb "w" Scenarios.fromDay3).
  vm_compute. reflexivity.
Defined.
Section ColumnarDecision.
Import Schema.

Variable EVENT_COLUMNS : list string.
Variable EVENT_TYPE_pageView : Z.
Variable OPERATORS : Clickhouse.Operators.
Variable filtersToArray : Clickhouse.QueryFilters -> list Clickhouse.FilterEntry.

End ColumnarDecision.

(** ** The aggregation job: what is counted *)

Section DeviceCounts.
Import Schema Aggregation Tally.

Lemma countDevice_step acc s k :
  countOr0 (countDevice acc s) k
  = (countOr0 acc k + (if String.eqb (deviceOf s) k then 1 else 0))%nat.
Proof.
  unfold countOr0, countDevice.
  destruct (String.eqb (deviceOf s) k) eqn:Hk.
  - apply String.eqb_eq in Hk. subst k. rewrite lookup_insert_eq. reflexivity.
  - apply String.eqb_neq in Hk. rewrite lookup_insert_ne by exact Hk. simpl. lia.
Qed.

Lemma deviceCounts_fold sessions acc k :
  countOr0 (List.fold_left countDevice sessions acc) k
  = (countOr0 acc k + sessionsWithDevice k sessions)%nat.
Proof.
  unfold sessionsWithDevice.
  revert acc. induction sessions as [| s rest IH]; intros acc; simpl; [lia |].
  rewrite IH, countDevice_step.
  destruct (String.eqb (deviceOf s) k); simpl; lia.
Qed.

Lemma three_buckets_bound sessions :
  (sessionsWithDevice "desktop" sessions + sessionsWithDevice "mobile" sessions
   + sessionsWithDevice "tablet" sessions <= length sessions)%nat.
Proof.
  unfold sessionsWithDevice. induction sessions as [| s rest IH]; simpl; [lia |].
  destruct (String.eqb (deviceOf s) "desktop") eqn:Hd;
    destruct (String.eqb (deviceOf s) "mobile") eqn:Hm;
    destruct (String.eqb (deviceOf s) "tablet") eqn:Ht; simpl; try lia;
    rewrite ?String.eqb_eq in *; congruence.
Qed.

(** X13: each device column of the computed row is the number of sessions
    created in the range whose device, lower-cased (a missing or empty one
    read as "unknown"), is that column's name; so upper-case spellings
    count too, and the three columns together never exceed [sessions]. *)
Theorem device_columns_count_sessions db websiteId startDate endDate :
  let c := compute db websiteId startDate endDate in
  let sessions := findSessions db websiteId startDate endDate in
  c_desktopViews c = sessionsWithDevice "desktop" sessions
  /\ c_mobileViews c = sessionsWithDevice "mobile" sessions
  /\ c_tabletViews c = sessionsWithDevice "tablet" sessions
  /\ c_sessions c = length sessions
  /\ (c_desktopViews c + c_mobileViews c + c_tabletViews c <= c_sessions c)%nat.
Proof.
  cbv zeta. unfold compute, deviceCountsOf; simpl.
  rewrite !deviceCounts_fold. unfold countOr0. rewrite !lookup_empty. simpl.
  repeat split. apply three_buckets_bound.
Qed.

Lemma remove_dups_length_le (l : list string) : (length (remove_dups l) <= length l)%nat.
Proof.
  induction l as [| x l IH]; simpl; [lia |].
  destruct (decide_rel elem_of x l); simpl; lia.
Qed.

Lemma remove_dups_NoDup (l : list string) : NoDup l -> remove_dups l = l.
Proof.
  induction 1 as [| x l Hx Hl IH]; simpl; [reflexivity |].
  destruct (decide_rel elem_of x l); [contradiction |]. rewrite IH. reflexivity.
Qed.

(** X14: [uniqueVisitors] never exceeds [sessions], and equals it when the
    session ids are distinct, as a primary key makes them. *)
Theorem uniqueVisitors_at_most_sessions db websiteId startDate endDate :
  let c := compute db websiteId startDate endDate in
  (c_uniqueVisitors c <= c_sessions c)%nat
  /\ (NoDup (List.map s_id (session db)) -> c_uniqueVisitors c = c_sessions c).
Proof.
  cbv zeta. rewrite uniqueVisitors_distinct.
  change (c_sessions (compute db websiteId startDate endDate))
    with (length (findSessions db websiteId startDate endDate)).
  split.
  - rewrite <- (length_map s_id (findSessions db websiteId startDate endDate)).
    apply remove_dups_length_le.
  - intros Hnd. rewrite remove_dups_NoDup; [apply length_map |].
    unfold findSessions.
    induction (session db) as [| s rest IH]; simpl; [constructor |].
    simpl in Hnd. apply NoDup_cons in Hnd as [Hs Hnd].
    destruct (inRange _ _ _ _ _); simpl; [| apply IH; exact Hnd].
    apply NoDup_cons. split; [| apply IH; exact Hnd].
    intros Hin. apply Hs. apply list_elem_of_In in Hin. apply list_elem_of_In.
    apply in_map_iff in Hin as (s' & Heq & Hs'). apply filter_In in Hs' as [Hs' _].
    apply in_map_iff. exists s'. auto.
Qed.

Lemma uniqueVisitors_at_most_sessions_witness :
  c_uniqueVisitors (compute Scenarios.batchDb "a" (Scenarios.day 10) (Scenarios.day 11))
  = c_sessions (compute Scenarios.batchDb "a" (Scenarios.day 10) (Scenarios.day 11)).
Proof.
  apply (uniqueVisitors_at_most_sessions Scenarios.batchDb "a"
           (Scenarios.day 10) (Scenarios.day 11)).
  simpl. repeat (apply NoDup_cons; split;
                 [rewrite ?elem_of_cons, elem_of_nil; intuition discriminate |]).
  apply NoDup_nil_2.
Defined.
End DeviceCounts.
Section UrlCounts.
Import Schema Aggregation Tally.

Lemma countOf_bump k k0 groups :
  countOf k (bump k0 groups)
  = (countOf k groups + (if String.eqb k0 k then 1 else 0))%nat.
Proof.
  unfold countOf. induction groups as [| [k1 n] rest IH]; simpl.
  - destruct (String.eqb k0 k); reflexivity.
  - destruct (String.eqb k1 k0) eqn:H10; simpl.
    + apply String.eqb_eq in H10. subst k1.
      destruct (String.eqb k0 k); simpl; lia.
    + destruct (String.eqb k1 k) eqn:H1; simpl.
      * apply String.eqb_eq in H1. subst k1. rewrite (String.eqb_sym k0 k), H10. lia.
      * exact IH.
Qed.

Lemma keys_bump k0 groups :
  List.map fst (bump k0 groups) = List.map fst groups
  \/ (~ In k0 (List.map fst groups)
      /\ List.map fst (bump k0 groups) = (List.map fst groups ++ [k0])%list).
Proof.
  induction groups as [| [k1 n] rest IH]; simpl.
  - right. split; [tauto | reflexivity].
  - destruct (String.eqb k1 k0) eqn:H10; simpl; [left; reflexivity |].
    apply String.eqb_neq in H10.
    destruct IH as [-> | [Hnot ->]]; [left; reflexivity | right].
    split; [| reflexivity]. intros [H | H]; [congruence | contradiction].
Qed.

Lemma positive_bump k0 groups :
  Forall (fun g => (1 <= snd g)%nat) groups ->
  Forall (fun g => (1 <= snd g)%nat) (bump k0 groups).
Proof.
  induction 1 as [| [k1 n] rest Hn Hrest IH]; simpl.
  - constructor; [simpl; lia | constructor].
  - destruct (String.eqb k1 k0); constructor; simpl in *; auto; lia.
Qed.

Lemma NoDup_snoc (l : list string) k : NoDup l -> ~ In k l -> NoDup (l ++ [k]).
Proof.
  intros Hl Hk. apply NoDup_app. split; [exact Hl |].
  split; [| apply NoDup_singleton].
  intros x Hx Hx'. apply list_elem_of_In in Hx. apply list_elem_of_In in Hx'.
  destruct Hx' as [<- | []]. contradiction.
Qed.

Lemma occurrences_cons k k0 ks :
  occurrences k (k0 :: ks)
  = ((if String.eqb k0 k then 1 else 0) + occurrences k ks)%nat.
Proof.
  unfold occurrences. cbn [List.filter]. rewrite (String.eqb_sym k k0).
  destruct (String.eqb k0 k); reflexivity.
Qed.

(** What [groupCount] builds: one group per key, holding its number of
    occurrences. *)
Lemma groupCount_spec ks :
  NoDup (List.map fst (groupCount ks))
  /\ Forall (fun g => (1 <= snd g)%nat) (groupCount ks)
  /\ forall k, countOf k (groupCount ks) = occurrences k ks.
Proof.
  unfold groupCount.
  assert (Hgen : forall groups,
             NoDup (List.map fst groups) ->
             Forall (fun g => (1 <= snd g)%nat) groups ->
             NoDup (List.map fst (List.fold_left (fun gs k => bump k gs) ks groups))
             /\ Forall (fun g => (1 <= snd g)%nat)
                  (List.fold_left (fun gs k => bump k gs) ks groups)
             /\ forall k, countOf k (List.fold_left (fun gs k => bump k gs) ks groups)
                          = (countOf k groups + occurrences k ks)%nat).
  { induction ks as [| k0 ks IH]; intros groups Hnd Hpos; simpl.
    - split; [exact Hnd |]. split; [exact Hpos |]. intros k. unfold occurrences. simpl. lia.
    - destruct (IH (bump k0 groups)) as (Hnd' & Hpos' & Hcount).
      + destruct (keys_bump k0 groups) as [-> | [Hnot ->]];
          [exact Hnd | apply NoDup_snoc; assumption].
      + apply positive_bump. exact Hpos.
      + split; [exact Hnd' |]. split; [exact Hpos' |].
        intros k. rewrite Hcount, countOf_bump, occurrences_cons. lia. }
  destruct (Hgen [] (NoDup_nil_2) (List.Forall_nil _)) as (H1 & H2 & H3).
  split; [exact H1 |]. split; [exact H2 |]. intros k. rewrite H3. reflexivity.
Qed.

Lemma countOf_In k n groups :
  NoDup (List.map fst groups) -> In (k, n) groups -> countOf k groups = n.
Proof.
  unfold countOf. induction groups as [| [k1 n1] rest IH]; intros Hnd Hin; [contradiction |].
  simpl in Hnd. apply NoDup_cons in Hnd as [Hk1 Hnd]. simpl.
  destruct Hin as [[= -> ->] | Hin].
  - rewrite String.eqb_refl. reflexivity.
  - destruct (String.eqb k1 k) eqn:H1.
    + apply String.eqb_eq in H1. subst k1. exfalso. apply Hk1.
      apply list_elem_of_In. apply (in_map fst _ _ Hin).
    + apply IH; assumption.
Qed.

Lemma In_countOf k groups :
  (1 <= countOf k groups)%nat -> In (k, countOf k groups) groups.
Proof.
  unfold countOf. intros H.
  destruct (List.find _ groups) as [[k1 n1] |] eqn:Hfind; [| simpl in H; lia].
  apply find_some in Hfind as [Hin Hk]. simpl in Hk. apply String.eqb_eq in Hk.
  subst k1. exact Hin.
Qed.

(** The sort keeps the groups and puts larger counts first. *)
Lemma insertByCount_perm g l : Permutation (insertByCount g l) (g :: l).
Proof.
  induction l as [| x l IH]; simpl; [reflexivity |].
  destruct (snd x <=? snd g)%nat; [reflexivity |].
  rewrite IH. apply perm_swap.
Qed.

Lemma orderByCountDesc_perm l : Permutation (orderByCountDesc l) l.
Proof.
  induction l as [| x l IH]; simpl; [reflexivity |].
  rewrite insertByCount_perm, IH. reflexivity.
Qed.

Lemma insertByCount_sorted g l :
  StronglySorted byCountDesc l -> StronglySorted byCountDesc (insertByCount g l).
Proof.
  induction l as [| x l IH]; intros Hs; simpl.
  - constructor; constructor.
  - apply StronglySorted_inv in Hs as [Hl Hx].
    destruct (snd x <=? snd g)%nat eqn:Hle.
    + apply Nat.leb_le in Hle. constructor; [constructor; assumption |].
      constructor; [exact Hle |].
      rewrite List.Forall_forall in *. intros z Hz. specialize (Hx z Hz).
      unfold byCountDesc in *. lia.
    + apply Nat.leb_gt in Hle. constructor; [apply IH; exact Hl |].
      rewrite List.Forall_forall in *. intros z Hz.
      apply (Permutation_in _ (insertByCount_perm g l)) in Hz.
      destruct Hz as [<- | Hz]; [unfold byCountDesc; lia | apply Hx; exact Hz].
Qed.

Lemma orderByCountDesc_sorted l : StronglySorted byCountDesc (orderByCountDesc l).
Proof.
  induction l as [| x l IH]; simpl; [constructor |].
  apply insertByCount_sorted. exact IH.
Qed.

Lemma sorted_app_order {A} (R : A -> A -> Prop) l1 l2 a b :
  StronglySorted R (l1 ++ l2) -> In a l1 -> In b l2 -> R a b.
Proof.
  induction l1 as [| x l1 IH]; simpl; intros Hs Ha Hb; [contradiction |].
  apply StronglySorted_inv in Hs as [Hs Hx].
  destruct Ha as [<- | Ha]; [| apply IH; assumption].
  rewrite List.Forall_forall in Hx. apply Hx. apply in_or_app. right. exact Hb.
Qed.

(** Reading the object the [reduce] builds, for groups with distinct keys. *)
Lemma urlObject_fold groups (acc : gmap string nat) k :
  NoDup (List.map fst groups) ->
  List.fold_left (fun m g => <[fst g := snd g]> m) groups acc !! k
  = match List.find (fun g => String.eqb (fst g) k) groups with
    | Some g => Some (snd g)
    | None => acc !! k
    end.
Proof.
  revert acc. induction groups as [| [k1 n1] rest IH]; intros acc Hnd; [reflexivity |].
  simpl in Hnd. apply NoDup_cons in Hnd as [Hk1 Hnd]. simpl.
  rewrite (IH _ Hnd).
  destruct (String.eqb k1 k) eqn:H1.
  - apply String.eqb_eq in H1. subst k1.
    destruct (List.find _ rest) as [[k2 n2] |] eqn:Hfind.
    + apply find_some in Hfind as [Hin Hk]. simpl in Hk. apply String.eqb_eq in Hk.
      subst k2. exfalso. apply Hk1. apply list_elem_of_In. apply (in_map fst _ _ Hin).
    + apply lookup_insert_eq.
  - apply String.eqb_neq in H1.
    destruct (List.find _ rest); [reflexivity |]. apply lookup_insert_ne. exact H1.
Qed.

Lemma urlObject_lookup groups k n :
  NoDup (List.map fst groups) ->
  (urlObject groups !! k = Some n <-> In (k, n) groups).
Proof.
  intros Hnd. unfold urlObject. rewrite (urlObject_fold _ _ _ Hnd), lookup_empty.
  split.
  - destruct (List.find _ groups) as [[k1 n1] |] eqn:Hfind; [| discriminate].
    intros [= <-]. apply find_some in Hfind as [Hin Hk]. simpl in Hk.
    apply String.eqb_eq in Hk. subst k1. exact Hin.
  - intros Hin. pose proof (countOf_In _ _ _ Hnd Hin) as Hc. unfold countOf in Hc.
    destruct (List.find _ groups) as [g |] eqn:Hfind; [rewrite Hc; reflexivity |].
    apply (find_none _ _ Hfind) in Hin. simpl in Hin.
    rewrite String.eqb_refl in Hin. discriminate Hin.
Qed.

Lemma urlObject_size groups : (size (urlObject groups) <= length groups)%nat.
Proof.
  unfold urlObject.
  assert (Hgen : forall acc : gmap string nat,
             (size (List.fold_left (fun m g => <[fst g := snd g]> m) groups acc)
              <= size acc + length groups)%nat).
  { induction groups as [| g rest IH]; intros acc; simpl; [lia |].
    specialize (IH (<[fst g := snd g]> acc)).
    pose proof (map_size_insert (fst g) (snd g) acc) as Hs.
    destruct (acc !! fst g); simpl in Hs; unfold id in Hs; lia. }
  specialize (Hgen ∅). rewrite map_size_empty in Hgen. exact Hgen.
Qed.

(** X15: every entry of the stored [urlData] holds, for its path, the
    number of events of the website in the range with that path, which is
    at least 1; there are at most 100 entries; and a path left out has no
    more events than any path kept. *)
Theorem urlData_counts_top_paths db websiteId startDate endDate :
  let c := compute db websiteId startDate endDate in
  let paths := pathsInRange db websiteId startDate endDate in
  (forall k n, c_urlData c !! k = Some n ->
               n = occurrences k paths /\ (1 <= n)%nat)
  /\ (size (c_urlData c) <= 100)%nat
  /\ (forall k n k', c_urlData c !! k = Some n -> c_urlData c !! k' = None ->
                     (occurrences k' paths <= n)%nat).
Proof.
  cbv zeta. unfold compute; simpl. unfold urlGroups. fold (pathsInRange db websiteId startDate endDate).
  set (paths := pathsInRange db websiteId startDate endDate).
  set (groups := groupCount paths).
  set (sorted := orderByCountDesc groups).
  destruct (groupCount_spec paths) as (Hnd & Hpos & Hcount). fold groups in Hnd, Hpos, Hcount.
  pose proof (orderByCountDesc_perm groups) as Hperm. fold sorted in Hperm.
  assert (HndS : NoDup (List.map fst sorted)).
  { eapply (NoDup_Permutation_proper (List.map fst groups)); [| exact Hnd].
    symmetry. apply Permutation_map. exact Hperm. }
  assert (Hsplit : (firstn 100 sorted ++ skipn 100 sorted)%list = sorted)
    by apply firstn_skipn.
  assert (HndF : NoDup (List.map fst (firstn 100 sorted))).
  { rewrite <- Hsplit, map_app in HndS. apply NoDup_app in HndS. tauto. }
  assert (Hin : forall k n, In (k, n) sorted -> n = occurrences k paths /\ (1 <= n)%nat).
  { intros k n Hkn. apply (Permutation_in _ Hperm) in Hkn.
    split.
    - rewrite <- Hcount. symmetry. apply countOf_In; assumption.
    - rewrite List.Forall_forall in Hpos. apply (Hpos _ Hkn). }
  split; [| split].
  - intros k n Hk. apply (urlObject_lookup _ _ _ HndF) in Hk.
    apply Hin. rewrite <- Hsplit. apply in_or_app. left. exact Hk.
  - etransitivity; [apply urlObject_size |]. apply firstn_le_length.
  - intros k n k' Hk Hk'.
    apply (urlObject_lookup _ _ _ HndF) in Hk.
    destruct (occurrences k' paths) as [| m] eqn:Hocc; [lia |].
    assert (Hk'in : In (k', S m) groups).
    { rewrite <- Hocc, <- Hcount. apply In_countOf. rewrite Hcount. lia. }
    apply (Permutation_in _ (Permutation_sym Hperm)) in Hk'in.
    rewrite <- Hsplit in Hk'in. apply in_app_iff in Hk'in as [Hfirst | Hrest].
    + apply (urlObject_lookup _ _ _ HndF) in Hfirst. congruence.
    + pose proof (orderByCountDesc_sorted groups) as Hsorted. fold sorted in Hsorted.
      rewrite <- Hsplit in Hsorted.
      apply (sorted_app_order _ _ _ _ _ Hsorted Hk Hrest).
Qed.
End UrlCounts.

Section ReferrerCounts.
Import Schema Aggregation Tally Referrers.

Let key (g : string * nat) : string := if String.eqb (fst g) "" then "direct" else fst g.



End ReferrerCounts.
(** ** The aggregation job: what is written and what is deleted *)

Section JobWrites.
Import Schema Aggregation Tally.

Lemma hasKey_keyOf websiteId startDate p r :
  hasKey websiteId startDate p r = true <-> keyOf r = (websiteId, startDate, p).
Proof.
  unfold hasKey, keyOf. rewrite !andb_true_iff, String.eqb_eq, Z.eqb_eq.
  split.
  - intros [[-> ->] Hp]. f_equal. destruct (period r), p; simpl in Hp; congruence.
  - intros [= -> -> ->]. repeat split. destruct p; reflexivity.
Qed.

Lemma upsert_keys websiteId startDate endDate c rows :
  List.map keyOf
    (upsert websiteId startDate daily (createRow websiteId startDate endDate c)
       (updateRow c) rows)
  = if List.existsb (hasKey websiteId startDate daily) rows
    then List.map keyOf rows
    else (List.map keyOf rows ++ [(websiteId, startDate, daily)])%list.
Proof.
  unfold upsert. destruct (List.existsb _ rows).
  - rewrite List.map_map. apply List.map_ext. intros r.
    destruct (hasKey websiteId startDate daily r); reflexivity.
  - rewrite map_app. reflexivity.
Qed.

Lemma upsert_others websiteId startDate endDate c rows (keep : WebsiteStats -> bool) :
  (forall r, hasKey websiteId startDate daily r = true -> keep r = false) ->
  (forall r, keep (updateRow c r) = keep r) ->
  List.filter keep
    (upsert websiteId startDate daily (createRow websiteId startDate endDate c)
       (updateRow c) rows)
  = List.filter keep rows.
Proof.
  intros Hkey Hupd. unfold upsert. destruct (List.existsb _ rows).
  - induction rows as [| r rows IH]; simpl; [reflexivity |].
    destruct (hasKey websiteId startDate daily r) eqn:Hr.
    + rewrite Hupd, (Hkey r Hr). exact IH.
    + destruct (keep r); rewrite IH; reflexivity.
  - rewrite List.filter_app. simpl.
    rewrite (Hkey _ (hasKey_createRow websiteId startDate endDate c)).
    apply app_nil_r.
Qed.

(** X17: a call of [aggregateWebsiteStats] that fails writes nothing.  One
    that succeeds changes the rollup table only under the key (website,
    start, daily): the rows under other keys stay as and where they were, a
    row is added only if the key had none, and a table with at most one row
    per key keeps that property; sessions, events and websites are not
    written. *)
Theorem aggregate_writes_one_key fault websiteId startDate endDate db log :
  let out := aggregateWebsiteStats fault websiteId startDate endDate (db, log) in
  let db' := fst (fst out) in
  match fault websiteId with
  | Some e => snd out = Throw e /\ db' = db
  | None =>
      snd out = Return tt
      /\ session db' = session db
      /\ websiteEvent db' = websiteEvent db
      /\ website db' = website db
      /\ List.filter (fun r => negb (hasKey websiteId startDate daily r)) (websiteStats db')
         = List.filter (fun r => negb (hasKey websiteId startDate daily r)) (websiteStats db)
      /\ length (websiteStats db')
         = (length (websiteStats db)
            + (if List.existsb (hasKey websiteId startDate daily) (websiteStats db)
               then 0 else 1))%nat
      /\ (uniqueKeys (websiteStats db) -> uniqueKeys (websiteStats db'))
  end.
Proof.
  cbv zeta. unfold aggregateWebsiteStats. destruct (fault websiteId) as [e |]; simpl.
  - split; reflexivity.
  - repeat split.
    + apply upsert_others.
      * intros r Hr. rewrite Hr. reflexivity.
      * intros r. rewrite hasKey_updateRow. reflexivity.
    + unfold upsert. destruct (List.existsb _ (websiteStats db)).
      * rewrite length_map. lia.
      * rewrite length_app. simpl. lia.
    + unfold uniqueKeys. intros Hu. rewrite upsert_keys.
      destruct (List.existsb _ (websiteStats db)) eqn:Hany; [exact Hu |].
      apply NoDup_app. split; [exact Hu |]. split; [| apply NoDup_singleton].
      intros k Hk Hk'. apply list_elem_of_In in Hk, Hk'. destruct Hk' as [<- | []].
      apply in_map_iff in Hk as (r & Hr & Hin).
      apply hasKey_keyOf in Hr.
      assert (List.existsb (hasKey websiteId startDate daily) (websiteStats db) = true)
        by (apply existsb_exists; eauto).
      congruence.
Qed.


End JobWrites.
Section JobRuns.
Import Schema Aggregation Tally.

Variable fault : string -> option string.
Variable today : Z.

Let startDate := Dates.startOfDay (Dates.subDays today RETENTION_DAYS).
Let endDate := Dates.endOfDay (Dates.subDays today RETENTION_DAYS).








End JobRuns.

(** ** The collection endpoint: gates, token and writes *)

Section CollectGates.
Import Collect.

Variable safeDecodeURI : option string -> option string.
Variable uuid : string -> string -> string.
Variable visitSalt : Z -> string.
Variable COLLECTION_TYPE_event : string.
Variable COLLECTION_TYPE_identify : string.
Variable looksAbsolute : option string -> bool.
Variable newURL : option string -> Result string Url.

Let handle := handler safeDecodeURI uuid visitSalt COLLECTION_TYPE_event
                COLLECTION_TYPE_identify looksAbsolute newURL.
Let build := buildEvent safeDecodeURI looksAbsolute newURL.
Let stamp := stampVisit uuid visitSalt.

Ltac split_gates :=
  repeat match goal with
         | |- context [if ?b then _ else _] => destruct b eqn:?
         | |- context [match ?x with _ => _ end] => destruct x eqn:?
         end.

(** X21: the handler stores nothing unless it answers with a token, and
    then at most one row.  A token is sent only for a POST that is not an
    undisabled bot, validated, does not come from a blocked address and has
    a session with an id; the token is that session with [iat] set to the
    current whole second, its id, website and dimensions unchanged, and the
    response repeats the session id and the type. *)
Theorem handler_gates env req :
  match response (handle env req) with
  | Sent tok sid ty =>
      method req = "POST"
      /\ (userAgentIsBot req = true -> DISABLE_BOT_CHECK env = true)
      /\ validates req = true
      /\ hasBlockedIp req = false
      /\ (exists s0, useSession req = Return (Some s0)
                     /\ id tok = id s0 /\ websiteId tok = websiteId s0
                     /\ dimensions tok = dimensions s0)
      /\ id tok <> ""
      /\ iat tok = Some (now env / 1000)
      /\ sid = id tok /\ ty = type req
      /\ sessionAfter (handle env req) = Some tok
      /\ (length (writes (handle env req)) <= 1)%nat
  | _ => writes (handle env req) = []
  end.
Proof.
  unfold handle, handler, processingFailed, sent.
  destruct (String.eqb (method req) "POST") eqn:Hm; simpl; [| reflexivity].
  apply String.eqb_eq in Hm.
  destruct (DISABLE_BOT_CHECK env) eqn:Hbot; destruct (userAgentIsBot req) eqn:Hua;
    simpl; try reflexivity;
    (destruct (validates req); simpl; [| reflexivity]);
    (destruct (hasBlockedIp req); simpl; [reflexivity |]);
    (destruct (useSession req) as [[s0 |] | err]; simpl; try reflexivity);
    (destruct (String.eqb (id s0) "") eqn:Hid; simpl; [reflexivity |]);
    apply String.eqb_neq in Hid;
    (destruct (String.eqb (type req) COLLECTION_TYPE_event);
     [destruct (buildEvent _ _ _ env (payload req) _);
      [destruct (storeError env) |]
     | destruct (String.eqb (type req) COLLECTION_TYPE_identify);
       [destruct (data (payload req)); [destruct (storeError env) |] |]]);
    simpl; try reflexivity;
    repeat split; eauto; try discriminate; try lia.
Qed.

(** X22: once the gates are passed, the type decides what is stored: an
    event request stores the event [buildEvent] made, an identify request
    stores its [data] for the session, and a request of any other type is
    answered with a token and stores nothing.  No token is sent when the
    store call fails, when the event cannot be built, or when an identify
    request has no [data]. *)
Theorem handler_dispatch env req tok sid ty :
  response (handle env req) = Sent tok sid ty ->
  if String.eqb (type req) COLLECTION_TYPE_event
  then storeError env = None
       /\ exists e, build env (payload req) tok = Return e
                    /\ writes (handle env req) = [SaveEvent e]
  else if String.eqb (type req) COLLECTION_TYPE_identify
       then storeError env = None
            /\ exists d, data (payload req) = Some d
                         /\ writes (handle env req)
                            = [SaveSessionData (websiteId tok) (id tok) d]
       else writes (handle env req) = [].
Proof.
  unfold handle, handler, processingFailed, sent, build.
  destruct (negb (String.eqb (method req) "POST")); [discriminate |].
  destruct (negb (DISABLE_BOT_CHECK env) && userAgentIsBot req); [discriminate |].
  destruct (negb (validates req)); [discriminate |].
  destruct (hasBlockedIp req); [discriminate |].
  destruct (useSession req) as [[s0 |] | err]; try discriminate.
  destruct (String.eqb (id s0) ""); [discriminate |].
  destruct (String.eqb (type req) COLLECTION_TYPE_event).
  - destruct (buildEvent _ _ _ env (payload req) _) as [e | err] eqn:Hb; [| discriminate].
    destruct (storeError env); [discriminate |].
    simpl. intros [= <- _ _]. split; [reflexivity |]. exists e. auto.
  - destruct (String.eqb (type req) COLLECTION_TYPE_identify).
    + destruct (data (payload req)) as [d |]; [| discriminate].
      destruct (storeError env); [discriminate |].
      simpl. intros [= <- _ _]. split; [reflexivity |]. exists d. auto.
    + simpl. intros _. reflexivity.
Qed.
End CollectGates.

Lemma handler_dispatch_witness :
  Collect.writes
    (Scenarios.runHandler (Scenarios.envAt 1700000000500)
       {| Collect.method := "POST"; Collect.userAgentIsBot := false;
          Collect.validates := true; Collect.hasBlockedIp := false;
          Collect.type := "Event";
          Collect.payload := {| Collect.website := "w"; Collect.data := None;
                                Collect.url := Some "/a"; Collect.referrer := None;
                                Collect.name := None; Collect.title := None;
                                Collect.tag := None |};
          Collect.useSession := Return (Some Scenarios.freshSession) |})
  = [].
Proof.
  exact (handler_dispatch Scenarios.plainDecode Scenarios.pairUuid Scenarios.hourSalt
           "event" "identify" Scenarios.neverAbsolute Scenarios.noURL
           (Scenarios.envAt 1700000000500)
           {| Collect.method := "POST"; Collect.userAgentIsBot := false;
              Collect.validates := true; Collect.hasBlockedIp := false;
              Collect.type := "Event";
              Collect.payload := {| Collect.website := "w"; Collect.data := None;
                                    Collect.url := Some "/a"; Collect.referrer := None;
                                    Collect.name := None; Collect.title := None;
                                    Collect.tag := None |};
              Collect.useSession := Return (Some Scenarios.freshSession) |}
           Scenarios.afterFirst "s1" "Event" eq_refl).
Defined.
(** ** The collection endpoint: paths and hostnames *)

Section UrlPieces.
Import Collect.

Lemma split_cons sep s : exists piece pieces, split sep s = piece :: pieces.
Proof.
  destruct s as [| c rest]; simpl; [eauto |].
  destruct (Ascii.eqb c sep); [eauto |].
  destruct (split sep rest); eauto.
Qed.

Lemma concat_cons sep piece piece' pieces :
  String.concat sep (piece :: piece' :: pieces)
  = piece +:+ sep +:+ String.concat sep (piece' :: pieces).
Proof. reflexivity. Qed.

Lemma split_concat sep s : String.concat (String sep "") (split sep s) = s.
Proof.
  induction s as [| c rest IH]; [reflexivity |].
  simpl. destruct (split_cons sep rest) as (piece & pieces & Hsplit).
  rewrite Hsplit in *.
  destruct (Ascii.eqb c sep) eqn:Hc.
  - apply Ascii.eqb_eq in Hc. subst c. rewrite concat_cons, IH. reflexivity.
  - destruct pieces as [| piece' pieces].
    + simpl in *. rewrite IH. reflexivity.
    + rewrite concat_cons. rewrite <- IH. rewrite concat_cons. reflexivity.
Qed.

Lemma split_pieces_clean sep s piece :
  In piece (split sep s) -> ~ In sep (list_ascii_of_string piece).
Proof.
  revert piece. induction s as [| c rest IH]; intros piece; simpl.
  - intros [<- | []]. simpl. tauto.
  - destruct (Ascii.eqb c sep) eqn:Hc.
    + intros [<- | Hin]; [simpl; tauto | apply IH; exact Hin].
    + apply Ascii.eqb_neq in Hc.
      destruct (split_cons sep rest) as (p & ps & Hsplit). rewrite Hsplit in *.
      intros [<- | Hin].
      * simpl. intros [Heq | Hin]; [congruence |].
        apply (IH p); [left; reflexivity | exact Hin].
      * apply IH. right. exact Hin.
Qed.

Lemma split_length sep s :
  length (split sep s)
  = S (length (List.filter (Ascii.eqb sep) (list_ascii_of_string s))).
Proof.
  induction s as [| c rest IH]; [reflexivity |].
  simpl. rewrite (Ascii.eqb_sym sep c).
  destruct (Ascii.eqb c sep); simpl; [rewrite IH; reflexivity |].
  destruct (split_cons sep rest) as (p & ps & Hsplit). rewrite Hsplit in *.
  simpl in *. exact IH.
Qed.

(** X23: [split] cuts a string at every separator and nowhere else:
    joining the pieces with the separator gives the string back, no piece
    contains the separator, and there is one piece more than there are
    separators (so at least one, also for the empty string). *)
Theorem split_round_trip sep s :
  String.concat (String sep "") (split sep s) = s
  /\ (forall piece, In piece (split sep s) -> ~ In sep (list_ascii_of_string piece))
  /\ length (split sep s)
     = S (length (List.filter (Ascii.eqb sep) (list_ascii_of_string s))).
Proof.
  split; [apply split_concat |]. split; [apply split_pieces_clean | apply split_length].
Qed.

Lemma string_of_list_ascii_app l1 l2 :
  string_of_list_ascii (l1 ++ l2) = string_of_list_ascii l1 +:+ string_of_list_ascii l2.
Proof. induction l1 as [| c l1 IH]; simpl; [reflexivity |]. rewrite IH. reflexivity. Qed.

Lemma list_ascii_of_string_app s1 s2 :
  list_ascii_of_string (s1 +:+ s2)
  = (list_ascii_of_string s1 ++ list_ascii_of_string s2)%list.
Proof. induction s1 as [| c s1 IH]; simpl; [reflexivity |]. rewrite IH. reflexivity. Qed.

Lemma removeTrailingSlash_cases s :
  removeTrailingSlash s = s
  \/ (s = removeTrailingSlash s +:+ "/" /\ removeTrailingSlash s <> "").
Proof.
  unfold removeTrailingSlash.
  destruct (List.rev (list_ascii_of_string s)) as [| slash [| c before]] eqn:Hrev;
    [left; reflexivity | left; reflexivity |].
  destruct (Ascii.eqb slash "/") eqn:Hslash; simpl; [| left; reflexivity].
  destruct (isLineTerminator c); simpl; [left; reflexivity |].
  right. apply Ascii.eqb_eq in Hslash. subst slash.
  assert (Hl : list_ascii_of_string s
               = (List.rev (c :: before) ++ ["/"%char])%list).
  { rewrite <- (rev_involutive (list_ascii_of_string s)), Hrev. reflexivity. }
  split.
  - rewrite <- (string_of_list_ascii_of_string s), Hl, string_of_list_ascii_app.
    reflexivity.
  - intros Hempty.
    assert (Hnil : List.rev (c :: before) = []).
    { rewrite <- (list_ascii_of_string_of_list_ascii (List.rev (c :: before))).
      simpl in *. rewrite Hempty. reflexivity. }
    simpl in Hnil. apply app_eq_nil in Hnil as [_ Hnil]. discriminate Hnil.
Qed.

Lemma length_append_string (a b : string) :
  String.length (a +:+ b) = (String.length a + String.length b)%nat.
Proof. induction a as [| c a IH]; simpl; [reflexivity | rewrite IH; reflexivity]. Qed.

(** X24: removing the trailing slash either leaves a path as it is or
    drops exactly one final "/" and leaves a non-empty path; the path "/"
    and the empty path are left as they are. *)
Theorem removeTrailingSlash_drops_one_slash s :
  (removeTrailingSlash s = s
   \/ (s = removeTrailingSlash s +:+ "/" /\ removeTrailingSlash s <> ""))
  /\ removeTrailingSlash "/" = "/"
  /\ removeTrailingSlash "" = ""
  /\ (String.length s - 1 <= String.length (removeTrailingSlash s) <= String.length s)%nat.
Proof.
  split; [apply removeTrailingSlash_cases |].
  split; [reflexivity |]. split; [reflexivity |].
  destruct (removeTrailingSlash_cases s) as [-> | [Hs _]]; [lia |].
  rewrite Hs at 1 4. rewrite length_append_string. simpl. lia.
Qed.

Lemma removeTrailingSlash_chars s c :
  In c (list_ascii_of_string (removeTrailingSlash s)) -> In c (list_ascii_of_string s).
Proof.
  destruct (removeTrailingSlash_cases s) as [-> | [Hs _]]; [auto |].
  intros Hc. rewrite Hs, list_ascii_of_string_app. apply in_or_app. left. exact Hc.
Qed.

Variable safeDecodeURI : option string -> option string.
Variable uuid : string -> string -> string.
Variable visitSalt : Z -> string.
Variable COLLECTION_TYPE_event : string.
Variable COLLECTION_TYPE_identify : string.
Variable looksAbsolute : option string -> bool.
Variable newURL : option string -> Result string Url.

Lemma buildEvent_urlQuery env p s e :
  buildEvent safeDecodeURI looksAbsolute newURL env p s = Return e ->
  urlQuery e = default "" (default [] (split "?" <$> safeDecodeURI (url p)) !! 1%nat).
Proof.
  unfold buildEvent. cbv zeta.
  destruct (looksAbsolute _); [destruct (newURL _) |]; simpl;
    try discriminate; intros [= <-]; reflexivity.
Qed.

(** X25: the [urlPath] and the [urlQuery] of a saved event never contain a
    question mark: the path is what precedes the first one in the decoded
    URL and the query what lies between the first and the second; whatever
    follows a second question mark is not stored. *)
Theorem saved_url_has_no_question_mark env req e :
  In (SaveEvent e)
    (writes (handler safeDecodeURI uuid visitSalt COLLECTION_TYPE_event
               COLLECTION_TYPE_identify looksAbsolute newURL env req)) ->
  ~ In "?"%char (list_ascii_of_string (urlPath e))
  /\ ~ In "?"%char (list_ascii_of_string (urlQuery e))
  /\ urlQuery e
     = default "" (default [] (split "?" <$> safeDecodeURI (url (payload req))) !! 1%nat).
Proof.
  intros Hsaved.
  destruct (handler_saved _ _ _ _ _ _ _ _ _ _ Hsaved) as (s0 & _ & Hbuild).
  pose proof (buildEvent_urlPath _ _ _ _ _ _ _ Hbuild) as Hpath. cbv zeta in Hpath.
  pose proof (buildEvent_urlQuery _ _ _ _ Hbuild) as Hquery.
  set (pieces := default [] (split "?" <$> safeDecodeURI (url (payload req)))) in *.
  assert (Hclean : forall piece, In piece pieces ->
                                 ~ In "?"%char (list_ascii_of_string piece)).
  { subst pieces. destruct (safeDecodeURI (url (payload req))) as [u |]; simpl.
    - apply split_pieces_clean.
    - intros piece []. }
  split; [| split; [| exact Hquery]].
  - rewrite Hpath.
    assert (Hbase : ~ In "?"%char
                      (list_ascii_of_string
                         match pieces !! 0%nat with
                         | Some u => if String.eqb u "" then "/" else u
                         | None => "/"
                         end)).
    { destruct (pieces !! 0%nat) as [u |] eqn:Hu.
      - destruct (String.eqb u ""); [simpl; intros [H | []]; discriminate H |].
        apply Hclean. apply list_elem_of_In. apply (list_elem_of_lookup_2 _ 0%nat). exact Hu.
      - simpl. intros [H | []]. discriminate H. }
    destruct (REMOVE_TRAILING_SLASH env); [| exact Hbase].
    intros Hin. apply Hbase. apply removeTrailingSlash_chars. exact Hin.
  - rewrite Hquery. destruct (pieces !! 1%nat) as [q |] eqn:Hq; simpl; [| tauto].
    apply Hclean. apply list_elem_of_In. apply (list_elem_of_lookup_2 _ 1%nat). exact Hq.
Qed.
End UrlPieces.

Lemma saved_url_has_no_question_mark_witness :
  let e :=
    {| Collect.urlPath := "/a"; Collect.urlQuery := "x=1";
       Collect.referrerPath := None; Collect.referrerQuery := None;
       Collect.referrerDomain := ""; Collect.pageTitle := None;
       Collect.eventName := None; Collect.eventData := None;
       Collect.session := Scenarios.afterFirst; Collect.sessionId := "s1";
       Collect.eventTag := None |} in
  ~ In "?"%char (list_ascii_of_string (Collect.urlPath e))
  /\ ~ In "?"%char (list_ascii_of_string (Collect.urlQuery e))
  /\ Collect.urlQuery e = "x=1".
Proof.
  intros e.
  apply (saved_url_has_no_question_mark Scenarios.plainDecode Scenarios.pairUuid
           Scenarios.hourSalt "event" "identify" Scenarios.neverAbsolute Scenarios.noURL
           (Scenarios.envAt 1700000000500)
           (Scenarios.eventRequest (Some "/a/?x=1?y=2") Scenarios.freshSession) e).
  left. reflexivity.
Defined.

(** ** The collection endpoint: the referrer's domain *)

Section ReferrerDomain.
Import Collect.

Lemma substring_all s : String.substring 0 (String.length s) s = s.
Proof. induction s as [| c s IH]; simpl; [reflexivity | rewrite IH; reflexivity]. Qed.

Lemma prefix_www s :
  String.prefix "www." s = true ->
  s = "www." +:+ String.substring 4 (String.length s - 4) s.
Proof.
  intros Hp. apply String.prefix_correct in Hp. simpl String.length in Hp.
  destruct s as [| c1 [| c2 [| c3 [| c4 rest]]]]; simpl in Hp; try discriminate Hp.
  injection Hp as <- <- <- <-.
  simpl. rewrite Nat.sub_0_r, substring_all. reflexivity.
Qed.

Lemma removeFirstWww_cons c rest :
  String.prefix "www." (String c rest) = false ->
  removeFirstWww (String c rest) = String c (removeFirstWww rest).
Proof. intros Hp. simpl removeFirstWww. simpl in Hp. rewrite Hp. reflexivity. Qed.

Lemma removeFirstWww_prefix s :
  String.prefix "www." s = true ->
  removeFirstWww s = String.substring 4 (String.length s - 4) s.
Proof.
  destruct s as [| c rest]; [discriminate |].
  intros Hp. simpl removeFirstWww. simpl in Hp. rewrite Hp. reflexivity.
Qed.

Lemma prefix_www_append host : String.prefix "www." ("www." +:+ host) = true.
Proof. destruct host; reflexivity. Qed.

Lemma cut_www host :
  String.substring 4 (String.length ("www." +:+ host) - 4) ("www." +:+ host) = host.
Proof.
  change ("www." +:+ host) with (String "w" (String "w" (String "w" (String "." host)))).
  cbn [String.length String.substring Nat.sub]. rewrite Nat.sub_0_r. apply substring_all.
Qed.

(** X26: the referrer domain loses its first "www." wherever it stands,
    not only a leading one: the stored value is the hostname itself when
    it contains none, and otherwise the hostname with one "www." cut out
    of it; a leading "www." is cut, and so is one that follows another
    character. *)
Theorem removeFirstWww_cuts_first_occurrence :
  (forall host,
     removeFirstWww host = host
     \/ exists before after,
          host = before +:+ "www." +:+ after
          /\ removeFirstWww host = before +:+ after)
  /\ (forall host, removeFirstWww ("www." +:+ host) = host)
  /\ (forall c host, removeFirstWww (String c ("www." +:+ host)) = String c host).
Proof.
  split; [| split].
  - induction host as [| c rest IH]; [left; reflexivity |].
    destruct (String.prefix "www." (String c rest)) eqn:Hp.
    + right. exists "", (String.substring 4 (String.length (String c rest) - 4) (String c rest)).
      split; [apply prefix_www; exact Hp |].
      apply removeFirstWww_prefix. exact Hp.
    + rewrite (removeFirstWww_cons _ _ Hp).
      destruct IH as [-> | (before & after & Hrest & ->)]; [left; reflexivity |].
      right. exists (String c before), after. split; [| reflexivity].
      rewrite Hrest at 1. reflexivity.
  - intros host. rewrite removeFirstWww_prefix by apply prefix_www_append. apply cut_www.
  - intros c host. rewrite removeFirstWww_cons.
    + rewrite removeFirstWww_prefix by apply prefix_www_append. rewrite cut_www. reflexivity.
    + change (String c ("www." +:+ host))
        with (String c (String "w" (String "w" (String "w" (String "." host))))).
      cbn [String.prefix].
      destruct (Ascii.ascii_dec "w" c) as [_ | _]; [| reflexivity].
      reflexivity.
Qed.
End ReferrerDomain.

(** ** Reset and deletion of a website *)

Section WebsiteFacts.
Import Schema WebsiteQueries.

Lemma In_others {A} (owner : A -> string) id rows r :
  In r (others owner id rows) <-> In r rows /\ owner r <> id.
Proof.
  unfold others. rewrite List.filter_In.
  rewrite negb_true_iff, String.eqb_neq. reflexivity.
Qed.

Lemma find_updated id (data : Website -> Website) ws :
  (forall w, w_id (data w) = w_id w) ->
  List.find (fun w => String.eqb (w_id w) id)
    (List.map (fun w => if String.eqb (w_id w) id then data w else w) ws)
  = data <$> List.find (fun w => String.eqb (w_id w) id) ws.
Proof.
  intros Hid. induction ws as [| w ws IH]; [reflexivity |].
  simpl. destruct (String.eqb (w_id w) id) eqn:Hw.
  - rewrite Hid, Hw. reflexivity.
  - rewrite Hw. exact IH.
Qed.

Lemma find_updated_other id other (data : Website -> Website) ws :
  (forall w, w_id (data w) = w_id w) ->
  other <> id ->
  List.find (fun w => String.eqb (w_id w) other)
    (List.map (fun w => if String.eqb (w_id w) id then data w else w) ws)
  = List.find (fun w => String.eqb (w_id w) other) ws.
Proof.
  intros Hid Hother. induction ws as [| w ws IH]; [reflexivity |].
  simpl. destruct (String.eqb (w_id w) id) eqn:Hw.
  - rewrite Hid. apply String.eqb_eq in Hw.
    assert (Hno : String.eqb (w_id w) other = false).
    { apply String.eqb_neq. congruence. }
    rewrite Hno. exact IH.
  - destruct (String.eqb (w_id w) other); [reflexivity | exact IH].
Qed.

Lemma find_others id other ws :
  other <> id ->
  List.find (fun w => String.eqb (w_id w) other) (others w_id id ws)
  = List.find (fun w => String.eqb (w_id w) other) ws.
Proof.
  intros Hother. induction ws as [| w ws IH]; [reflexivity |].
  unfold others in *. simpl. destruct (String.eqb (w_id w) id) eqn:Hw; simpl.
  - apply String.eqb_eq in Hw.
    assert (Hno : String.eqb (w_id w) other = false).
    { apply String.eqb_neq. congruence. }
    rewrite Hno. exact IH.
  - destruct (String.eqb (w_id w) other); [reflexivity | exact IH].
Qed.

Lemma find_others_self id ws :
  List.find (fun w => String.eqb (w_id w) id) (others w_id id ws) = None.
Proof.
  induction ws as [| w ws IH]; [reflexivity |].
  unfold others in *. simpl. destruct (String.eqb (w_id w) id) eqn:Hw; simpl.
  - exact IH.
  - rewrite Hw. exact IH.
Qed.

Lemma reset_transaction now id st site :
  getWebsite (db st) id = Some site ->
  transaction
    [eventData_deleteMany id; sessionData_deleteMany id; websiteEvent_deleteMany id;
     session_deleteMany id; website_update id (setResetAt now)] st
  = Return
      ({| db := {| website :=
                     List.map
                       (fun w => if String.eqb (w_id w) id then setResetAt now w else w)
                       (website (db st));
                   session := others s_websiteId id (session (db st));
                   websiteEvent := others e_websiteId id (websiteEvent (db st));
                   websiteStats := websiteStats (db st) |};
          eventData := others row_websiteId id (eventData st);
          sessionData := others row_websiteId id (sessionData st);
          report := report st |},
       [BatchPayload (length (owned row_websiteId id (eventData st)));
        BatchPayload (length (owned row_websiteId id (sessionData st)));
        BatchPayload (length (owned e_websiteId id (websiteEvent (db st))));
        BatchPayload (length (owned s_websiteId id (session (db st))));
        Record_ (setResetAt now site)]).
Proof.
  intros Hsite. unfold getWebsite in Hsite.
  cbn [transaction bindR eventData_deleteMany sessionData_deleteMany
       websiteEvent_deleteMany session_deleteMany].
  unfold website_update, getWebsite. cbn [db website]. rewrite Hsite.
  reflexivity.
Qed.

Lemma reset_missing now id st :
  getWebsite (db st) id = None ->
  transaction
    [eventData_deleteMany id; sessionData_deleteMany id; websiteEvent_deleteMany id;
     session_deleteMany id; website_update id (setResetAt now)] st
  = Throw "Record to update not found.".
Proof.
  intros Hsite. unfold getWebsite in Hsite.
  cbn [transaction bindR eventData_deleteMany sessionData_deleteMany
       websiteEvent_deleteMany session_deleteMany].
  unfold website_update, getWebsite. cbn [db website]. rewrite Hsite.
  reflexivity.
Qed.

(** X27: a reset of an existing website removes every session, event,
    event-data and session-data row of that website and no row of any
    other; it leaves the rollup table and the reports as they were, stamps
    the website with the time of the reset and leaves the other websites
    untouched.  A reset of a website that does not exist is rejected and
    changes nothing. *)
Theorem resetWebsite_clears_raw_keeps_rollups env now id world :
  let before := store world in
  let after := store (fst (resetWebsite env now id world)) in
  match getWebsite (db before) id with
  | Some site =>
      (exists data, snd (resetWebsite env now id world) = Return data /\ length data = 5%nat)
      /\ (forall s, In s (session (db after))
                    <-> In s (session (db before)) /\ s_websiteId s <> id)
      /\ (forall e, In e (websiteEvent (db after))
                    <-> In e (websiteEvent (db before)) /\ e_websiteId e <> id)
      /\ (forall r, In r (eventData after)
                    <-> In r (eventData before) /\ row_websiteId r <> id)
      /\ (forall r, In r (sessionData after)
                    <-> In r (sessionData before) /\ row_websiteId r <> id)
      /\ websiteStats (db after) = websiteStats (db before)
      /\ report after = report before
      /\ getWebsite (db after) id = Some (setResetAt now site)
      /\ (forall other, other <> id ->
                        getWebsite (db after) other = getWebsite (db before) other)
  | None =>
      resetWebsite env now id world = (world, Throw "Record to update not found.")
  end.
Proof.
  intros before after. subst before after.
  destruct (getWebsite (db (store world)) id) as [site |] eqn:Hsite.
  - unfold resetWebsite. rewrite (reset_transaction now id _ site Hsite).
    cbn [fst snd store db session websiteEvent websiteStats eventData sessionData report].
    split; [eexists; split; reflexivity |].
    split; [intros s; apply In_others |].
    split; [intros e; apply In_others |].
    split; [intros r; apply In_others |].
    split; [intros r; apply In_others |].
    split; [reflexivity |]. split; [reflexivity |].
    unfold getWebsite in *. cbn [website].
    split.
    + rewrite find_updated by reflexivity. rewrite Hsite. reflexivity.
    + intros other Hother. apply find_updated_other; [reflexivity | exact Hother].
  - unfold resetWebsite. rewrite (reset_missing now id _ Hsite). reflexivity.
Qed.

(** X28: after a reset at time [now], the direct queries of that website
    start no earlier than the reset: [parseFilters] sets the [startDate]
    parameter to the later of the requested start and [now]. *)
Theorem reset_moves_query_start
    (OPERATORS : Clickhouse.Operators)
    (filtersToArray : Clickhouse.QueryFilters -> list Clickhouse.FilterEntry)
    env now id world site filters :
  getWebsite (db (store world)) id = Some site ->
  exists parsed,
    Clickhouse.parseFilters OPERATORS filtersToArray
      (db (store (fst (resetWebsite env now id world)))) id filters = Return parsed
    /\ Clickhouse.params parsed !! "startDate"
       = Some (JDate (Z.max (Clickhouse.startDate filters) now))
    /\ Clickhouse.params parsed !! "websiteDomain" = Some (JStr (w_domain site)).
Proof.
  intros Hsite.
  assert (Hafter : getWebsite (db (store (fst (resetWebsite env now id world)))) id
                   = Some (setResetAt now site)).
  { unfold resetWebsite. rewrite (reset_transaction now id _ site Hsite).
    cbn [fst store db]. unfold getWebsite in *. cbn [website].
    rewrite find_updated by reflexivity. rewrite Hsite. reflexivity. }
  unfold Clickhouse.parseFilters. rewrite Hafter.
  eexists. split; [reflexivity |]. cbn [Clickhouse.params].
  split.
  - rewrite lookup_insert_ne by discriminate. rewrite lookup_insert_eq. reflexivity.
  - rewrite lookup_insert_eq. reflexivity.
Qed.

Lemma delete_transaction_soft now id st site :
  getWebsite (db st) id = Some site ->
  transaction
    [eventData_deleteMany id; sessionData_deleteMany id; websiteEvent_deleteMany id;
     session_deleteMany id; report_deleteMany id; website_update id (setDeletedAt now)] st
  = Return
      ({| db := {| website :=
                     List.map
                       (fun w => if String.eqb (w_id w) id then setDeletedAt now w else w)
                       (website (db st));
                   session := others s_websiteId id (session (db st));
                   websiteEvent := others e_websiteId id (websiteEvent (db st));
                   websiteStats := websiteStats (db st) |};
          eventData := others row_websiteId id (eventData st);
          sessionData := others row_websiteId id (sessionData st);
          report := others row_websiteId id (report st) |},
       [BatchPayload (length (owned row_websiteId id (eventData st)));
        BatchPayload (length (owned row_websiteId id (sessionData st)));
        BatchPayload (length (owned e_websiteId id (websiteEvent (db st))));
        BatchPayload (length (owned s_websiteId id (session (db st))));
        BatchPayload (length (owned row_websiteId id (report st)));
        Record_ (setDeletedAt now site)]).
Proof.
  intros Hsite. unfold getWebsite in Hsite.
  cbn [transaction bindR eventData_deleteMany sessionData_deleteMany
       websiteEvent_deleteMany session_deleteMany report_deleteMany].
  unfold website_update, getWebsite. cbn [db website]. rewrite Hsite.
  reflexivity.
Qed.

Lemma delete_transaction_hard id st site :
  getWebsite (db st) id = Some site ->
  owned Schema.websiteId id (websiteStats (db st)) = [] ->
  transaction
    [eventData_deleteMany id; sessionData_deleteMany id; websiteEvent_deleteMany id;
     session_deleteMany id; report_deleteMany id; website_delete id] st
  = Return
      ({| db := {| website := others w_id id (website (db st));
                   session := others s_websiteId id (session (db st));
                   websiteEvent := others e_websiteId id (websiteEvent (db st));
                   websiteStats := websiteStats (db st) |};
          eventData := others row_websiteId id (eventData st);
          sessionData := others row_websiteId id (sessionData st);
          report := others row_websiteId id (report st) |},
       [BatchPayload (length (owned row_websiteId id (eventData st)));
        BatchPayload (length (owned row_websiteId id (sessionData st)));
        BatchPayload (length (owned e_websiteId id (websiteEvent (db st))));
        BatchPayload (length (owned s_websiteId id (session (db st))));
        BatchPayload (length (owned row_websiteId id (report st)));
        Record_ site]).
Proof.
  intros Hsite Hstats. unfold getWebsite in Hsite.
  cbn [transaction bindR eventData_deleteMany sessionData_deleteMany
       websiteEvent_deleteMany session_deleteMany report_deleteMany].
  unfold website_delete, getWebsite. cbn [db website websiteStats].
  rewrite Hsite, Hstats. reflexivity.
Qed.

Lemma delete_transaction_refused id st site row rows :
  getWebsite (db st) id = Some site ->
  owned Schema.websiteId id (websiteStats (db st)) = row :: rows ->
  transaction
    [eventData_deleteMany id; sessionData_deleteMany id; websiteEvent_deleteMany id;
     session_deleteMany id; report_deleteMany id; website_delete id] st
  = Throw "Foreign key constraint failed on the field: website_id".
Proof.
  intros Hsite Hstats. unfold getWebsite in Hsite.
  cbn [transaction bindR eventData_deleteMany sessionData_deleteMany
       websiteEvent_deleteMany session_deleteMany report_deleteMany].
  unfold website_delete, getWebsite. cbn [db website websiteStats].
  rewrite Hsite, Hstats. reflexivity.
Qed.

Lemma delete_transaction_missing now id st (cloudMode : bool) :
  getWebsite (db st) id = None ->
  exists e,
    transaction
      [eventData_deleteMany id; sessionData_deleteMany id; websiteEvent_deleteMany id;
       session_deleteMany id; report_deleteMany id;
       if cloudMode then website_update id (setDeletedAt now) else website_delete id] st
    = Throw e.
Proof.
  intros Hsite. unfold getWebsite in Hsite.
  cbn [transaction bindR eventData_deleteMany sessionData_deleteMany
       websiteEvent_deleteMany session_deleteMany report_deleteMany].
  destruct cloudMode.
  - unfold website_update, getWebsite. cbn [db website]. rewrite Hsite. eexists; reflexivity.
  - unfold website_delete, getWebsite. cbn [db website]. rewrite Hsite. eexists; reflexivity.
Qed.

Lemma soft_deleted_inactive now id ws w :
  In w (List.filter (fun w => if w_deletedAt w is None then true else false)
          (List.map (fun w => if String.eqb (w_id w) id then setDeletedAt now w else w) ws)) ->
  w_id w <> id.
Proof.
  rewrite List.filter_In, List.in_map_iff.
  intros [(w0 & Hw & _) Hactive].
  destruct (String.eqb (w_id w0) id) eqn:Hid; subst w.
  - discriminate Hactive.
  - apply String.eqb_neq. exact Hid.
Qed.

(** X29: deleting an existing website.  With [CLOUD_MODE] set the website
    stays in the table, stamped as deleted, and the aggregation job no
    longer lists it.  Without it the website's row is removed when no
    rollup row refers to it, and the direct queries of that website then
    fail; when a rollup row refers to it the deletion is refused and
    nothing changes.  In both successful cases no session or event of the
    website remains.  Deleting a website that does not exist is rejected
    and changes nothing. *)
Theorem deleteWebsite_soft_or_hard
    (OPERATORS : Clickhouse.Operators)
    (filtersToArray : Clickhouse.QueryFilters -> list Clickhouse.FilterEntry)
    env now id world :
  let before := store world in
  let after := store (fst (deleteWebsite env now id world)) in
  let cleared :=
    (forall s, In s (session (db after)) -> s_websiteId s <> id)
    /\ (forall e, In e (websiteEvent (db after)) -> e_websiteId e <> id)
    /\ (forall other, other <> id ->
                      getWebsite (db after) other = getWebsite (db before) other) in
  match getWebsite (db before) id with
  | Some site =>
      if isSet (env_CLOUD_MODE env)
      then getWebsite (db after) id = Some (setDeletedAt now site)
           /\ (forall w, In w (Aggregation.activeWebsites (db after)) -> w_id w <> id)
           /\ cleared
      else match owned Schema.websiteId id (websiteStats (db before)) with
           | [] =>
               getWebsite (db after) id = None
               /\ (forall filters,
                     exists e, Clickhouse.parseFilters OPERATORS filtersToArray
                                 (db after) id filters = Throw e)
               /\ cleared
           | _ :: _ =>
               deleteWebsite env now id world
               = (world, Throw "Foreign key constraint failed on the field: website_id")
           end
  | None => exists e, deleteWebsite env now id world = (world, Throw e)
  end.
Proof.
  intros before after cleared. subst before after cleared.
  destruct (getWebsite (db (store world)) id) as [site |] eqn:Hsite.
  - unfold deleteWebsite.
    destruct (isSet (env_CLOUD_MODE env)).
    + rewrite (delete_transaction_soft now id _ site Hsite).
      cbn [fst store db session websiteEvent]. unfold getWebsite in *. cbn [website].
      split; [rewrite find_updated by reflexivity; rewrite Hsite; reflexivity |].
      split; [intros w; unfold Aggregation.activeWebsites; cbn [website];
              apply soft_deleted_inactive |].
      split; [intros s Hs; apply In_others in Hs; tauto |].
      split; [intros e He; apply In_others in He; tauto |].
      intros other Hother. apply find_updated_other; [reflexivity | exact Hother].
    + destruct (owned Schema.websiteId id (websiteStats (db (store world))))
        as [| row rows] eqn:Hstats.
      * rewrite (delete_transaction_hard id _ site Hsite Hstats).
        cbn [fst store db session websiteEvent]. unfold getWebsite in *. cbn [website].
        split; [apply find_others_self |].
        split; [intros filters; unfold Clickhouse.parseFilters, getWebsite; cbn [website];
                rewrite find_others_self; eexists; reflexivity |].
        split; [intros s Hs; apply In_others in Hs; tauto |].
        split; [intros e He; apply In_others in He; tauto |].
        intros other Hother. apply find_others. exact Hother.
      * rewrite (delete_transaction_refused id _ site row rows Hsite Hstats). reflexivity.
  - unfold deleteWebsite.
    destruct (delete_transaction_missing now id (store world)
                (isSet (env_CLOUD_MODE env)) Hsite) as (e & ->).
    exists e. reflexivity.
Qed.

(** X30: what the two functions do to the cache entry [website:<id>] of
    an existing website.  A reset stores there the [{ count }] of the
    deleted sessions, the fourth result of its transaction, when the
    variable [cloudMode] is set, and leaves the cache alone otherwise,
    whatever [CLOUD_MODE] says; a deletion removes the entry when
    [CLOUD_MODE] is set and leaves the cache alone otherwise. *)
Theorem cache_entry_after_reset_and_delete env now id world site :
  getWebsite (db (store world)) id = Some site ->
  redis (fst (resetWebsite env now id world))
  = (if isSet (env_cloudMode env)
     then <[cacheKey id :=
              BatchPayload (length (owned s_websiteId id (session (db (store world)))))]>
            (redis world)
     else redis world)
  /\ redis (fst (deleteWebsite env now id world))
     = (if isSet (env_CLOUD_MODE env)
        then delete (cacheKey id) (redis world)
        else redis world).
Proof.
  intros Hsite. split.
  - unfold resetWebsite. rewrite (reset_transaction now id _ site Hsite).
    cbn [fst redis]. destruct (isSet (env_cloudMode env)); reflexivity.
  - unfold deleteWebsite. destruct (isSet (env_CLOUD_MODE env)).
    + rewrite (delete_transaction_soft now id _ site Hsite). reflexivity.
    + destruct (owned Schema.websiteId id (websiteStats (db (store world))))
        as [| row rows] eqn:Hstats.
      * rewrite (delete_transaction_hard id _ site Hsite Hstats). reflexivity.
      * rewrite (delete_transaction_refused id _ site row rows Hsite Hstats). reflexivity.
Qed.
End WebsiteFacts.

Lemma reset_moves_query_start_witness :
  exists parsed,
    Clickhouse.parseFilters
      {| Clickhouse.equals := "eq"; Clickhouse.notEquals := "neq";
         Clickhouse.contains := "c"; Clickhouse.doesNotContain := "dnc" |}
      (fun _ => [])
      (WebsiteQueries.db
         (WebsiteQueries.store
            (fst (WebsiteQueries.resetWebsite SiteWorlds.cloud SiteWorlds.resetTime "a"
                    SiteWorlds.batchWorld))))
      "a" Scenarios.fromDay3 = Return parsed
    /\ Clickhouse.params parsed !! "startDate"
       = Some (JDate (Z.max (Clickhouse.startDate Scenarios.fromDay3) SiteWorlds.resetTime))
    /\ Clickhouse.params parsed !! "websiteDomain"
       = Some (JStr (Schema.w_domain Scenarios.siteA)).
Proof.
  apply (reset_moves_query_start
           {| Clickhouse.equals := "eq"; Clickhouse.notEquals := "neq";
              Clickhouse.contains := "c"; Clickhouse.doesNotContain := "dnc" |}
           (fun _ => []) SiteWorlds.cloud SiteWorlds.resetTime "a" SiteWorlds.batchWorld
           Scenarios.siteA Scenarios.fromDay3).
  reflexivity.
Defined.

Lemma cache_entry_after_reset_and_delete_witness :
  WebsiteQueries.redis
    (fst (WebsiteQueries.resetWebsite SiteWorlds.cloud SiteWorlds.resetTime "a"
            SiteWorlds.batchWorld))
  = WebsiteQueries.redis SiteWorlds.batchWorld
  /\ WebsiteQueries.redis
       (fst (WebsiteQueries.deleteWebsite SiteWorlds.cloud SiteWorlds.resetTime "a"
               SiteWorlds.batchWorld))
     = delete "website:a" (WebsiteQueries.redis SiteWorlds.batchWorld).
Proof.
  apply (cache_entry_after_reset_and_delete SiteWorlds.cloud SiteWorlds.resetTime "a"
           SiteWorlds.batchWorld Scenarios.siteA).
  reflexivity.
Defined.
